(** * Order pricing and order capture of the admin backend

    A shallow embedding of the order routes of [src/index.js] (and of their
    earlier form in [src/unnamed/part_000]): [POST /api/orders] and
    [PATCH /api/orders/:id/status], with the Mongoose schemas they write
    through.

    - JSON request bodies are [value]s; JavaScript numbers are binary64
      floats ([PrimFloat.float]), so [+], [*], [>=] are the operations the
      handler really performs.
    - What the handlers call but do not define (string/number conversion of
      the language, [ObjectId], the casts of Mongoose, the validators of
      express-validator) is the interface [Platform]; [Ref.platform] is an
      executable instance used by the examples.
    - The two collections and the sequence of store accesses form the
      [world] a handler runs in. *)

From Stdlib Require Import PrimFloat FloatOps SpecFloat ZArith Ascii.
From stdpp Require Import gmap strings list pretty.

#[global] Set Warnings "-register-all".

(** ** JSON values *)

Inductive value : Type :=
| VUndef
| VNull
| VBool (b : bool)
| VNum (f : float)
| VStr (s : string)
| VArr (l : list value)
| VObj (m : gmap string value).

(** A MongoDB [ObjectId], as its canonical hexadecimal text. *)
Definition oid : Type := string.

(** The language built-ins the handlers rely on. *)
Class Runtime : Type := {
  (** [Number(s)] on a string: [StringToNumber] of ECMAScript. *)
  StringToNumber : string → float;
  (** [String(n)] on a number. *)
  NumberToString : float → string;
  (** [String.prototype.trim]. *)
  StringTrim : string → string;
}.

(** The runtime together with the libraries underneath the handlers. *)
Class Platform : Type := {
  #[global] platformRuntime :: Runtime;
  (** The cast of a query's [_id] that [findById] and
      [findByIdAndDelete] do: the identifier the value is cast to, if
      any. *)
  ObjectId : value → option oid;
  (** [Types.ObjectId.isValid]. It is a check of its own: it accepts a
      number, which the cast of a query (done on the number's text)
      refuses. *)
  isValid : value → bool;
  (** On a text both are [new ObjectId(text)]. *)
  isValid_text : ∀ s,
    isValid (VStr s) = match ObjectId (VStr s) with
                       | Some _ => true
                       | None => false
                       end;
  (** The cast of a [String] path on a value that is neither a text nor
      [null] nor [undefined]: the text it is stored as, if any. *)
  stringOf : value → option string;
  (** validator.js [isNumeric]. *)
  isNumeric : string → bool;
  (** express-validator: the texts a standard validator is run on for a
      field value (one per element when the value is an array). *)
  fieldText : value → list string;
  fieldText_str : ∀ s, fieldText (VStr s) = [s];
  fieldText_undefined : fieldText VUndef = [""];
  fieldText_null : fieldText VNull = [""];
}.

Module JS.

(** [ToBoolean]. *)
Definition truthy (v : value) : bool :=
  match v with
  | VUndef | VNull => false
  | VBool b => b
  | VNum f => negb (is_zero f || is_nan f)
  | VStr s => negb (String.eqb s "")
  | VArr _ | VObj _ => true
  end.

(** [a || b]. *)
Definition orElse (a b : value) : value := if truthy a then a else b.

(** [a ?? b]. *)
Definition nullish (a b : value) : value :=
  match a with
  | VUndef | VNull => b
  | _ => a
  end.

(** [v.k] for the property names the handlers read: a parsed JSON object
    has exactly its own keys, every other JSON value has none of them. *)
Definition getProp (v : value) (k : string) : value :=
  match v with
  | VObj m => default VUndef (m !! k)
  | _ => VUndef
  end.

(** [Array.isArray]. *)
Definition Array_isArray (v : value) : bool :=
  match v with
  | VArr _ => true
  | _ => false
  end.

(** [v?.k]. *)
Definition optChain (v : value) (k : string) : value :=
  match v with
  | VUndef | VNull => VUndef
  | _ => getProp v k
  end.

Section Join.
Context (elem : value → option string).

(** [Array.prototype.join] with the default separator. *)
Fixpoint joinComma (l : list value) : option string :=
  match l with
  | [] => Some ""
  | [x] => elem x
  | x :: rest => s ← elem x; r ← joinComma rest; Some (s +:+ "," +:+ r)
  end.
End Join.

(** [ToString], and equally the [toString()] method of a value that is
    not nullish. [None] is a thrown [TypeError]: a parsed object whose
    own [toString] key shadows the inherited method with a value that
    cannot be called. *)
Fixpoint ToString `{Runtime} (v : value) : option string :=
  match v with
  | VUndef => Some "undefined"
  | VNull => Some "null"
  | VBool true => Some "true"
  | VBool false => Some "false"
  | VNum f => Some (NumberToString f)
  | VStr s => Some s
  | VArr l =>
      joinComma (λ x, match x with
                      | VUndef | VNull => Some ""
                      | _ => ToString x
                      end) l
  | VObj m =>
      match m !! "toString" with
      | Some _ => None
      | None => Some "[object Object]"
      end
  end.

(** [Number(v)]: [ToNumber]; objects and arrays go through their
    primitive (string) form. *)
Definition ToNumber `{Runtime} (v : value) : option float :=
  match v with
  | VUndef => Some nan
  | VNull => Some 0%float
  | VBool true => Some 1%float
  | VBool false => Some 0%float
  | VNum f => Some f
  | VStr s => Some (StringToNumber s)
  | VArr _ | VObj _ => StringToNumber <$> ToString v
  end.

End JS.

(** ** The Mongoose models *)

Module Product.
(** [ProductSchema]: a stored product document. [priceAfterDiscount] and
    [imageUrl] are optional paths. *)
Record t : Type := mk {
  _id : oid;
  title : string;
  code : string;
  description : option string;
  price : float;
  priceAfterDiscount : option float;
  imageUrl : option string;
  sizes : list string;
  categories : list string;
  createdAt : Z;
}.
End Product.

Module OrderProduct.
(** [OrderProductSchema]: one line-item of an order. The same record is
    the object the handler pushes on [detailed], where [size], [imageUrl]
    and [category] hold whatever value the handler assigned, and the
    subdocument [new Order] makes of it, where these [String] paths hold a
    text, [null] or [undefined] ([OrderProduct_cast]). [customFields] is
    [Mixed] and holds any value. *)
Record t : Type := mk {
  productId : oid;
  title : string;
  code : string;
  price : float;
  quantity : float;
  size : value;
  color : string;
  imageUrl : value;
  category : value;
  customFields : value;
}.
End OrderProduct.

Module Order.
(** [OrderSchema]. The same record is the object literal passed to
    [new Order], whose contact fields hold what the request gave, and the
    document, where these [String] paths hold a text, [null] or
    [undefined] ([Order_cast]). [customFields] is [Mixed]. *)
Record t : Type := mk {
  _id : oid;
  products : list OrderProduct.t;
  customerName : value;
  phone : value;
  division : value;
  district : value;
  upazila : value;
  address : value;
  color : string;
  totalValue : float;
  deliveryCharge : float;
  status : value;
  createdAt : Z;
  customFields : value;
}.

(** The [enum] of the [status] path. *)
Definition statuses : list string :=
  ["pending"; "processing"; "delivered"; "cancelled"].

(** [order.status = v]. *)
Definition withStatus (o : t) (v : value) : t :=
  mk (_id o) (products o) (customerName o) (phone o) (division o)
     (district o) (upazila o) (address o) (color o) (totalValue o)
     (deliveryCharge o) v (createdAt o) (customFields o).

Definition statusInEnum (v : value) : bool :=
  match v with
  | VStr s => bool_decide (s ∈ statuses)
  | _ => false
  end.

(** Document validation before a write: the [min] validators of
    [quantity], [totalValue], [deliveryCharge] and the [enum] of
    [status]. *)
Definition validate (o : t) : bool :=
  forallb (λ l, (1 <=? OrderProduct.quantity l)%float) (products o)
  && (0 <=? totalValue o)%float
  && (0 <=? deliveryCharge o)%float
  && statusInEnum (status o).
End Order.

(** ** Responses and the handler monad *)

(** What reaches the error-handling middleware. *)
Inductive exn : Type :=
| TypeError
| CastError
| ValidationError.

Inductive payload : Type :=
| Message (message : string)
| ValidationFailed (errors : list (string * string))
| OrderDoc (o : Order.t)
| Uncaught (e : exn).

Record response : Type := Response {
  statusCode : Z;
  json : payload;
}.

(** One access to a collection. *)
Inductive access : Type :=
| ProductFindById (id : value)
| OrderFindById (id : value)
| OrderSave (id : oid).

Record world : Type := World {
  productColl : gmap oid Product.t;
  orderColl : gmap oid Order.t;
  accesses : list access;
}.

Inductive outcome (A : Type) : Type :=
| Next (a : A)
| Sent (r : response).
Arguments Next {A} a.
Arguments Sent {A} r.

(** A route handler: it continues with a value or has sent its response,
    and threads the [world]. *)
Definition Handler (A : Type) : Type := world → outcome A * world.

#[global] Instance Handler_ret : MRet Handler := λ A a w, (Next a, w).

#[global] Instance Handler_bind : MBind Handler := λ A B f m w,
  match m w with
  | (Next a, w') => f a w'
  | (Sent r, w') => (Sent r, w')
  end.

(** [return res.status(c).json(j)]. *)
Definition send {A} (c : Z) (j : payload) : Handler A :=
  λ w, (Sent (Response c j), w).

(** An exception leaves the handler and is answered by the last
    middleware: [err.status || 500]. *)
Definition throw {A} (e : exn) : Handler A := send 500 (Uncaught e).

(** A conversion that throws [TypeError] when it has no result. *)
Definition orTypeError {A} (o : option A) : Handler A :=
  match o with
  | Some a => mret a
  | None => throw TypeError
  end.

(** The current state of the collections. *)
Definition getWorld : Handler world := λ w, (Next w, w).

Definition record (a : access) : Handler unit :=
  λ w, (Next tt, World (productColl w) (orderColl w) (accesses w ++ [a])).

(** Write document [o] of the orders collection under its [_id]. *)
Definition writeOrder (o : Order.t) : Handler unit :=
  λ w, (Next tt,
        World (productColl w) (<[Order._id o := o]> (orderColl w))
              (accesses w)).

(** The response of a handler and the world it leaves. *)
Definition run (h : Handler response) (w : world) : response * world :=
  match h w with
  | (Next r, w') => (r, w')
  | (Sent r, w') => (r, w')
  end.

(** ** The models' store operations *)

Section Store.
Context `{Platform}.

(** [isValidObjectId]: [Types.ObjectId.isValid(v)]. *)
Definition isValidObjectId (v : value) : bool := isValid v.

(** The cast of a query's [_id]; Mongoose throws when it fails. *)
Definition castObjectId (v : value) : Handler oid :=
  match ObjectId v with
  | Some k => mret k
  | None => throw CastError
  end.

(** [Product.findById]. *)
Definition Product_findById (id : value) : Handler (option Product.t) :=
  _ ← record (ProductFindById id);
  k ← castObjectId id;
  w ← getWorld;
  mret (productColl w !! k).

(** [Order.findById]. *)
Definition Order_findById (id : value) : Handler (option Order.t) :=
  _ ← record (OrderFindById id);
  k ← castObjectId id;
  w ← getWorld;
  mret (orderColl w !! k).

(** The cast of a [String] path: [undefined], [null] and a text are kept,
    any other value is stored as the text Mongoose makes of it. [None] is
    a [CastError]. *)
Definition castString (v : value) : option value :=
  match v with
  | VUndef | VNull | VStr _ => Some v
  | _ => VStr <$> stringOf v
  end.

(** A [String] path with [trim: true]: the setter trims a text. *)
Definition castTrimmed (v : value) : option value :=
  s ← castString v;
  Some match s with
       | VStr s => VStr (StringTrim s)
       | _ => s
       end.

(** An element of [products] cast to [OrderProductSchema]. The [Number]
    paths hold numbers already; one that is [NaN] is refused by the cast
    in Mongoose and by [Order.validate] here, through the total. *)
Definition OrderProduct_cast (l : OrderProduct.t) : option OrderProduct.t :=
  size ← castString (OrderProduct.size l);
  imageUrl ← castString (OrderProduct.imageUrl l);
  category ← castString (OrderProduct.category l);
  Some (OrderProduct.mk (OrderProduct.productId l) (OrderProduct.title l)
          (OrderProduct.code l) (OrderProduct.price l)
          (OrderProduct.quantity l) size (OrderProduct.color l) imageUrl
          category (OrderProduct.customFields l)).

(** [new Order(literal)]: every path is cast as it is set. [None]: some
    path could not be cast; Mongoose keeps the error in the document and
    [save] rejects with it. *)
Definition Order_cast (o : Order.t) : option Order.t :=
  products ← mapM OrderProduct_cast (Order.products o);
  customerName ← castTrimmed (Order.customerName o);
  phone ← castTrimmed (Order.phone o);
  division ← castTrimmed (Order.division o);
  district ← castTrimmed (Order.district o);
  upazila ← castTrimmed (Order.upazila o);
  address ← castString (Order.address o);
  status ← castString (Order.status o);
  Some (Order.mk (Order._id o) products customerName phone division district
          upazila address (StringTrim (Order.color o)) (Order.totalValue o)
          (Order.deliveryCharge o) status (Order.createdAt o)
          (Order.customFields o)).

(** [order.status = v] on a document. *)
Definition Order_setStatus (o : Order.t) (v : value) : option Order.t :=
  status ← castString v;
  Some (Order.withStatus o status).

(** [doc.save()]: validate, then write the document under its [_id]. A
    document holding a cast error ([None]) fails the validation like one
    that fails a validator. The saved document is returned. *)
Definition Order_save (doc : option Order.t) : Handler Order.t :=
  match doc with
  | Some o =>
      if Order.validate o then
        _ ← record (OrderSave (Order._id o));
        _ ← writeOrder o;
        mret o
      else throw ValidationError
  | None => throw ValidationError
  end.

(** ** The pricing loop of [POST /api/orders] *)

(** [unitPrice]: the discounted price when it is a number and [>= 0]. *)
Definition unitPrice (prod : Product.t) : float :=
  match Product.priceAfterDiscount prod with
  | Some d => if (0 <=? d)%float then d else Product.price prod
  | None => Product.price prod
  end.

(** [qty]: [Number(p.quantity ?? 1) || 1]. *)
Definition qty (p : value) : option float :=
  n ← JS.ToNumber (JS.nullish (JS.getProp p "quantity") (VNum 1));
  Some (if JS.truthy (VNum n) then n else 1%float).

(** A document's optional string path, read as a JavaScript value. *)
Definition optionalString (o : option string) : value :=
  match o with
  | Some s => VStr s
  | None => VUndef
  end.

(** [prod.categories?.[0]]. *)
Definition firstCategory (prod : Product.t) : value :=
  match Product.categories prod with
  | c :: _ => VStr c
  | [] => VUndef
  end.

(** The object pushed on [detailed] for cart line [p]. *)
Definition detail (p : value) (prod : Product.t) (unitPrice qty : float)
  : option OrderProduct.t :=
  color ← JS.ToString (JS.nullish (JS.getProp p "color") (VStr ""));
  Some {|
    OrderProduct.productId := Product._id prod;
    OrderProduct.title := Product.title prod;
    OrderProduct.code := Product.code prod;
    OrderProduct.price := unitPrice;
    OrderProduct.quantity := qty;
    OrderProduct.size := JS.orElse (JS.getProp p "size") VNull;
    OrderProduct.color := StringTrim color;
    OrderProduct.imageUrl :=
      JS.orElse
        (JS.orElse (JS.getProp p "imageUrl")
                   (optionalString (Product.imageUrl prod)))
        (VStr "");
    OrderProduct.category :=
      JS.orElse (JS.getProp p "category")
                (JS.orElse (firstCategory prod) VNull);
    OrderProduct.customFields :=
      JS.orElse (JS.getProp p "customFields") (VObj ∅);
  |}.

(** [for (const p of products) { ... }], with the running [productTotal]
    and the [detailed] array built so far. *)
Fixpoint priceLines (products : list value) (productTotal : float)
    (detailed : list OrderProduct.t)
  : Handler (float * list OrderProduct.t) :=
  match products with
  | [] => mret (productTotal, detailed)
  | p :: rest =>
      let pid := JS.optChain p "productId" in
      if negb (JS.truthy pid) || negb (isValidObjectId pid) then
        s ← orTypeError (JS.ToString pid);
        send 400 (Message ("Invalid productId: " +:+ s))
      else
        found ← Product_findById pid;
        match found with
        | None =>
            s ← orTypeError (JS.ToString pid);
            send 400 (Message ("Product " +:+ s +:+ " not found"))
        | Some prod =>
            let unitPrice := unitPrice prod in
            q ← orTypeError (qty p);
            let productTotal := (productTotal + unitPrice * q)%float in
            item ← orTypeError (detail p prod unitPrice q);
            priceLines rest productTotal (detailed ++ [item])
        end
  end.

(** The elements a [for ... of] visits. *)
Definition elements (v : value) : list value :=
  match v with
  | VArr l => l
  | _ => []
  end.

(** The object literal of [new Order({...})] with the converted [color]
    and [deliveryCharge], completed by the schema's defaults: [fresh] is
    the generated [_id], [now] the [createdAt] default; [status] is not
    passed and takes its default. *)
Definition newOrder (body : value) (fresh : oid) (now : Z)
    (productTotal : float) (detailed : list OrderProduct.t)
    (color : string) (charge : float) : Order.t := {|
  Order._id := fresh;
  Order.products := detailed;
  Order.customerName := JS.getProp body "customerName";
  Order.phone := JS.getProp body "phone";
  Order.division := JS.getProp body "division";
  Order.district := JS.getProp body "district";
  Order.upazila := JS.getProp body "upazila";
  Order.address := JS.getProp body "address";
  Order.color := StringTrim color;
  Order.totalValue := productTotal;
  Order.deliveryCharge := charge;
  Order.status := VStr "pending";
  Order.createdAt := now;
  Order.customFields := JS.orElse (JS.getProp body "customFields") (VObj ∅);
|}.

(** The end of [POST /api/orders], after the loop: build the order, save
    it, answer 201 with the document. Shared by both versions of the
    route. *)
Definition saveOrder (body : value) (fresh : oid) (now : Z)
    (productTotal : float) (detailed : list OrderProduct.t)
  : Handler response :=
  color ← orTypeError
    (JS.ToString (JS.nullish (JS.getProp body "color") (VStr "")));
  charge ← orTypeError
    (JS.ToNumber (JS.orElse (JS.getProp body "deliveryCharge") (VNum 0)));
  let order :=
    Order_cast (newOrder body fresh now productTotal detailed color charge) in
  order ← Order_save order;
  mret (Response 201 (OrderDoc order)).

(** ** express-validator *)

(** The errors of a standard validator on a field: one per text that
    fails. *)
Definition standard (validator : string → bool) (path msg : string)
    (v : value) : list (string * string) :=
  (λ _, (path, msg)) <$> filter (λ s, validator s = false) (fieldText v).

(** The errors of a custom validator, which sees the value itself. *)
Definition custom (validator : value → bool) (path msg : string)
    (v : value) : list (string * string) :=
  if validator v then [] else [(path, msg)].

(** [isArray({ min })]. *)
Definition isArray (min : nat) (v : value) : bool :=
  match v with
  | VArr l => bool_decide (min ≤ length l)
  | _ => false
  end.

(** [isIn(values)]. *)
Definition isIn (values : list string) (s : string) : bool :=
  bool_decide (s ∈ values).

(** [ensureValidation]: answer 400 when the chains reported errors. *)
Definition ensureValidation (errors : list (string * string))
  : Handler unit :=
  match errors with
  | [] => mret tt
  | _ => send 400 (ValidationFailed errors)
  end.

End Store.

(** ** The routes of [src/index.js] *)

Module Server.
Section Routes.
Context `{Platform}.

(** The validation middleware of [POST /api/orders]. *)
Definition ordersChains (body : value) : list (string * string) :=
  custom (isArray 1) "products" "Products are required"
         (JS.getProp body "products")
  ++ match JS.getProp body "deliveryCharge" with
     | VUndef => []
     | v => standard isNumeric "deliveryCharge" "Invalid value" v
     end.

(** [POST /api/orders]. *)
Definition postOrders (body : value) (fresh : oid) (now : Z)
  : Handler response :=
  _ ← ensureValidation (ordersChains body);
  priced ← priceLines (elements (JS.getProp body "products")) 0 [];
  saveOrder body fresh now priced.1 priced.2.

(** The validation middleware of [PATCH /api/orders/:id/status]. *)
Definition statusChain (body : value) : list (string * string) :=
  standard (isIn Order.statuses) "status" "Invalid status"
           (JS.getProp body "status").

(** [PATCH /api/orders/:id/status]. *)
Definition patchOrderStatus (id : string) (body : value)
  : Handler response :=
  _ ← ensureValidation (statusChain body);
  if negb (isValidObjectId (VStr id)) then
    send 400 (Message "Invalid order id")
  else
    found ← Order_findById (VStr id);
    match found with
    | None => send 404 (Message "Order not found")
    | Some order =>
        let order :=
          Order_setStatus order
            (JS.nullish (JS.getProp body "status") (Order.status order)) in
        order ← Order_save order;
        mret (Response 200 (OrderDoc order))
    end.

End Routes.
End Server.

(** ** The same routes in [src/unnamed/part_000] *)

Module Legacy.
Section Routes.
Context `{Platform}.

(** [POST /api/orders], with the cart checked in the handler. *)
Definition postOrders (body : value) (fresh : oid) (now : Z)
  : Handler response :=
  let products := JS.getProp body "products" in
  if negb (JS.truthy products) || negb (JS.Array_isArray products)
     || bool_decide (length (elements products) = 0%nat) then
    send 400 (Message "Products are required")
  else
    priced ← priceLines (elements products) 0 [];
    saveOrder body fresh now priced.1 priced.2.

(** [PATCH /api/orders/:id/status], with no check of [status] before the
    write. *)
Definition patchOrderStatus (id : string) (body : value)
  : Handler response :=
  if negb (isValidObjectId (VStr id)) then
    send 400 (Message "Invalid order id")
  else
    found ← Order_findById (VStr id);
    match found with
    | None => send 404 (Message "Order not found")
    | Some order =>
        let order :=
          Order_setStatus order
            (JS.nullish (JS.getProp body "status") (Order.status order)) in
        order ← Order_save order;
        mret (Response 200 (OrderDoc order))
    end.

End Routes.
End Legacy.

(** ** A reference platform

    An executable [Platform] for the examples. It is exact on what the
    examples use and partial beyond: numbers are read from plain decimal
    literals (sign, digits, fraction; no exponent, no other radix) and
    printed as their exact decimal expansion (never in exponent form);
    identifiers are the 24-digit hexadecimal texts; whitespace is the
    ASCII one. The properties below hold for every [Platform]; the
    counterexamples are runs on this one. *)

Module Ref.

Definition isDigit (c : ascii) : bool :=
  let n := nat_of_ascii c in bool_decide (48 ≤ n ≤ 57)%nat.

Definition isHexDigit (c : ascii) : bool :=
  let n := nat_of_ascii c in
  bool_decide ((48 ≤ n ≤ 57) ∨ (65 ≤ n ≤ 70) ∨ (97 ≤ n ≤ 102))%nat.

Definition isSpace (c : ascii) : bool :=
  let n := nat_of_ascii c in bool_decide ((9 ≤ n ≤ 13) ∨ n = 32)%nat.

Definition toLower (c : ascii) : ascii :=
  let n := nat_of_ascii c in
  if bool_decide (65 ≤ n ≤ 90)%nat then ascii_of_nat (n + 32) else c.

Definition chars (s : string) : list ascii := String.list_ascii_of_string s.
Definition text (l : list ascii) : string := String.string_of_list_ascii l.

Fixpoint takeWhile (p : ascii → bool) (l : list ascii) : list ascii :=
  match l with
  | c :: rest => if p c then c :: takeWhile p rest else []
  | [] => []
  end.

Fixpoint dropWhile (p : ascii → bool) (l : list ascii) : list ascii :=
  match l with
  | c :: rest => if p c then dropWhile p rest else l
  | [] => []
  end.

Definition trim (s : string) : string :=
  text (reverse (dropWhile isSpace (reverse (dropWhile isSpace (chars s))))).

Definition digitValue (c : ascii) : float :=
  nth (nat_of_ascii c - 48)
      [0; 1; 2; 3; 4; 5; 6; 7; 8; 9]%float nan.

(** The float of a digit sequence, and ten to the number of digits. *)
Definition digitsValue (l : list ascii) : float * float :=
  foldl (λ acc c, (acc.1 * 10 + digitValue c, acc.2 * 10)%float)
        (0%float, 1%float) l.

Definition unsignedDecimal (l : list ascii) : float :=
  let whole := takeWhile isDigit l in
  let after := dropWhile isDigit l in
  match after with
  | [] => if bool_decide (whole = []) then nan else (digitsValue whole).1
  | c :: frac =>
      if bool_decide (c = "."%char) && forallb isDigit frac
         && negb (bool_decide (whole = []) && bool_decide (frac = [])) then
        let v := digitsValue (whole ++ frac) in
        (v.1 / (digitsValue frac).2)%float
      else nan
  end.

Definition stringToNumber (s : string) : float :=
  match chars (trim s) with
  | [] => 0%float
  | c :: rest =>
      if bool_decide (c = "-"%char) then (- unsignedDecimal rest)%float
      else if bool_decide (c = "+"%char) then unsignedDecimal rest
      else unsignedDecimal (c :: rest)
  end.

(** The exact decimal text of [m * 2^e]. *)
Definition dyadicText (m : positive) (e : Z) : string :=
  if bool_decide (0 ≤ e)%Z then pretty (Z.pos m * 2 ^ e)%Z
  else
    let k := Z.to_nat (- e) in
    let scaled := (Z.pos m * 5 ^ Z.of_nat k)%Z in
    let whole := (scaled / 10 ^ Z.of_nat k)%Z in
    let frac := chars (pretty (scaled mod 10 ^ Z.of_nat k)%Z) in
    let padded := replicate (k - length frac) "0"%char ++ frac in
    let digits := reverse (dropWhile (λ c, bool_decide (c = "0"%char))
                                      (reverse padded)) in
    match digits with
    | [] => pretty whole
    | _ => pretty whole +:+ "." +:+ text digits
    end.

Definition numberToString (f : float) : string :=
  match Prim2SF f with
  | S754_zero _ => "0"
  | S754_infinity false => "Infinity"
  | S754_infinity true => "-Infinity"
  | S754_nan => "NaN"
  | S754_finite sign m e =>
      (if sign then "-" else "") +:+ dyadicText m e
  end.

Definition runtime : Runtime := {|
  StringToNumber := stringToNumber;
  NumberToString := numberToString;
  StringTrim := trim;
|}.

(** The cast of a query's [_id] goes through the value's text, and the
    text of a number is never 24 hexadecimal digits. *)
Definition objectId (v : value) : option oid :=
  match v with
  | VStr s =>
      if bool_decide (length (chars s) = 24%nat) && forallb isHexDigit (chars s)
      then Some (text (toLower <$> chars s))
      else None
  | _ => None
  end.

(** [ObjectId.isValid]: an identifier's text, or any number. *)
Definition valid (v : value) : bool :=
  match v with
  | VStr _ => match objectId v with
              | Some _ => true
              | None => false
              end
  | VNum _ => true
  | _ => false
  end.

(** The pattern [^[+-]?([0-9]*[.])?[0-9]+$]. *)
Definition numeric (s : string) : bool :=
  let unsigned :=
    match chars s with
    | c :: rest =>
        if bool_decide (c = "-"%char ∨ c = "+"%char) then rest else c :: rest
    | [] => []
    end in
  let lead := takeWhile isDigit unsigned in
  match dropWhile isDigit unsigned with
  | [] => negb (bool_decide (lead = []))
  | c :: frac =>
      bool_decide (c = "."%char) && forallb isDigit frac
      && negb (bool_decide (frac = []))
  end.

(** The text of one field value. *)
Definition text1 (v : value) : string :=
  match v with
  | VUndef | VNull => ""
  | VNum f => if is_nan f then "" else numberToString f
  | VObj _ => "[object Object]"
  | _ => default "" (JS.ToString (H := runtime) v)
  end.

Definition texts (v : value) : list string :=
  match v with
  | VArr l => text1 <$> l
  | _ => [text1 v]
  end.

(** Mongoose's [castString] besides texts: a number or a boolean is
    stored as its text, an object with a non-empty text under [_id] as
    that text; an array or any other object is refused. *)
Definition castText (v : value) : option string :=
  match v with
  | VNum f => Some (numberToString f)
  | VBool true => Some "true"
  | VBool false => Some "false"
  | VObj m =>
      match m !! "_id" with
      | Some (VStr s) => if String.eqb s "" then None else Some s
      | _ => None
      end
  | _ => None
  end.

Definition platform : Platform := {|
  platformRuntime := runtime;
  ObjectId := objectId;
  isValid := valid;
  isValid_text := λ _, eq_refl;
  stringOf := castText;
  isNumeric := numeric;
  fieldText := texts;
  fieldText_str := λ _, eq_refl;
  fieldText_undefined := eq_refl;
  fieldText_null := eq_refl;
|}.

End Ref.

(** * Vocabulary of the properties *)

(** Two worlds with the same collections (the access log may differ). *)
Definition sameColls (w w' : world) : Prop :=
  productColl w' = productColl w ∧ orderColl w' = orderColl w.

(** The sum of [price * quantity] over line-items, added in order from
    [start]. *)
Definition sumLines (start : float) (items : list OrderProduct.t) : float :=
  foldl (λ acc it,
           (acc + OrderProduct.price it * OrderProduct.quantity it)%float)
        start items.

Section Vocabulary.
Context `{Platform}.

(** The product a cart line resolves to: its [productId] is truthy,
    passes [isValidObjectId], is cast to an identifier, and the catalog
    holds a document under it. *)
Definition resolve (coll : gmap oid Product.t) (p : value)
  : option Product.t :=
  let pid := JS.optChain p "productId" in
  if JS.truthy pid && isValidObjectId pid then
    k ← ObjectId pid; coll !! k
  else None.

(** The object the loop pushes on [detailed] for cart line [p], when the
    line resolves and its conversions do not throw. *)
Definition pushed (coll : gmap oid Product.t) (p : value)
  : option OrderProduct.t :=
  prod ← resolve coll p; q ← qty p; detail p prod (unitPrice prod) q.

(** Line-item [item] is the snapshot of cart line [p] priced from product
    [prod] of the catalog: the object the loop pushes for the line, cast
    to the schema. *)
Definition pricedFrom (coll : gmap oid Product.t) (p : value)
    (prod : Product.t) (item : OrderProduct.t) : Prop :=
  resolve coll p = Some prod ∧
  ∃ q raw, qty p = Some q ∧ detail p prod (unitPrice prod) q = Some raw ∧
           OrderProduct_cast raw = Some item.

Definition pricedLine (coll : gmap oid Product.t) (p : value)
    (item : OrderProduct.t) : Prop :=
  ∃ prod, pricedFrom coll p prod item.

(** The snapshot the route stores for cart line [p], when the line
    resolves, converts and is cast. *)
Definition snapshot (coll : gmap oid Product.t) (p : value)
  : option OrderProduct.t :=
  raw ← pushed coll p; OrderProduct_cast raw.

(** What the loop answers to a cart line that does not resolve: the 400
    naming its id when the id is falsy, fails [isValidObjectId] or names
    no product; the 500 of the exception when the query's cast refuses
    the id or the id has no text. *)
Definition refusal (p : value) : response :=
  let pid := JS.optChain p "productId" in
  if negb (JS.truthy pid) || negb (isValidObjectId pid) then
    match JS.ToString pid with
    | Some s => Response 400 (Message ("Invalid productId: " +:+ s))
    | None => Response 500 (Uncaught TypeError)
    end
  else
    match ObjectId pid, JS.ToString pid with
    | None, _ => Response 500 (Uncaught CastError)
    | Some _, Some s => Response 400 (Message ("Product " +:+ s +:+ " not found"))
    | Some _, None => Response 500 (Uncaught TypeError)
    end.

(** The stored form of a status value is none of the four statuses. *)
Definition outsideEnum (v : value) : Prop :=
  ∀ s, castString v = Some (VStr s) → s ∉ Order.statuses.

(** Either version of [POST /api/orders] answers [r] and leaves [w']. *)
Definition answers (body : value) (fresh : oid) (now : Z) (w : world)
    (r : response) (w' : world) : Prop :=
  run (Server.postOrders body fresh now) w = (r, w')
  ∨ run (Legacy.postOrders body fresh now) w = (r, w').

(** Either version of [POST /api/orders] answers 201 with order [o]. *)
Definition creates (body : value) (fresh : oid) (now : Z) (w : world)
    (o : Order.t) (w' : world) : Prop :=
  answers body fresh now w (Response 201 (OrderDoc o)) w'.

(** What remains of the route once the cart is known to be a non-empty
    array: the loop, then the save. *)
Definition priceAndSave (body : value) (lines : list value) (fresh : oid)
    (now : Z) : Handler response :=
  priced ← priceLines lines 0 [];
  saveOrder body fresh now priced.1 priced.2.

(** The amount of a cart line: the unit price of the product it resolves
    to, times its normalized quantity. It reads the catalog and, of the
    line, only [productId] and [quantity]. *)
Definition lineAmount (coll : gmap oid Product.t) (p : value)
  : option float :=
  prod ← resolve coll p; q ← qty p; Some (unitPrice prod * q)%float.

(** Amounts added in order, as [productTotal += ...] does from 0. *)
Definition addUp (amounts : list float) : float :=
  foldl PrimFloat.add 0%float amounts.

(** Two cart lines with the same product reference and quantity. *)
Definition samePricingInput (p1 p2 : value) : Prop :=
  JS.optChain p1 "productId" = JS.optChain p2 "productId" ∧
  JS.getProp p1 "quantity" = JS.getProp p2 "quantity".

(** The category rule read by presence: the cart line's [category] when
    the line has one, else the product's first category, else none. *)
Definition categoryByPresence (p : value) (prod : Product.t) : value :=
  match JS.getProp p "category" with
  | VUndef | VNull =>
      match Product.categories prod with
      | c :: _ => VStr c
      | [] => VNull
      end
  | v => v
  end.

(** The category rule as the snapshot applies it: by truthiness. *)
Definition categoryByTruthiness (p : value) (prod : Product.t) : value :=
  if JS.truthy (JS.getProp p "category") then JS.getProp p "category"
  else match Product.categories prod with
       | c :: _ => if JS.truthy (VStr c) then VStr c else VNull
       | [] => VNull
       end.

End Vocabulary.

(** ** Example data *)

Module Example.

Definition obj (fields : list (string * value)) : value :=
  VObj (list_to_map fields).

Definition P1 : oid := "64b7f0a1c2d3e4f5a6b7c8d9".
Definition P2 : oid := "64b7f0a1c2d3e4f5a6b7c8da".
Definition O1 : oid := "650000000000000000000001".
Definition O2 : oid := "650000000000000000000002".

(** [price = 100], [priceAfterDiscount = 80]. *)
Definition shirt : Product.t :=
  Product.mk P1 "Shirt" "SH-1" None 100 (Some 80%float)
             (Some "/uploads/shirt.png") ["S"; "M"] ["beetroth"] 0.

(** No discount, no image, no category. *)
Definition scarf : Product.t :=
  Product.mk P2 "Scarf" "SC-1" None 30 None None [] [] 0.

Definition catalog : gmap oid Product.t :=
  <[P1 := shirt]> (<[P2 := scarf]> ∅).

Definition shop : world := World catalog ∅ [].

Definition lineItem (prod : Product.t) (price quantity : float)
    (imageUrl category : value) : OrderProduct.t :=
  OrderProduct.mk (Product._id prod) (Product.title prod) (Product.code prod)
                  price quantity VNull "" imageUrl category (VObj ∅).

Definition order (id : oid) (items : list OrderProduct.t)
    (total charge : float) : Order.t :=
  Order.mk id items VUndef VUndef VUndef VUndef VUndef VUndef ""
           total charge (VStr "pending") 7 (VObj ∅).

Definition stored (w : world) (o : Order.t) (found : list access) : world :=
  World (productColl w) (<[Order._id o := o]> (orderColl w))
        (accesses w ++ found ++ [OrderSave (Order._id o)]).

(** The cart [[{productId: P1, quantity: 2}]]. *)
Definition twoShirts : value :=
  obj [("productId", VStr P1); ("quantity", VNum 2)].
Definition twoShirtsBody : value := obj [("products", VArr [twoShirts])].
Definition twoShirtsOrder : Order.t :=
  order O1 [lineItem shirt 80 2 (VStr "/uploads/shirt.png")
                     (VStr "beetroth")] 160 0.

(** The same cart with prices of the client's own in the line and in the
    body, and a [status]. *)
Definition cheapShirts : value :=
  obj [("productId", VStr P1); ("quantity", VNum 2);
       ("price", VNum 1); ("unitPrice", VNum 1)].
Definition cheapShirtsBody : value :=
  obj [("products", VArr [cheapShirts]); ("totalValue", VNum 2);
       ("status", VStr "delivered")].
Definition cheapShirtsOrder : Order.t :=
  order O2 [lineItem shirt 80 2 (VStr "/uploads/shirt.png")
                     (VStr "beetroth")] 160 0.

(** The cart [[{productId: P1}, {productId: "not-an-id"}]]. *)
Definition oneShirt : value := obj [("productId", VStr P1)].
Definition notAnId : value := obj [("productId", VStr "not-an-id")].
Definition brokenBody : value :=
  obj [("products", VArr [oneShirt; notAnId])].


(** A cart whose one line has the number 5 for [productId]. *)
Definition numberedBody : value :=
  obj [("products", VArr [obj [("productId", VNum 5)]])].

(** Two and a half shirts. *)
Definition halfShirtsBody : value :=
  obj [("products",
        VArr [obj [("productId", VStr P1); ("quantity", VNum 2.5)]])].
Definition halfShirtsOrder : Order.t :=
  order O1 [lineItem shirt 80 2.5 (VStr "/uploads/shirt.png")
                     (VStr "beetroth")] 200 0.

(** A stored order, and requests to change its status. *)
Definition shop1 : world := World catalog {[O1 := twoShirtsOrder]} [].
Definition shipped : value := obj [("status", VStr "shipped")].
Definition delivered : value := obj [("status", VStr "delivered")].
Definition noStatuses : value := obj [("status", VArr [])].
Definition nullStatus : value := obj [("status", VNull)].

(** Bodies with no cart. *)
Definition noCart : value := obj [("customerName", VStr "Rahim")].
Definition emptyCart : value := obj [("products", VArr [])].

(** A shirt ordered with an empty [category]. *)
Definition unlabelledShirt : value :=
  obj [("productId", VStr P1); ("category", VStr "")].
Definition unlabelledBody : value :=
  obj [("products", VArr [unlabelledShirt])].
Definition unlabelledOrder : Order.t :=
  order O1 [lineItem shirt 80 1 (VStr "/uploads/shirt.png")
                     (VStr "beetroth")] 80 0.

(** A shirt ordered with the number 5 for [category]: the line-item
    holds the text ["5"]. *)
Definition numberedShirt : value :=
  obj [("productId", VStr P1); ("category", VNum 5)].
Definition numberedShirtBody : value :=
  obj [("products", VArr [numberedShirt])].
Definition numberedShirtOrder : Order.t :=
  order O1 [lineItem shirt 80 1 (VStr "/uploads/shirt.png") (VStr "5")] 80 0.

(** Two shirts with a delivery charge and a [status] of the client's. *)
Definition chargedBody : value :=
  obj [("products", VArr [twoShirts]); ("deliveryCharge", VNum 60);
       ("status", VStr "delivered")].
Definition chargedOrder : Order.t :=
  order O1 [lineItem shirt 80 2 (VStr "/uploads/shirt.png")
                     (VStr "beetroth")] 160 60.

(** A scarf (no image in the catalog) and a shirt ordered with an empty
    [imageUrl]. *)
Definition plainScarf : value := obj [("productId", VStr P2)].
Definition blankImageShirt : value :=
  obj [("productId", VStr P1); ("imageUrl", VStr "")].
Definition imagesBody : value :=
  obj [("products", VArr [plainScarf; blankImageShirt])].
Definition imagesOrder : Order.t :=
  order O1 [lineItem scarf 30 1 (VStr "") VNull;
            lineItem shirt 80 1 (VStr "/uploads/shirt.png")
                     (VStr "beetroth")] 110 0.

End Example.

(** * The other order and product routes

    [GET] and [DELETE] of [/api/orders/:id] and of [/api/products/:id];
    their text is the same in both source files. A handler that answers
    200 with a document ends with that document; every other answer is
    sent. *)

(** What [populate("products.productId", "title code")] puts in place of
    a line-item's [productId]: the product's [_id], [title] and [code]. *)
Record productRef : Type := ProductRef {
  refId : oid;
  refTitle : string;
  refCode : string;
}.

(** An order as [GET /api/orders/:id] answers it: the stored document and,
    line-item by line-item, the populated product ([None] is the [null] of
    a product that is no longer in the catalog). *)
Record populatedOrder : Type := Populated {
  document : Order.t;
  productRefs : list (option productRef);
}.

Definition refOf (prod : Product.t) : productRef :=
  ProductRef (Product._id prod) (Product.title prod) (Product.code prod).

(** Remove the document stored under [k]. *)
Definition removeOrder (k : oid) : Handler unit :=
  λ w, (Next tt,
        World (productColl w) (delete k (orderColl w)) (accesses w)).

Definition removeProduct (k : oid) : Handler unit :=
  λ w, (Next tt,
        World (delete k (productColl w)) (orderColl w) (accesses w)).

Module Crud.
Section Routes.
Context `{Platform}.

(** [.populate("products.productId", "title code")] on a found order. Its
    query on the products is not entered in [accesses], which keeps the
    lookups by id and the saves. *)
Definition populate (order : Order.t) : Handler populatedOrder :=
  w ← getWorld;
  mret (Populated order
          ((λ item, refOf <$> productColl w !! OrderProduct.productId item)
             <$> Order.products order)).

(** [GET /api/orders/:id]. *)
Definition getOrder (id : string) : Handler populatedOrder :=
  if negb (isValidObjectId (VStr id)) then
    send 400 (Message "Invalid order id")
  else
    found ← Order_findById (VStr id);
    match found with
    | None => send 404 (Message "Order not found")
    | Some order => populate order
    end.

(** [Order.findByIdAndDelete]. *)
Definition Order_findByIdAndDelete (id : value) : Handler unit :=
  k ← castObjectId id;
  removeOrder k.

(** [DELETE /api/orders/:id]. *)
Definition deleteOrder (id : string) : Handler response :=
  if negb (isValidObjectId (VStr id)) then
    send 400 (Message "Invalid order id")
  else
    found ← Order_findById (VStr id);
    match found with
    | None => send 404 (Message "Order not found")
    | Some _ =>
        _ ← Order_findByIdAndDelete (VStr id);
        mret (Response 200 (Message "Order removed"))
    end.

(** [GET /api/products/:id]. *)
Definition getProduct (id : string) : Handler Product.t :=
  if negb (isValidObjectId (VStr id)) then
    send 400 (Message "Invalid product id")
  else
    found ← Product_findById (VStr id);
    match found with
    | None => send 404 (Message "Product not found")
    | Some p => mret p
    end.

(** [Product.findByIdAndDelete]. *)
Definition Product_findByIdAndDelete (id : value) : Handler unit :=
  k ← castObjectId id;
  removeProduct k.

(** [DELETE /api/products/:id]. *)
Definition deleteProduct (id : string) : Handler response :=
  if negb (isValidObjectId (VStr id)) then
    send 400 (Message "Invalid product id")
  else
    found ← Product_findById (VStr id);
    match found with
    | None => send 404 (Message "Product not found")
    | Some _ =>
        _ ← Product_findByIdAndDelete (VStr id);
        mret (Response 200 (Message "Product removed"))
    end.

End Routes.
End Crud.

(** ** Vocabulary of the further properties *)

(** The product references [populate] finds for an order in a catalog. *)
Definition refsIn (coll : gmap oid Product.t) (o : Order.t)
  : list (option productRef) :=
  (λ item, refOf <$> coll !! OrderProduct.productId item)
    <$> Order.products o.

(** Every stored order is filed under its own [_id] and passes the
    schema's validators. *)
Definition ordersOk (w : world) : Prop :=
  ∀ k o, orderColl w !! k = Some o →
         Order._id o = k ∧ Order.validate o = true.

(** Every product of the catalog is filed under its own [_id]. *)
Definition catalogOk (w : world) : Prop :=
  ∀ k prod, productColl w !! k = Some prod → Product._id prod = k.

(** The catalog lookups of the pricing loop on a cart, in order. *)
Definition lookups (lines : list value) : list access :=
  (λ p, ProductFindById (JS.optChain p "productId")) <$> lines.

Module ProductSchema.
(** The validators of [ProductSchema] in [index.js] on a stored document:
    [title] and [code] are required, [price] has [min: 0],
    [priceAfterDiscount] has [min: 0] and must not exceed [price] (a
    validator [part_000] does not have), and every category is one of the
    [allowed] ones ([ALLOWED_CATEGORIES], which differs between the two
    source files). *)
Definition validate (allowed : list string) (p : Product.t) : bool :=
  negb (String.eqb (Product.title p) "")
  && negb (String.eqb (Product.code p) "")
  && (0 <=? Product.price p)%float
  && match Product.priceAfterDiscount p with
     | None => true
     | Some d => (0 <=? d)%float && (d <=? Product.price p)%float
     end
  && forallb (λ c, bool_decide (c ∈ allowed)) (Product.categories p).
End ProductSchema.

(** Every product of the catalog passes the product schema. *)
Definition catalogValid (allowed : list string) (w : world) : Prop :=
  ∀ k prod, productColl w !! k = Some prod →
            ProductSchema.validate allowed prod = true.

(** * Image upload: [POST /api/products/upload] *)

Module Upload.

(** An uploaded file: its media type, [file.mimetype], and its content,
    [file.buffer]. *)
Record file : Type := File {
  mimetype : string;
  buffer : list ascii;
}.

(** A letter as the [i] flag compares it: without the [u] flag only the
    ASCII letters fold onto the ASCII letters of the pattern. *)
Definition foldChar (c : ascii) : ascii :=
  let n := nat_of_ascii c in
  if bool_decide (65 ≤ n ≤ 90)%nat then ascii_of_nat (n + 32) else c.

Definition foldCase (s : string) : string :=
  String.string_of_list_ascii (foldChar <$> String.list_ascii_of_string s).

(** The texts [image\/(png|jpe?g|gif|webp)] stands for. *)
Definition endings : list string :=
  ["image/png"; "image/jpg"; "image/jpeg"; "image/gif"; "image/webp"].

(** [fileFilter]: [/image\/(png|jpe?g|gif|webp)$/i.test(file.mimetype)].
    The pattern is anchored at the end only. *)
Definition fileFilter (mimetype : string) : bool :=
  existsb
    (λ e, bool_decide
            (String.list_ascii_of_string e
             `suffix_of` String.list_ascii_of_string (foldCase mimetype)))
    endings.

(** The object literal the handler looks the mimetype up in. *)
Definition extensions : gmap string string :=
  list_to_map [("image/jpeg", ".jpg"); ("image/jpg", ".jpg");
               ("image/png", ".png"); ("image/gif", ".gif");
               ("image/webp", ".webp")].

(** [ext]: [({...}[req.file.mimetype] || ".bin")], for a mimetype that
    passed [fileFilter] (such a text names no inherited property). *)
Definition ext (mimetype : string) : string :=
  default ".bin" (extensions !! mimetype).

(** [limits.fileSize]. *)
Definition fileSize : N := 10 * 1024 * 1024.

(** What the route takes from its environment. *)
Record env : Type := Env {
  (** [process.env.IMGBB_KEY]. *)
  IMGBB_KEY : option string;
  (** [Date.now()]. *)
  now : float;
  (** [Math.random().toString(36).slice(2)]. *)
  random : string;
  (** [path.join(UPLOAD_DIR, filename)]. *)
  uploadPath : string → string;
  (** [axios.post] to the image host with the key and the buffer: the
      response, or [None] when the call throws. *)
  post : string → list ascii → option value;
}.

(** The files under [UPLOAD_DIR], by path. Writes are taken to succeed. *)
Definition disk : Type := gmap string (list ascii).

(** The answer: a failure, or [res.json({ url, storage })] ([storage] is
    absent in [part_000]). *)
Inductive answer : Type :=
| Failed (r : response)
| Stored (url : value) (storage : option string).

(** The file multer makes of the request's part named [image], sent with
    a well-formed media type: the multipart parser hands the type over in
    lower case. *)
Definition received (part : file) : file :=
  File (foldCase (mimetype part)) (buffer part).

(** [upload.single("image")] on the request's part named [image], if
    any: [fileFilter] and the handler see the received file; the handler
    runs unless the filter or the size limit refused the file, and the
    refusal is answered by the last middleware. The parser counts a
    content that reaches the limit as over it. *)
Definition single (handler : option file → disk → answer * disk)
    (part : option file) (d : disk) : answer * disk :=
  match part with
  | None => handler None d
  | Some part =>
      let f := received part in
      if negb (fileFilter (mimetype f)) then
        (Failed (Response 500 (Message "Only image files allowed")), d)
      else if (fileSize <=? N.of_nat (length (buffer f)))%N then
        (Failed (Response 500 (Message "File too large")), d)
      else handler (Some f) d
  end.

(** The hosted branch, common to both versions but for [storage]. *)
Definition hosted (e : env) (key : string) (f : file)
    (storage : option string) : answer :=
  match post e key (buffer f) with
  | None => Failed (Response 500 (Message "Image upload failed"))
  | Some response =>
      let data :=
        JS.orElse (JS.optChain (JS.optChain response "data") "data")
                  (VObj ∅) in
      Stored (JS.orElse (JS.getProp data "url")
                        (JS.getProp data "display_url"))
             storage
  end.

Section Handlers.
Context `{Runtime}.

(** [img_${Date.now()}_${...}${ext}]. *)
Definition filename (e : env) (f : file) : string :=
  "img_" +:+ NumberToString (now e) +:+ "_" +:+ random e
  +:+ ext (mimetype f).

(** The handler of [index.js]: local save without a key. *)
Definition handler (e : env) (f : option file) (d : disk) : answer * disk :=
  match f with
  | None => (Failed (Response 400 (Message "No file uploaded")), d)
  | Some f =>
      match IMGBB_KEY e with
      | None | Some "" =>
          (Stored (VStr ("/uploads/" +:+ filename e f)) (Some "local"),
           <[uploadPath e (filename e f) := buffer f]> d)
      | Some key => (hosted e key f (Some "imgbb"), d)
      end
  end.

(** [POST /api/products/upload] in [index.js]. *)
Definition route (e : env) : option file → disk → answer * disk :=
  single (handler e).

End Handlers.

(** The handler of [part_000]: no key, no upload. *)
Definition legacyHandler (e : env) (f : option file) (d : disk)
  : answer * disk :=
  match f with
  | None => (Failed (Response 400 (Message "No file uploaded")), d)
  | Some f =>
      match IMGBB_KEY e with
      | None | Some "" =>
          (Failed (Response 500 (Message "IMGBB_KEY missing in .env")), d)
      | Some key => (hosted e key f None, d)
      end
  end.

(** [POST /api/products/upload] in [part_000]. *)
Definition legacyRoute (e : env) : option file → disk → answer * disk :=
  single (legacyHandler e).

End Upload.

(** * The product list filter: [GET /api/products] *)

Module ProductList.

(** [s.split(",")]. *)
Fixpoint split (s : string) : list string :=
  match s with
  | EmptyString => [""]
  | String c rest =>
      if Ascii.eqb c ","%char then "" :: split rest
      else match split rest with
           | piece :: pieces => String c piece :: pieces
           | [] => [String c ""]
           end
  end.

(** The filter object [q] the route hands to [Product.find]. *)
Record query : Type := Query {
  categoriesIn : option (list string);
  textSearch : option string;
}.

Section Filter.
Context `{Runtime}.

(** [if (search) q.$text = { $search: String(search) }]. *)
Definition searchOf (search : value) : option (option string) :=
  if JS.truthy search then s ← JS.ToString search; Some (Some s)
  else Some None.

(** [index.js]: the list is trimmed and its empty entries dropped; an
    empty list sets no filter. [None] is a thrown [TypeError]. *)
Definition filter (categories search : value) : option query :=
  cats ← (if JS.truthy categories then
            s ← JS.ToString categories;
            let list :=
              base.filter (λ x, JS.truthy (VStr x) = true)
                          (StringTrim <$> split s) in
            Some (if bool_decide (length list = 0%nat) then None
                  else Some list)
          else Some None);
  text ← searchOf search;
  Some (Query cats text).

(** [part_000]: the list is trimmed only. *)
Definition legacyFilter (categories search : value) : option query :=
  cats ← (if JS.truthy categories then
            s ← JS.ToString categories;
            let list := StringTrim <$> split s in
            Some (if bool_decide (length list = 0%nat) then None
                  else Some list)
          else Some None);
  text ← searchOf search;
  Some (Query cats text).

End Filter.
End ProductList.

(** * The sales total: [GET /api/dashboard/total-sales] *)

Module Dashboard.

(** The database's [$sum] of [totalValue] over a collection of orders. *)
Class Aggregation : Type := {
  sumTotalValue : gmap oid Order.t → float;
}.

(** The answer [{ totalBDT, totalOrders }]. *)
Record sales : Type := Sales {
  totalBDT : float;
  totalOrders : nat;
}.

(** [Order.aggregate([{ $group: { _id: null, ... } }])]: one group when
    the collection has documents, none otherwise. *)
Definition aggregate `{Aggregation} (orders : gmap oid Order.t)
  : list sales :=
  if bool_decide (orders = ∅) then []
  else [Sales (sumTotalValue orders) (size orders)].

(** The route: [result[0] || { total: 0, count: 0 }]. *)
Definition totalSales `{Aggregation} (w : world) : sales :=
  match aggregate (orderColl w) with
  | data :: _ => data
  | [] => Sales 0 0
  end.

End Dashboard.

(** ** Example data for the further properties *)

Module Scenario.

(** The world after the two shirts were ordered in the empty shop. *)
Definition afterTwoShirts : world :=
  Example.stored Example.shop Example.twoShirtsOrder
                 [ProductFindById (VStr Example.P1)].

(** The answer to the cart with a line that is not an id. *)
Definition refusal : response :=
  Response 400 (Message "Invalid productId: not-an-id").
Definition afterRefusal : world :=
  World Example.catalog ∅ [ProductFindById (VStr Example.P1)].

(** The stored order [O1] once delivered. *)
Definition deliveredOrder : Order.t :=
  Order.withStatus Example.twoShirtsOrder (VStr "delivered").

(** Uploads of three bytes, sent as [image/PNG] and as [ximage/png],
    with no image host. *)
Definition picture : Upload.file :=
  Upload.File "image/PNG" ["a"; "b"; "c"]%char.
Definition oddPicture : Upload.file :=
  Upload.File "ximage/png" ["a"; "b"; "c"]%char.
Definition textFile : Upload.file :=
  Upload.File "text/plain" ["a"; "b"; "c"]%char.
Definition local : Upload.env :=
  Upload.Env None 1700000000000 "k3j9x2" (λ name, "uploads/" +:+ name)
             (λ _ _, None).

(** A [$sum] that adds the totals in the order the map enumerates. *)
Definition foldSum : Dashboard.Aggregation := {|
  Dashboard.sumTotalValue :=
    map_fold (λ _ o acc, (acc + Order.totalValue o)%float) 0%float;
|}.

End Scenario.

(** * Properties *)

(** ** Reasoning about handlers *)


Lemma bind_Next {A B} (m : Handler A) (f : A → Handler B) w b w'' :
  (m ≫= f) w = (Next b, w'') →
  ∃ a w', m w = (Next a, w') ∧ f a w' = (Next b, w'').
Proof.
  unfold mbind, Handler_bind. destruct (m w) as [[a|r] w'] eqn:E; [|done].
  intros Hf. by exists a, w'.
Qed.

Lemma bind_Sent {A B} (m : Handler A) (f : A → Handler B) w r w'' :
  (m ≫= f) w = (Sent r, w'') →
  m w = (Sent r, w'') ∨ ∃ a w', m w = (Next a, w') ∧ f a w' = (Sent r, w'').
Proof.
  unfold mbind, Handler_bind. destruct (m w) as [[a|r'] w'] eqn:E.
  - intros Hf. right. by exists a, w'.
  - intros [= -> ->]. by left.
Qed.

Lemma bind_eq_Next {A B} (m : Handler A) (f : A → Handler B) w a w' :
  m w = (Next a, w') → (m ≫= f) w = f a w'.
Proof. unfold mbind, Handler_bind. by intros ->. Qed.

Lemma bind_eq_Sent {A B} (m : Handler A) (f : A → Handler B) w r w' :
  m w = (Sent r, w') → (m ≫= f) w = (Sent r, w').
Proof. unfold mbind, Handler_bind. by intros ->. Qed.

Section StoreFacts.
Context `{Platform}.

Lemma isValidObjectId_text s :
  isValidObjectId (VStr s) = match ObjectId (VStr s) with
                             | Some _ => true
                             | None => false
                             end.
Proof. apply isValid_text. Qed.

Lemma Product_findById_run id w :
  Product_findById id w =
  match ObjectId id with
  | Some k =>
      (Next (productColl w !! k),
       World (productColl w) (orderColl w)
             (accesses w ++ [ProductFindById id]))
  | None =>
      (Sent (Response 500 (Uncaught CastError)),
       World (productColl w) (orderColl w)
             (accesses w ++ [ProductFindById id]))
  end.
Proof.
  unfold Product_findById, castObjectId, mbind, Handler_bind. cbn.
  by destruct (ObjectId id).
Qed.

Lemma Order_findById_run id w :
  Order_findById id w =
  match ObjectId id with
  | Some k =>
      (Next (orderColl w !! k),
       World (productColl w) (orderColl w)
             (accesses w ++ [OrderFindById id]))
  | None =>
      (Sent (Response 500 (Uncaught CastError)),
       World (productColl w) (orderColl w)
             (accesses w ++ [OrderFindById id]))
  end.
Proof.
  unfold Order_findById, castObjectId, mbind, Handler_bind. cbn.
  by destruct (ObjectId id).
Qed.

Lemma Order_save_run doc w :
  Order_save doc w =
  match doc with
  | Some o =>
      if Order.validate o then
        (Next o,
         World (productColl w) (<[Order._id o := o]> (orderColl w))
               (accesses w ++ [OrderSave (Order._id o)]))
      else (Sent (Response 500 (Uncaught ValidationError)), w)
  | None => (Sent (Response 500 (Uncaught ValidationError)), w)
  end.
Proof.
  unfold Order_save. destruct doc as [o|]; [|done].
  by destruct (Order.validate o).
Qed.

(** What a cast leaves in a [String] path. *)
Lemma castString_shape v r :
  castString v = Some r → r = VUndef ∨ r = VNull ∨ ∃ s, r = VStr s.
Proof.
  destruct v; cbn; try (intros [= <-]; eauto; fail);
    destruct (stringOf _); cbn; intros [= <-]; eauto.
Qed.

Lemma castString_nullish v r :
  castString v = Some r → r = VUndef ∨ r = VNull → v = r.
Proof.
  destruct v; cbn; try (by intros [= <-]);
    destruct (stringOf _); cbn; intros [= <-] [|]; done.
Qed.

(** The cast of a line-item touches its [String] paths only. *)
Lemma OrderProduct_cast_Some raw item :
  OrderProduct_cast raw = Some item →
  OrderProduct.productId item = OrderProduct.productId raw ∧
  OrderProduct.title item = OrderProduct.title raw ∧
  OrderProduct.code item = OrderProduct.code raw ∧
  OrderProduct.price item = OrderProduct.price raw ∧
  OrderProduct.quantity item = OrderProduct.quantity raw ∧
  castString (OrderProduct.size raw) = Some (OrderProduct.size item) ∧
  castString (OrderProduct.imageUrl raw) = Some (OrderProduct.imageUrl item) ∧
  castString (OrderProduct.category raw) = Some (OrderProduct.category item).
Proof.
  unfold OrderProduct_cast.
  destruct (castString (OrderProduct.size raw)); [|done].
  destruct (castString (OrderProduct.imageUrl raw)); [|done].
  destruct (castString (OrderProduct.category raw)); [|done].
  cbn. by intros [= <-].
Qed.

(** The cast of an order keeps its identity, its numbers and its
    line-items, each cast in turn. *)
Lemma Order_cast_Some raw o :
  Order_cast raw = Some o →
  Forall2 (λ r item, OrderProduct_cast r = Some item)
          (Order.products raw) (Order.products o) ∧
  Order._id o = Order._id raw ∧
  Order.totalValue o = Order.totalValue raw ∧
  Order.deliveryCharge o = Order.deliveryCharge raw ∧
  castString (Order.status raw) = Some (Order.status o).
Proof.
  unfold Order_cast.
  destruct (mapM _ _) as [products|] eqn:Hproducts; [|done]. cbn.
  repeat (match goal with
          | |- context [castTrimmed ?v] => destruct (castTrimmed v); [|done]
          | |- context [castString ?v] =>
              destruct (castString v) eqn:?; [|done]
          end; cbn).
  intros [= <-]. cbn. by apply mapM_Some in Hproducts.
Qed.

End StoreFacts.

Section PricingFacts.
Context `{Platform}.

Lemma resolve_Some coll p prod :
  resolve coll p = Some prod →
  JS.truthy (JS.optChain p "productId") = true ∧
  ∃ k, ObjectId (JS.optChain p "productId") = Some k ∧ coll !! k = Some prod.
Proof.
  unfold resolve. destruct (JS.truthy _); [|done].
  destruct (isValidObjectId _); [|done].
  destruct (ObjectId _) as [k|]; [|done]. cbn. eauto.
Qed.

Lemma resolve_valid coll p prod :
  resolve coll p = Some prod →
  isValidObjectId (JS.optChain p "productId") = true.
Proof.
  unfold resolve. destruct (JS.truthy _); [|done].
  by destruct (isValidObjectId _).
Qed.

(** One turn of the loop on a line that resolves. *)
Lemma priceLines_cons_resolved p rest t d w prod :
  resolve (productColl w) p = Some prod →
  priceLines (p :: rest) t d w =
  let w1 := World (productColl w) (orderColl w)
                  (accesses w ++ [ProductFindById (JS.optChain p "productId")]) in
  match qty p with
  | None => (Sent (Response 500 (Uncaught TypeError)), w1)
  | Some q =>
      match detail p prod (unitPrice prod) q with
      | None => (Sent (Response 500 (Uncaught TypeError)), w1)
      | Some item =>
          priceLines rest (t + unitPrice prod * q)%float (d ++ [item]) w1
      end
  end.
Proof.
  intros Hres. pose proof (resolve_valid _ _ _ Hres) as Hv.
  apply resolve_Some in Hres as (Ht & k & Hk & Hprod). cbn [priceLines].
  rewrite Ht, Hv. cbn [negb orb].
  unfold mbind at 1, Handler_bind at 1. rewrite Product_findById_run, Hk, Hprod.
  destruct (qty p) as [q|]; [|done].
  unfold mbind at 1, Handler_bind at 1. cbn [orTypeError mret Handler_ret].
  by destruct (detail _ _ _ _).
Qed.

(** One turn of the loop on a line that does not resolve: the loop ends
    with the line's [refusal]; the catalog was asked only for an id that
    passed the check. *)
Lemma priceLines_cons_unresolved p rest t d w :
  resolve (productColl w) p = None →
  priceLines (p :: rest) t d w =
  (Sent (refusal p),
   World (productColl w) (orderColl w)
         (accesses w
          ++ if JS.truthy (JS.optChain p "productId")
                && isValidObjectId (JS.optChain p "productId")
             then [ProductFindById (JS.optChain p "productId")] else [])).
Proof.
  unfold resolve, refusal. cbn [priceLines].
  destruct (JS.truthy _); cbn [negb orb andb].
  - destruct (isValidObjectId _); cbn [negb].
    + intros Hnone. unfold mbind at 1, Handler_bind at 1.
      rewrite Product_findById_run.
      destruct (ObjectId _) as [k|] eqn:Hk; [|done]. cbn in Hnone.
      rewrite Hnone. unfold mbind, Handler_bind. by destruct (JS.ToString _).
    + intros _. rewrite app_nil_r. unfold mbind, Handler_bind.
      destruct w. by destruct (JS.ToString _).
  - intros _. rewrite app_nil_r. unfold mbind, Handler_bind.
    destruct w. by destruct (JS.ToString _).
Qed.

Lemma refusal_code p :
  statusCode (refusal p) = 400%Z ∨ statusCode (refusal p) = 500%Z.
Proof.
  unfold refusal. destruct (_ || _).
  - destruct (JS.ToString _); auto.
  - destruct (ObjectId _); [|auto]. destruct (JS.ToString _); auto.
Qed.

Lemma detail_Some p prod u q item :
  detail p prod u q = Some item →
  OrderProduct.price item = u ∧ OrderProduct.quantity item = q.
Proof.
  unfold detail. destruct (JS.ToString _); [|done]. cbn. by intros [= <-].
Qed.

Lemma pushed_Some coll p raw :
  pushed coll p = Some raw ↔
  ∃ prod q, resolve coll p = Some prod ∧ qty p = Some q ∧
            detail p prod (unitPrice prod) q = Some raw.
Proof.
  unfold pushed. split.
  - destruct (resolve coll p) as [prod|]; [|done]. cbn.
    destruct (qty p) as [q|]; [|done]. cbn. eauto.
  - intros (prod & q & -> & Hq & Hd). cbn. by rewrite Hq.
Qed.

Lemma sumLines_cons start item items :
  sumLines start (item :: items) =
  sumLines (start + OrderProduct.price item * OrderProduct.quantity item)
           items.
Proof. reflexivity. Qed.

(** The loop on a cart that begins with lines it can price: one catalog
    lookup per such line, in order, and the loop goes on with the rest. *)
Lemma priceLines_prefix pre : ∀ raws rest t d w,
  mapM (pushed (productColl w)) pre = Some raws →
  priceLines (pre ++ rest) t d w
  = priceLines rest (sumLines t raws) (d ++ raws)
      (World (productColl w) (orderColl w) (accesses w ++ lookups pre)).
Proof.
  induction pre as [|p pre IH]; intros raws rest t d w Hall.
  - cbn in Hall. injection Hall as <-. cbn.
    rewrite !app_nil_r. by destruct w.
  - apply mapM_Some in Hall.
    apply Forall2_cons_inv_l in Hall as (raw & raws' & Hp & Hrest & ->).
    apply pushed_Some in Hp as (prod & q & Hres & Hq & Hd).
    cbn [app]. rewrite (priceLines_cons_resolved _ _ _ _ _ _ Hres). cbn zeta.
    rewrite Hq, Hd. destruct (detail_Some _ _ _ _ _ Hd) as [Hpr Hqu].
    rewrite (IH raws'); [|by apply mapM_Some].
    cbn [productColl orderColl accesses lookups fmap list_fmap].
    rewrite sumLines_cons, Hpr, Hqu, <- !app_assoc. reflexivity.
Qed.

(** The loop runs to its end exactly on carts whose lines all resolve and
    convert; it then holds the object pushed for each line, in order, and
    their running sum. *)
Lemma priceLines_Next ps : ∀ t d w t' d' w',
  priceLines ps t d w = (Next (t', d'), w') →
  ∃ raws,
    mapM (pushed (productColl w)) ps = Some raws ∧
    d' = d ++ raws ∧ t' = sumLines t raws ∧ sameColls w w'.
Proof.
  induction ps as [|p rest IH]; intros t d w t' d' w'.
  - cbn. intros [= <- <- <-]. exists []. rewrite app_nil_r.
    repeat split; constructor.
  - destruct (resolve (productColl w) p) as [prod|] eqn:Hres.
    + rewrite (priceLines_cons_resolved _ _ _ _ _ _ Hres). cbn zeta.
      destruct (qty p) as [q|] eqn:Hq; [|done].
      destruct (detail p prod (unitPrice prod) q) as [item|] eqn:Hd; [|done].
      intros (raws & Hall & -> & -> & [Hp Ho])%IH. cbn in Hall, Hp, Ho.
      exists (item :: raws). destruct (detail_Some _ _ _ _ _ Hd) as [Hpr Hqu].
      repeat split.
      * apply mapM_Some. constructor; [|by apply mapM_Some].
        apply pushed_Some. by exists prod, q.
      * by rewrite <- app_assoc.
      * by rewrite sumLines_cons, Hpr, Hqu.
      * done.
      * done.
    + by rewrite (priceLines_cons_unresolved p rest t d w Hres).
Qed.

(** When the loop answers instead, the collections are as before and the
    answer is a 400 or a 500. *)
Lemma priceLines_Sent ps : ∀ t d w r w',
  priceLines ps t d w = (Sent r, w') →
  sameColls w w' ∧ (statusCode r = 400%Z ∨ statusCode r = 500%Z).
Proof.
  induction ps as [|p rest IH]; intros t d w r w'; [done|].
  destruct (resolve (productColl w) p) as [prod|] eqn:Hres.
  - rewrite (priceLines_cons_resolved _ _ _ _ _ _ Hres). cbn zeta.
    destruct (qty p) as [q|] eqn:Hq.
    + destruct (detail p prod (unitPrice prod) q) as [item|] eqn:Hd.
      * intros [[Hp Ho] Hr]%IH. cbn in Hp, Ho. by split.
      * intros [= <- <-]. split; [by split|by right].
    + intros [= <- <-]. split; [by split|by right].
  - rewrite (priceLines_cons_unresolved p rest t d w Hres).
    intros [= <- <-]. split; [by split|apply refusal_code].
Qed.

(** The end of the route, case by case. *)
Lemma saveOrder_run body fresh now t d w :
  saveOrder body fresh now t d w =
  match JS.ToString (JS.nullish (JS.getProp body "color") (VStr "")) with
  | None => (Sent (Response 500 (Uncaught TypeError)), w)
  | Some color =>
      match JS.ToNumber (JS.orElse (JS.getProp body "deliveryCharge")
                                   (VNum 0)) with
      | None => (Sent (Response 500 (Uncaught TypeError)), w)
      | Some charge =>
          match Order_cast (newOrder body fresh now t d color charge) with
          | Some order =>
              if Order.validate order then
                (Next (Response 201 (OrderDoc order)),
                 World (productColl w) (<[fresh := order]> (orderColl w))
                       (accesses w ++ [OrderSave fresh]))
              else (Sent (Response 500 (Uncaught ValidationError)), w)
          | None => (Sent (Response 500 (Uncaught ValidationError)), w)
          end
      end
  end.
Proof.
  unfold saveOrder, mbind, Handler_bind.
  destruct (JS.ToString _) as [color|]; [|done]. cbn [orTypeError mret Handler_ret].
  destruct (JS.ToNumber _) as [charge|]; [|done]. cbn [orTypeError mret Handler_ret].
  rewrite Order_save_run. cbn zeta.
  destruct (Order_cast _) as [order|] eqn:Hcast; [|done].
  apply Order_cast_Some in Hcast as (_ & -> & _). cbn [Order._id newOrder].
  by destruct (Order.validate _).
Qed.

End PricingFacts.

Section CreationFacts.
Context `{Platform}.

Lemma run_inv (h : Handler response) w r w' :
  run h w = (r, w') → h w = (Next r, w') ∨ h w = (Sent r, w').
Proof.
  unfold run. destruct (h w) as [[a|a] w1]; intros [= -> ->]; auto.
Qed.

Lemma Server_postOrders_valid body fresh now w lines :
  Server.ordersChains body = [] →
  JS.getProp body "products" = VArr lines →
  Server.postOrders body fresh now w = priceAndSave body lines fresh now w.
Proof.
  intros Hv Hl. unfold Server.postOrders.
  unfold mbind at 1, Handler_bind at 1. rewrite Hv, Hl. reflexivity.
Qed.

Lemma Server_postOrders_invalid body fresh now w :
  Server.ordersChains body ≠ [] →
  Server.postOrders body fresh now w =
  (Sent (Response 400 (ValidationFailed (Server.ordersChains body))), w).
Proof.
  intros Hv. unfold Server.postOrders.
  unfold mbind at 1, Handler_bind at 1.
  destruct (Server.ordersChains body); [by destruct Hv | reflexivity].
Qed.

Lemma Server_chains_products body :
  Server.ordersChains body = [] →
  ∃ p rest, JS.getProp body "products" = VArr (p :: rest).
Proof.
  unfold Server.ordersChains, custom, isArray.
  destruct (JS.getProp body "products") as [| | | | |[|p rest]|]; try done.
  intros _. by exists p, rest.
Qed.

Lemma Legacy_postOrders_cases body fresh now w :
  (∃ p rest, JS.getProp body "products" = VArr (p :: rest) ∧
     Legacy.postOrders body fresh now w
     = priceAndSave body (p :: rest) fresh now w)
  ∨ ((∀ p rest, JS.getProp body "products" ≠ VArr (p :: rest)) ∧
     Legacy.postOrders body fresh now w
     = (Sent (Response 400 (Message "Products are required")), w)).
Proof.
  unfold Legacy.postOrders. cbn zeta.
  destruct (JS.getProp body "products") as [| |b|f|s|[|p rest]|m];
    try (right; split; [done|]; cbn;
         repeat (destruct (negb _); cbn; try done); done).
  left. by exists p, rest.
Qed.

(** The pushed objects, once cast, are the priced line-items. *)
Lemma pricedLines_of_cast coll lines : ∀ raws items,
  mapM (pushed coll) lines = Some raws →
  Forall2 (λ r item, OrderProduct_cast r = Some item) raws items →
  Forall2 (pricedLine coll) lines items.
Proof.
  induction lines as [|p lines IH]; intros raws items Hall Hcast.
  - cbn in Hall. injection Hall as <-.
    apply Forall2_nil_inv_l in Hcast as ->. constructor.
  - apply mapM_Some in Hall.
    apply Forall2_cons_inv_l in Hall as (raw & raws' & Hp & Hrest & ->).
    apply Forall2_cons_inv_l in Hcast as (item & items' & Hi & Hrest' & ->).
    constructor; [|apply (IH raws'); [by apply mapM_Some|done]].
    apply pushed_Some in Hp as (prod & q & Hres & Hq & Hd).
    exists prod. split; [done|]. by exists q, raw.
Qed.

Lemma pricedLines_pushed coll lines items :
  Forall2 (pricedLine coll) lines items →
  ∃ raws, mapM (pushed coll) lines = Some raws ∧
          Forall2 (λ r item, OrderProduct_cast r = Some item) raws items.
Proof.
  induction 1 as [|p item lines items (prod & Hres & q & raw & Hq & Hd & Hc)
                    _ (raws & Hall & Hcast)].
  - by exists [].
  - exists (raw :: raws). split; [|by constructor].
    apply mapM_Some. constructor; [|by apply mapM_Some].
    apply pushed_Some. by exists prod, q.
Qed.

Lemma sumLines_cast raws : ∀ items start,
  Forall2 (λ r item, OrderProduct_cast r = Some item) raws items →
  sumLines start items = sumLines start raws.
Proof.
  induction raws as [|raw raws IH]; intros items start Hcast.
  - by apply Forall2_nil_inv_l in Hcast as ->.
  - apply Forall2_cons_inv_l in Hcast as (item & items' & Hi & Hrest & ->).
    apply OrderProduct_cast_Some in Hi as (_ & _ & _ & Hpr & Hqu & _).
    rewrite !sumLines_cons, Hpr, Hqu. by apply IH.
Qed.

(** The loop followed by the save answers 201 only with the order built
    from one snapshot per line. *)
Lemma priceAndSave_201 body lines fresh now w o w' :
  run (priceAndSave body lines fresh now) w
  = (Response 201 (OrderDoc o), w') →
  ∃ color charge w1,
    Forall2 (pricedLine (productColl w)) lines (Order.products o) ∧
    (Order.totalValue o = sumLines 0 (Order.products o) ∧
     Order.status o = VStr "pending" ∧
     Order.deliveryCharge o = charge ∧
     Order._id o = fresh) ∧
    (JS.ToString (JS.nullish (JS.getProp body "color") (VStr ""))
     = Some color ∧
     JS.ToNumber (JS.orElse (JS.getProp body "deliveryCharge") (VNum 0))
     = Some charge) ∧
    Order.validate o = true ∧
    sameColls w w1 ∧
    w' = World (productColl w1) (<[fresh := o]> (orderColl w1))
               (accesses w1 ++ [OrderSave fresh]).
Proof.
  intros Hrun. apply run_inv in Hrun. unfold priceAndSave in Hrun.
  assert (∃ t d w1, priceLines lines 0 [] w = (Next (t, d), w1) ∧
            (saveOrder body fresh now t d w1
             = (Next (Response 201 (OrderDoc o)), w')
             ∨ saveOrder body fresh now t d w1
               = (Sent (Response 201 (OrderDoc o)), w')))
    as (t & d & w1 & Hloop & Hsave).
  { destruct Hrun as [Hrun|Hrun].
    - apply bind_Next in Hrun as ([t d] & w1 & ? & ?). eauto 6.
    - apply bind_Sent in Hrun as [Hrun|([t d] & w1 & ? & ?)]; [|eauto 6].
      apply priceLines_Sent in Hrun as [_ [Hr|Hr]]; done. }
  apply priceLines_Next in Hloop as (raws & Hall & -> & -> & Hcolls).
  rewrite saveOrder_run in Hsave.
  destruct (JS.ToString _) as [color|] eqn:Hcolor; [|by destruct Hsave].
  destruct (JS.ToNumber _) as [charge|] eqn:Hcharge; [|by destruct Hsave].
  destruct (Order_cast _) as [order|] eqn:Hcast; [|by destruct Hsave].
  destruct (Order.validate _) eqn:Hval; [|by destruct Hsave].
  destruct Hsave as [Hsave|Hsave]; [|done].
  injection Hsave as <- <-. exists color, charge, w1.
  apply Order_cast_Some in Hcast as (Hitems & Hid & Ht & Hch & Hst).
  cbn [newOrder Order.products Order._id Order.totalValue
       Order.deliveryCharge Order.status app] in Hitems, Hid, Ht, Hch, Hst.
  cbn in Hst. injection Hst as Hst.
  destruct Hcolls as [Hp Ho]. repeat split; try done.
  - by eapply pricedLines_of_cast.
  - by rewrite Ht, (sumLines_cast _ _ _ Hitems).
Qed.

(** Every order either version of the route creates. *)
Lemma creates_inv body fresh now w o w' :
  creates body fresh now w o w' →
  ∃ p rest color charge w1,
    JS.getProp body "products" = VArr (p :: rest) ∧
    Forall2 (pricedLine (productColl w)) (p :: rest) (Order.products o) ∧
    (Order.totalValue o = sumLines 0 (Order.products o) ∧
     Order.status o = VStr "pending" ∧
     Order.deliveryCharge o = charge ∧
     Order._id o = fresh) ∧
    (JS.ToString (JS.nullish (JS.getProp body "color") (VStr ""))
     = Some color ∧
     JS.ToNumber (JS.orElse (JS.getProp body "deliveryCharge") (VNum 0))
     = Some charge) ∧
    Order.validate o = true ∧
    sameColls w w1 ∧
    w' = World (productColl w1) (<[fresh := o]> (orderColl w1))
               (accesses w1 ++ [OrderSave fresh]).
Proof.
  intros [Hrun|Hrun].
  - destruct (Server.ordersChains body) as [|e errs] eqn:Hv.
    + destruct (Server_chains_products body Hv) as (p & rest & Hl).
      unfold run in Hrun.
      rewrite (Server_postOrders_valid _ _ _ _ _ Hv Hl) in Hrun.
      apply priceAndSave_201 in Hrun as (color & charge & w1 & ?).
      by exists p, rest, color, charge, w1.
    + unfold run in Hrun. rewrite Server_postOrders_invalid in Hrun;
        [|by rewrite Hv]. done.
  - destruct (Legacy_postOrders_cases body fresh now w)
      as [(p & rest & Hl & Heq)|[_ Heq]];
      unfold run in Hrun; rewrite Heq in Hrun; [|done].
    apply priceAndSave_201 in Hrun as (color & charge & w1 & ?).
    by exists p, rest, color, charge, w1.
Qed.

Lemma snapshot_pricedLine coll p item :
  snapshot coll p = Some item ↔ pricedLine coll p item.
Proof.
  unfold snapshot, pricedLine, pricedFrom. split.
  - destruct (pushed coll p) as [raw|] eqn:Hp; [|done]. cbn. intros Hc.
    apply pushed_Some in Hp as (prod & q & Hres & Hq & Hd).
    exists prod. split; [done|]. by exists q, raw.
  - intros (prod & Hres & q & raw & Hq & Hd & Hc).
    assert (pushed coll p = Some raw) as ->; [|done].
    apply pushed_Some. by exists prod, q.
Qed.

(** On a cart whose lines can all be priced the loop runs to its end,
    with one catalog lookup per line, in order. *)
Lemma priceLines_complete lines raws t d w :
  mapM (pushed (productColl w)) lines = Some raws →
  priceLines lines t d w
  = (Next (sumLines t raws, d ++ raws),
     World (productColl w) (orderColl w) (accesses w ++ lookups lines)).
Proof.
  intros Hall.
  pose proof (priceLines_prefix lines raws [] t d w Hall) as Hrun.
  by rewrite app_nil_r in Hrun.
Qed.

(** Creation succeeds: on a body that passes the validation chains of
    [index.js], with a cart whose lines can all be priced, a top-level
    [color] and [deliveryCharge] that convert, and a document that the
    schema casts and validates, both versions of the route answer 201
    with that document; the catalog was read once per line and the orders
    collection written once. *)
Lemma postOrders_creates body fresh now w lines raws color charge order :
  Server.ordersChains body = [] →
  JS.getProp body "products" = VArr lines →
  mapM (pushed (productColl w)) lines = Some raws →
  JS.ToString (JS.nullish (JS.getProp body "color") (VStr "")) = Some color →
  JS.ToNumber (JS.orElse (JS.getProp body "deliveryCharge") (VNum 0))
  = Some charge →
  Order_cast (newOrder body fresh now (sumLines 0 raws) raws color charge)
  = Some order →
  Order.validate order = true →
  let created :=
    (Response 201 (OrderDoc order),
     World (productColl w) (<[fresh := order]> (orderColl w))
           (accesses w ++ lookups lines ++ [OrderSave fresh])) in
  run (Server.postOrders body fresh now) w = created ∧
  run (Legacy.postOrders body fresh now) w = created.
Proof.
  intros Hv Hl Hall Hcolor Hcharge Hcast Hvalid created.
  assert (run (priceAndSave body lines fresh now) w = created) as Hrun.
  { unfold run, priceAndSave.
    rewrite (bind_eq_Next _ _ _ _ _ (priceLines_complete _ _ _ _ _ Hall)).
    cbn [fst snd app]. rewrite saveOrder_run, Hcolor, Hcharge, Hcast, Hvalid.
    cbn [productColl orderColl accesses]. unfold created.
    by rewrite <- app_assoc. }
  split.
  - unfold run. rewrite (Server_postOrders_valid _ _ _ _ _ Hv Hl). exact Hrun.
  - destruct (Server_chains_products body Hv) as (p & rest & Hl').
    destruct (Legacy_postOrders_cases body fresh now w)
      as [(p' & rest' & Hl'' & Heq)|[Hno _]]; [|destruct (Hno p rest Hl')].
    unfold run. rewrite Heq. rewrite Hl in Hl''. injection Hl'' as ->.
    exact Hrun.
Qed.

End CreationFacts.

(** ** Pricing of created orders *)

Section PricingClaims.
Context `{Platform}.

Lemma pricedFrom_amount coll p prod item :
  pricedFrom coll p prod item →
  lineAmount coll p
  = Some (OrderProduct.price item * OrderProduct.quantity item)%float.
Proof.
  intros (Hres & q & raw & Hq & Hd & Hc). unfold lineAmount.
  rewrite Hres, Hq. cbn.
  apply OrderProduct_cast_Some in Hc as (_ & _ & _ & -> & -> & _).
  by destruct (detail_Some _ _ _ _ _ Hd) as [-> ->].
Qed.

Lemma pricedFrom_price coll p prod item :
  pricedFrom coll p prod item → OrderProduct.price item = unitPrice prod.
Proof.
  intros (_ & q & raw & _ & Hd & Hc).
  apply OrderProduct_cast_Some in Hc as (_ & _ & _ & -> & _).
  by destruct (detail_Some _ _ _ _ _ Hd) as [-> _].
Qed.

Lemma sumLines_amounts items : ∀ start,
  sumLines start items
  = foldl PrimFloat.add start
      ((λ it, OrderProduct.price it * OrderProduct.quantity it)%float
         <$> items).
Proof. induction items as [|it items IH]; intros start; cbn; [done|apply IH]. Qed.

Lemma pricedLines_amounts coll lines items :
  Forall2 (pricedLine coll) lines items →
  mapM (lineAmount coll) lines
  = Some ((λ it, OrderProduct.price it * OrderProduct.quantity it)%float
            <$> items).
Proof.
  intros Hall. apply mapM_Some_2.
  induction Hall as [|p item lines items [prod Hp] _ IH]; cbn; constructor.
  - by eapply pricedFrom_amount.
  - done.
Qed.

(** The amounts of a cart the loop can price add up to the sum the loop
    holds at its end. *)
Lemma pushed_amounts coll lines : ∀ raws amounts,
  mapM (pushed coll) lines = Some raws →
  mapM (lineAmount coll) lines = Some amounts →
  sumLines 0 raws = addUp amounts.
Proof.
  intros raws amounts Hraws Hamounts.
  assert (mapM (lineAmount coll) lines
          = Some ((λ it, OrderProduct.price it * OrderProduct.quantity it)%float
                    <$> raws)) as Heq.
  { apply mapM_Some_2. apply mapM_Some_1 in Hraws. clear Hamounts.
    induction Hraws as [|p raw lines raws Hp _ IH]; constructor; [|done].
    apply pushed_Some in Hp as (prod & q & Hres & Hq & Hd).
    unfold lineAmount. rewrite Hres, Hq. cbn.
    by destruct (detail_Some _ _ _ _ _ Hd) as [-> ->]. }
  rewrite Heq in Hamounts. injection Hamounts as <-. apply sumLines_amounts.
Qed.

(** C1: the [totalValue] of every created order is the sum, over the cart
    lines in order, of the unit price of the product the line resolves to
    times the line's normalized quantity ([lineAmount], which reads the
    catalog and the line's [productId] and [quantity] only). And such
    orders are created: on a validated body whose lines can all be
    priced, with amounts [amounts], and whose document with total
    [addUp amounts] the schema accepts, both versions of the route answer
    201 with that document. *)
Theorem totalValue_is_sum_of_line_amounts body fresh now w :
  (∀ o w',
     creates body fresh now w o w' →
     ∃ lines amounts,
       JS.getProp body "products" = VArr lines ∧ lines ≠ [] ∧
       mapM (lineAmount (productColl w)) lines = Some amounts ∧
       Order.totalValue o = addUp amounts) ∧
  (∀ lines amounts raws color charge order,
     Server.ordersChains body = [] →
     JS.getProp body "products" = VArr lines →
     mapM (lineAmount (productColl w)) lines = Some amounts →
     mapM (pushed (productColl w)) lines = Some raws →
     JS.ToString (JS.nullish (JS.getProp body "color") (VStr ""))
     = Some color →
     JS.ToNumber (JS.orElse (JS.getProp body "deliveryCharge") (VNum 0))
     = Some charge →
     Order_cast (newOrder body fresh now (addUp amounts) raws color charge)
     = Some order →
     Order.validate order = true →
     ∃ w',
       run (Server.postOrders body fresh now) w
       = (Response 201 (OrderDoc order), w') ∧
       run (Legacy.postOrders body fresh now) w
       = (Response 201 (OrderDoc order), w') ∧
       Order.totalValue order = addUp amounts).
Proof.
  split.
  - intros o w'
      (p & rest & color & charge & w1 & Hl & Hall & (Ht & _) & _)%creates_inv.
    exists (p :: rest),
      ((λ it, OrderProduct.price it * OrderProduct.quantity it)%float
         <$> Order.products o).
    repeat split; [done|done|by apply pricedLines_amounts|].
    rewrite Ht. apply sumLines_amounts.
  - intros lines amounts raws color charge order
      Hv Hl Hamounts Hraws Hcolor Hcharge Hcast Hvalid.
    rewrite <- (pushed_amounts _ _ _ _ Hraws Hamounts) in Hcast.
    destruct (postOrders_creates _ fresh now w _ _ _ _ _
                Hv Hl Hraws Hcolor Hcharge Hcast Hvalid) as [Hs Hg].
    eexists. split; [exact Hs|]. split; [exact Hg|].
    apply Order_cast_Some in Hcast as (_ & _ & -> & _).
    cbn [newOrder Order.totalValue].
    exact (pushed_amounts _ _ _ _ Hraws Hamounts).
Qed.

(** C2: every line-item of a created order carries the unit price of the
    product its cart line resolves to: the product's [priceAfterDiscount]
    when that is present and [>= 0], the product's [price] otherwise. And
    such orders are created, as for the total: on a validated body whose
    lines can all be priced and whose document the schema accepts, both
    versions of the route answer 201 with line-items so priced. *)
Theorem line_price_is_discount_or_price body fresh now w :
  (∀ o w',
     creates body fresh now w o w' →
     ∃ lines,
       JS.getProp body "products" = VArr lines ∧
       Forall2
         (λ p item, ∃ prod,
            resolve (productColl w) p = Some prod ∧
            (∀ d, Product.priceAfterDiscount prod = Some d →
                  (0 <=? d)%float = true → OrderProduct.price item = d) ∧
            (∀ d, Product.priceAfterDiscount prod = Some d →
                  (0 <=? d)%float = false →
                  OrderProduct.price item = Product.price prod) ∧
            (Product.priceAfterDiscount prod = None →
             OrderProduct.price item = Product.price prod))
         lines (Order.products o)) ∧
  (∀ lines raws color charge order,
     Server.ordersChains body = [] →
     JS.getProp body "products" = VArr lines →
     mapM (pushed (productColl w)) lines = Some raws →
     JS.ToString (JS.nullish (JS.getProp body "color") (VStr ""))
     = Some color →
     JS.ToNumber (JS.orElse (JS.getProp body "deliveryCharge") (VNum 0))
     = Some charge →
     Order_cast (newOrder body fresh now (sumLines 0 raws) raws color charge)
     = Some order →
     Order.validate order = true →
     ∃ w',
       run (Server.postOrders body fresh now) w
       = (Response 201 (OrderDoc order), w') ∧
       run (Legacy.postOrders body fresh now) w
       = (Response 201 (OrderDoc order), w') ∧
       Forall2
         (λ p item, ∃ prod,
            resolve (productColl w) p = Some prod ∧
            (∀ d, Product.priceAfterDiscount prod = Some d →
                  (0 <=? d)%float = true → OrderProduct.price item = d) ∧
            (∀ d, Product.priceAfterDiscount prod = Some d →
                  (0 <=? d)%float = false →
                  OrderProduct.price item = Product.price prod) ∧
            (Product.priceAfterDiscount prod = None →
             OrderProduct.price item = Product.price prod))
         lines (Order.products order)).
Proof.
  assert (∀ lines items,
            Forall2 (pricedLine (productColl w)) lines items →
            Forall2
              (λ p item, ∃ prod,
                 resolve (productColl w) p = Some prod ∧
                 (∀ d, Product.priceAfterDiscount prod = Some d →
                       (0 <=? d)%float = true → OrderProduct.price item = d) ∧
                 (∀ d, Product.priceAfterDiscount prod = Some d →
                       (0 <=? d)%float = false →
                       OrderProduct.price item = Product.price prod) ∧
                 (Product.priceAfterDiscount prod = None →
                  OrderProduct.price item = Product.price prod))
              lines items) as Hrule.
  { intros lines items Hall. eapply Forall2_impl; [exact Hall|].
    intros p item (prod & Hp). exists prod. split; [apply Hp|].
    rewrite (pricedFrom_price _ _ _ _ Hp). unfold unitPrice.
    repeat split.
    - by intros d -> ->.
    - by intros d -> ->.
    - by intros ->. }
  split.
  - intros o w' (p & rest & color & charge & w1 & Hl & Hall & _)%creates_inv.
    exists (p :: rest). split; [done|]. by apply Hrule.
  - intros lines raws color charge order Hv Hl Hraws Hcolor Hcharge Hcast Hvalid.
    destruct (postOrders_creates _ fresh now w _ _ _ _ _
                Hv Hl Hraws Hcolor Hcharge Hcast Hvalid) as [Hs Hg].
    eexists. split; [exact Hs|]. split; [exact Hg|].
    apply Hrule. apply Order_cast_Some in Hcast as (Hitems & _).
    by eapply pricedLines_of_cast.
Qed.

End PricingClaims.

(** The end-to-end example of a cart of two discounted shirts: line price
    80, quantity 2, total 160. Both versions of the route create the
    order. *)
Lemma totalValue_is_sum_of_line_amounts_witness :
  ∃ w',
    run (Server.postOrders (H := Ref.platform) Example.twoShirtsBody
           Example.O1 7) Example.shop
    = (Response 201 (OrderDoc Example.twoShirtsOrder), w') ∧
    run (Legacy.postOrders (H := Ref.platform) Example.twoShirtsBody
           Example.O1 7) Example.shop
    = (Response 201 (OrderDoc Example.twoShirtsOrder), w') ∧
    Order.totalValue Example.twoShirtsOrder = addUp [160%float].
Proof.
  apply (proj2 (totalValue_is_sum_of_line_amounts (H := Ref.platform)
                  Example.twoShirtsBody Example.O1 7 Example.shop)
           [Example.twoShirts] [160%float]
           (Order.products Example.twoShirtsOrder) "" 0%float);
    vm_compute; reflexivity.
Defined.

(** C2 on the example of a scarf, which has no discount and is stored at
    its price of 30, and a shirt, which has a discount of 80 on a price
    of 100 and is stored at 80: both versions of the route create the
    order. *)
Lemma line_price_is_discount_or_price_witness :
  ∃ w',
    run (Server.postOrders (H := Ref.platform) Example.imagesBody
           Example.O1 7) Example.shop
    = (Response 201 (OrderDoc Example.imagesOrder), w') ∧
    run (Legacy.postOrders (H := Ref.platform) Example.imagesBody
           Example.O1 7) Example.shop
    = (Response 201 (OrderDoc Example.imagesOrder), w') ∧
    Forall2
      (λ p item, ∃ prod,
         resolve (H := Ref.platform) Example.catalog p = Some prod ∧
         (∀ d, Product.priceAfterDiscount prod = Some d →
               (0 <=? d)%float = true → OrderProduct.price item = d) ∧
         (∀ d, Product.priceAfterDiscount prod = Some d →
               (0 <=? d)%float = false →
               OrderProduct.price item = Product.price prod) ∧
         (Product.priceAfterDiscount prod = None →
          OrderProduct.price item = Product.price prod))
      [Example.plainScarf; Example.blankImageShirt]
      (Order.products Example.imagesOrder).
Proof.
  apply (proj2 (line_price_is_discount_or_price (H := Ref.platform)
                  Example.imagesBody Example.O1 7 Example.shop)
           [Example.plainScarf; Example.blankImageShirt]
           (Order.products Example.imagesOrder) "" 0%float);
    vm_compute; reflexivity.
Defined.

(** ** Prices do not depend on what the client sends besides ids and
    quantities *)

Section Independence.
Context `{Platform}.

Lemma resolve_same coll p1 p2 :
  samePricingInput p1 p2 → resolve coll p1 = resolve coll p2.
Proof. intros [Hid _]. unfold resolve. by rewrite Hid. Qed.

Lemma qty_same p1 p2 : samePricingInput p1 p2 → qty p1 = qty p2.
Proof. intros [_ Hq]. unfold qty. by rewrite Hq. Qed.

Lemma pricedFrom_quantity coll p prod item :
  pricedFrom coll p prod item → qty p = Some (OrderProduct.quantity item).
Proof.
  intros (_ & q & raw & Hq & Hd & Hc).
  apply OrderProduct_cast_Some in Hc as (_ & _ & _ & _ & -> & _).
  by destruct (detail_Some _ _ _ _ _ Hd) as [_ ->].
Qed.

Lemma pricedLines_same coll lines1 : ∀ lines2 items1 items2,
  Forall2 samePricingInput lines1 lines2 →
  Forall2 (pricedLine coll) lines1 items1 →
  Forall2 (pricedLine coll) lines2 items2 →
  OrderProduct.price <$> items1 = OrderProduct.price <$> items2 ∧
  OrderProduct.quantity <$> items1 = OrderProduct.quantity <$> items2.
Proof.
  induction lines1 as [|p1 lines1 IH]; intros lines2 items1 items2 Hsame H1 H2.
  - apply Forall2_nil_inv_l in Hsame as ->.
    apply Forall2_nil_inv_l in H1 as ->. by apply Forall2_nil_inv_l in H2 as ->.
  - apply Forall2_cons_inv_l in Hsame as (p2 & rest2 & Hp & Hrest & ->).
    apply Forall2_cons_inv_l in H1 as (i1 & r1 & Hi1 & Hr1 & ->).
    apply Forall2_cons_inv_l in H2 as (i2 & r2 & Hi2 & Hr2 & ->).
    destruct (IH _ _ _ Hrest Hr1 Hr2) as [IHp IHq].
    destruct Hi1 as (prod1 & Hi1). destruct Hi2 as (prod2 & Hi2).
    pose proof (pricedFrom_price _ _ _ _ Hi1) as Hp1.
    pose proof (pricedFrom_price _ _ _ _ Hi2) as Hp2.
    pose proof (pricedFrom_quantity _ _ _ _ Hi1) as Hq1.
    pose proof (pricedFrom_quantity _ _ _ _ Hi2) as Hq2.
    destruct Hi1 as [Hres1 _]. destruct Hi2 as [Hres2 _].
    rewrite (resolve_same _ _ _ Hp), Hres2 in Hres1.
    rewrite (qty_same _ _ Hp), Hq2 in Hq1.
    injection Hres1 as <-. injection Hq1 as Hq1.
    cbn. by rewrite IHp, IHq, Hp1, Hp2, Hq1.
Qed.

Lemma sumLines_same items1 : ∀ items2 start,
  OrderProduct.price <$> items1 = OrderProduct.price <$> items2 →
  OrderProduct.quantity <$> items1 = OrderProduct.quantity <$> items2 →
  sumLines start items1 = sumLines start items2.
Proof.
  induction items1 as [|a items1 IH]; intros [|b items2] start; cbn;
    try done.
  intros [= Hp Hps] [= Hq Hqs]. rewrite Hp, Hq. by apply IH.
Qed.

(** C3: from one catalog, two order creations whose carts agree line by
    line on [productId] and [quantity] store the same line prices, the
    same quantities and the same [totalValue], whatever else the two
    requests contain (a [price] in a cart line, a [totalValue] in the
    body, any other field). *)
Theorem stored_prices_ignore_client_prices
    body1 body2 fresh1 fresh2 now1 now2 w1 w2 o1 o2 w1' w2' lines1 lines2 :
  creates body1 fresh1 now1 w1 o1 w1' →
  creates body2 fresh2 now2 w2 o2 w2' →
  productColl w1 = productColl w2 →
  JS.getProp body1 "products" = VArr lines1 →
  JS.getProp body2 "products" = VArr lines2 →
  Forall2 samePricingInput lines1 lines2 →
  OrderProduct.price <$> Order.products o1
  = OrderProduct.price <$> Order.products o2 ∧
  OrderProduct.quantity <$> Order.products o1
  = OrderProduct.quantity <$> Order.products o2 ∧
  Order.totalValue o1 = Order.totalValue o2.
Proof.
  intros (p1 & r1 & c1 & ch1 & ? & Hl1 & Hall1 & (Ht1 & _) & _)%creates_inv
         (p2 & r2 & c2 & ch2 & ? & Hl2 & Hall2 & (Ht2 & _) & _)%creates_inv
         Hcat Hb1 Hb2 Hsame.
  rewrite Hl1 in Hb1. rewrite Hl2 in Hb2.
  injection Hb1 as <-. injection Hb2 as <-. rewrite Hcat in Hall1.
  destruct (pricedLines_same _ _ _ _ _ Hsame Hall1 Hall2) as [Hp Hq].
  repeat split; [done|done|].
  rewrite Ht1, Ht2. by apply sumLines_same.
Qed.

End Independence.

(** C3 on the example: the second request adds [price: 1] to the line and
    [totalValue: 2] to the body; both orders store price 80 and total
    160. *)
Lemma stored_prices_ignore_client_prices_witness :
  OrderProduct.price <$> Order.products Example.twoShirtsOrder
  = OrderProduct.price <$> Order.products Example.cheapShirtsOrder ∧
  OrderProduct.quantity <$> Order.products Example.twoShirtsOrder
  = OrderProduct.quantity <$> Order.products Example.cheapShirtsOrder ∧
  Order.totalValue Example.twoShirtsOrder
  = Order.totalValue Example.cheapShirtsOrder.
Proof.
  apply (stored_prices_ignore_client_prices (H := Ref.platform)
           Example.twoShirtsBody Example.cheapShirtsBody
           Example.O1 Example.O2 7 7 Example.shop Example.shop
           Example.twoShirtsOrder Example.cheapShirtsOrder
           (Example.stored Example.shop Example.twoShirtsOrder
                           [ProductFindById (VStr Example.P1)])
           (Example.stored Example.shop Example.cheapShirtsOrder
                           [ProductFindById (VStr Example.P1)])
           [Example.twoShirts] [Example.cheapShirts]).
  - left. vm_compute. reflexivity.
  - left. vm_compute. reflexivity.
  - reflexivity.
  - vm_compute. reflexivity.
  - vm_compute. reflexivity.
  - repeat constructor.
Defined.

(** ** A line that does not resolve aborts the order *)


(** A [productId] that passes [isValidObjectId] and that the query's cast
    refuses, the number 5: the lookup throws and the answer is the 500 of
    the [CastError]. *)
Lemma numeric_productId_is_cast_error :
  isValidObjectId (H := Ref.platform) (VNum 5) = true ∧
  run (Server.postOrders (H := Ref.platform) Example.numberedBody
         Example.O1 7) Example.shop
  = (Response 500 (Uncaught CastError),
     World Example.catalog ∅ [ProductFindById (VNum 5)]).
Proof. split; vm_compute; reflexivity. Qed.

Section Atomicity.
Context `{Platform}.


Lemma pricedLines_all_resolve coll lines items :
  Forall2 (pricedLine coll) lines items →
  Exists (λ p, resolve coll p = None) lines → False.
Proof.
  induction 1 as [|p item lines items (prod & Hres & _) _ IH];
    inversion 1; subst; [congruence | auto].
Qed.





End Atomicity.


(** ** Quantity normalization *)

(** [qty] keeps a negative quantity: it is not always at least 1. *)
Lemma qty_negative_kept :
  qty (H := Ref.platform) (Example.obj [("quantity", VNum (-2))])
  = Some (-2)%float ∧
  (1 <=? -2)%float = false.
Proof. split; vm_compute; reflexivity. Qed.

(** Nor is it always an integer: two and a half shirts are priced, and
    the order is stored with quantity 2.5. *)
Lemma fractional_quantity_stored :
  creates (H := Ref.platform) Example.halfShirtsBody Example.O1 7 Example.shop
          Example.halfShirtsOrder
          (Example.stored Example.shop Example.halfShirtsOrder
                          [ProductFindById (VStr Example.P1)]).
Proof. left. vm_compute. reflexivity. Qed.

Section Quantity.
Context `{Platform}.

Lemma validate_quantities o :
  Order.validate o = true →
  Forall (λ item, (1 <=? OrderProduct.quantity item)%float = true)
         (Order.products o).
Proof.
  unfold Order.validate. intros Hv.
  repeat (apply andb_prop in Hv as [Hv _]).
  induction (Order.products o) as [|item items IH]; [constructor|].
  cbn in Hv. apply andb_prop in Hv as [Hitem Hitems].
  constructor; [done|by apply IH].
Qed.

(** [qty] on a quantity that is not nullish. *)
Lemma qty_not_nullish p :
  JS.getProp p "quantity" ≠ VUndef → JS.getProp p "quantity" ≠ VNull →
  qty p = n ← JS.ToNumber (JS.getProp p "quantity");
          Some (if is_zero n || is_nan n then 1%float else n).
Proof.
  intros Hu Hn. unfold qty.
  assert (JS.nullish (JS.getProp p "quantity") (VNum 1)
          = JS.getProp p "quantity") as ->.
  { by destruct (JS.getProp p "quantity"). }
  destruct (JS.ToNumber _) as [n|]; [|done]. cbn -[is_zero is_nan].
  by destruct (is_zero n || is_nan n).
Qed.

(** C5, as the code has it: [qty] is [Number(quantity ?? 1) || 1] on
    every cart line. An absent or [null] quantity, a zero, and a string
    that [Number] reads as [NaN] all give 1; every other number is kept as
    it is (3 stays 3; nothing rounds it or makes it positive). A text is
    read by [Number], a boolean gives 1, an array or an object is read
    through its text, and a quantity with no text throws. Every line-item
    of a created order holds the [qty] of its cart line, and that is at
    least 1: the line passed the schema's [min]. *)
Theorem quantity_normalization :
  (∀ p, JS.getProp p "quantity" = VUndef ∨ JS.getProp p "quantity" = VNull ∨
        (∃ f, JS.getProp p "quantity" = VNum f ∧
              (is_zero f || is_nan f) = true) ∨
        (∃ s, JS.getProp p "quantity" = VStr s ∧
              is_nan (StringToNumber s) = true) →
        qty p = Some 1%float) ∧
  (∀ p f, JS.getProp p "quantity" = VNum f →
          is_zero f = false → is_nan f = false → qty p = Some f) ∧
  (∀ body fresh now w o w',
     creates body fresh now w o w' →
     Forall (λ item, (1 <=? OrderProduct.quantity item)%float = true)
            (Order.products o)) ∧
  (∀ p,
     (∀ s, JS.getProp p "quantity" = VStr s →
           qty p = Some (if is_zero (StringToNumber s)
                            || is_nan (StringToNumber s)
                         then 1%float else StringToNumber s)) ∧
     (∀ b, JS.getProp p "quantity" = VBool b → qty p = Some 1%float) ∧
     (∀ n, ((∃ l, JS.getProp p "quantity" = VArr l) ∨
            (∃ m, JS.getProp p "quantity" = VObj m)) →
           JS.ToNumber (JS.getProp p "quantity") = Some n →
           qty p = Some (if is_zero n || is_nan n then 1%float else n)) ∧
     (JS.ToNumber (JS.getProp p "quantity") = None → qty p = None)) ∧
  (∀ body fresh now w o w',
     creates body fresh now w o w' →
     ∃ lines,
       JS.getProp body "products" = VArr lines ∧
       Forall2 (λ p item, qty p = Some (OrderProduct.quantity item))
               lines (Order.products o)).
Proof.
  refine (conj _ (conj _ (conj _ (conj _ _)))).
  - intros p [Hq|[Hq|[(f & Hq & Hf)|(s & Hq & Hs)]]];
      unfold qty; rewrite Hq; cbn -[is_zero is_nan].
    + reflexivity.
    + reflexivity.
    + by rewrite Hf.
    + by rewrite Hs, orb_true_r.
  - intros p f Hq Hz Hn. unfold qty. rewrite Hq. cbn -[is_zero is_nan].
    by rewrite Hz, Hn.
  - intros body fresh now w o w'
      (p & rest & color & charge & w1 & _ & _ & _ & _ & Hv & _)%creates_inv.
    by apply validate_quantities.
  - intros p. refine (conj _ (conj _ (conj _ _))).
    + intros s Hq. rewrite qty_not_nullish by by rewrite Hq.
      by rewrite Hq.
    + intros b Hq. rewrite qty_not_nullish by by rewrite Hq.
      rewrite Hq. by destruct b.
    + intros n Hkind Hn.
      rewrite qty_not_nullish by by destruct Hkind as [[? ->]|[? ->]].
      by rewrite Hn.
    + intros Hn. rewrite qty_not_nullish; [by rewrite Hn| |];
        intros Hq; by rewrite Hq in Hn.
  - intros body fresh now w o w'
      (p & rest & color & charge & w1 & Hl & Hall & _)%creates_inv.
    exists (p :: rest). split; [done|].
    eapply Forall2_impl; [exact Hall|].
    intros line item [prod Hline]. by eapply pricedFrom_quantity.
Qed.

End Quantity.

(** C5 on the examples of the specification: ["abc"], [null], 0 and an
    absent quantity give 1, and 3 gives 3; moreover the text ["3"] gives
    3, the text ["0"] and [true] give 1, and the two shirts are stored
    with the quantity 2 of their cart line. *)
Lemma quantity_normalization_witness :
  qty (H := Ref.platform) (Example.obj [("quantity", VStr "abc")])
  = Some 1%float ∧
  qty (H := Ref.platform) (Example.obj [("quantity", VNull)]) = Some 1%float ∧
  qty (H := Ref.platform) (Example.obj [("quantity", VNum 0)]) = Some 1%float ∧
  qty (H := Ref.platform) (Example.obj []) = Some 1%float ∧
  qty (H := Ref.platform) (Example.obj [("quantity", VNum 3)])
  = Some 3%float ∧
  Forall (λ item, (1 <=? OrderProduct.quantity item)%float = true)
         (Order.products Example.twoShirtsOrder) ∧
  qty (H := Ref.platform) (Example.obj [("quantity", VStr "3")])
  = Some 3%float ∧
  qty (H := Ref.platform) (Example.obj [("quantity", VStr "0")])
  = Some 1%float ∧
  qty (H := Ref.platform) (Example.obj [("quantity", VBool true)])
  = Some 1%float ∧
  ∃ lines,
    JS.getProp Example.twoShirtsBody "products" = VArr lines ∧
    Forall2 (λ p item, qty (H := Ref.platform) p
                       = Some (OrderProduct.quantity item))
            lines (Order.products Example.twoShirtsOrder).
Proof.
  destruct (quantity_normalization (H := Ref.platform))
    as (Hone & Hkept & Hmin & Hkinds & Hline).
  assert (creates (H := Ref.platform) Example.twoShirtsBody Example.O1 7
            Example.shop Example.twoShirtsOrder
            (Example.stored Example.shop Example.twoShirtsOrder
                            [ProductFindById (VStr Example.P1)])) as Hc.
  { left. vm_compute. reflexivity. }
  refine (conj _ (conj _ (conj _ (conj _ (conj _ (conj _
            (conj _ (conj _ (conj _ _))))))))).
  - apply Hone. right. right. right. exists "abc". by vm_compute.
  - apply Hone. right. left. by vm_compute.
  - apply Hone. right. right. left. exists 0%float. by vm_compute.
  - apply Hone. left. by vm_compute.
  - apply Hkept; by vm_compute.
  - exact (Hmin _ _ _ _ _ _ Hc).
  - exact (proj1 (Hkinds (Example.obj [("quantity", VStr "3")])) "3" eq_refl).
  - exact (proj1 (Hkinds (Example.obj [("quantity", VStr "0")])) "0" eq_refl).
  - exact (proj1 (proj2 (Hkinds (Example.obj [("quantity", VBool true)])))
             true eq_refl).
  - exact (Hline _ _ _ _ _ _ Hc).
Defined.

(** ** Status transition *)

(** [part_000] does not reject every status outside the four: with
    [status: null] on the stored order [O1] it answers 200 and keeps the
    order as it is. *)
Lemma null_status_is_kept :
  (∀ s, s ∈ Order.statuses → VNull ≠ VStr s) ∧
  run (Legacy.patchOrderStatus (H := Ref.platform) Example.O1
         Example.nullStatus) Example.shop1
  = (Response 200 (OrderDoc Example.twoShirtsOrder),
     World (productColl Example.shop1) (orderColl Example.shop1)
           [OrderFindById (VStr Example.O1); OrderSave Example.O1]).
Proof. split; [done|]. vm_compute. reflexivity. Qed.

Section StatusTransition.
Context `{Platform}.

Lemma statusChain_str body s :
  JS.getProp body "status" = VStr s →
  Server.statusChain body
  = if isIn Order.statuses s then [] else [("status", "Invalid status")].
Proof.
  intros Hs. unfold Server.statusChain, standard.
  rewrite Hs, fieldText_str, filter_cons, filter_nil.
  destruct (isIn Order.statuses s); by case_decide.
Qed.

Lemma statusChain_nullish body :
  JS.getProp body "status" = VUndef ∨ JS.getProp body "status" = VNull →
  Server.statusChain body = [("status", "Invalid status")].
Proof.
  unfold Server.statusChain, standard.
  intros [-> | ->]; [rewrite fieldText_undefined | rewrite fieldText_null];
    reflexivity.
Qed.

(** The handler of [PATCH /api/orders/:id/status], case by case, after
    the validation middleware. *)
Lemma patch_after_validation id body w :
  Legacy.patchOrderStatus id body w =
  match ObjectId (VStr id) with
  | None => (Sent (Response 400 (Message "Invalid order id")), w)
  | Some k =>
      let w1 := World (productColl w) (orderColl w)
                      (accesses w ++ [OrderFindById (VStr id)]) in
      match orderColl w !! k with
      | None => (Sent (Response 404 (Message "Order not found")), w1)
      | Some order =>
          match Order_setStatus order
                  (JS.nullish (JS.getProp body "status")
                              (Order.status order)) with
          | Some order' =>
              if Order.validate order' then
                (Next (Response 200 (OrderDoc order')),
                 World (productColl w)
                       (<[Order._id order' := order']> (orderColl w))
                       (accesses w1 ++ [OrderSave (Order._id order')]))
              else (Sent (Response 500 (Uncaught ValidationError)), w1)
          | None => (Sent (Response 500 (Uncaught ValidationError)), w1)
          end
      end
  end.
Proof.
  unfold Legacy.patchOrderStatus. rewrite isValidObjectId_text.
  destruct (ObjectId (VStr id)) as [k|] eqn:Hk; cbn [negb]; [|done].
  unfold mbind at 1, Handler_bind at 1. rewrite Order_findById_run, Hk.
  cbn zeta. destruct (orderColl w !! k) as [order|]; [|done].
  unfold mbind, Handler_bind. rewrite Order_save_run.
  destruct (Order_setStatus _ _) as [order'|]; [|done].
  by destruct (Order.validate _).
Qed.

Lemma Server_patch_run id body w :
  Server.patchOrderStatus id body w =
  match Server.statusChain body with
  | [] => Legacy.patchOrderStatus id body w
  | errors => (Sent (Response 400 (ValidationFailed errors)), w)
  end.
Proof.
  unfold Server.patchOrderStatus. unfold mbind at 1, Handler_bind at 1.
  by destruct (Server.statusChain body).
Qed.

Lemma validate_withStatus order v :
  Order.statusInEnum v = false →
  Order.validate (Order.withStatus order v) = false.
Proof. intros Hv. unfold Order.validate. cbn. by rewrite Hv, andb_false_r. Qed.

(** A status outside the enum never passes the save. *)
Lemma setStatus_outside order v :
  outsideEnum v → v ≠ VUndef → v ≠ VNull →
  match Order_setStatus order v with
  | Some order' => Order.validate order' = false
  | None => True
  end.
Proof.
  intros Hout Hu Hn. unfold Order_setStatus.
  destruct (castString v) as [r|] eqn:Hcast; [|done]. cbn.
  apply validate_withStatus.
  destruct (castString_shape _ _ Hcast) as [->|[->|[s ->]]].
  - by destruct Hu; apply (castString_nullish _ _ Hcast); left.
  - by destruct Hn; apply (castString_nullish _ _ Hcast); right.
  - cbn. apply bool_decide_eq_false_2. by apply Hout.
Qed.

(** [part_000] on a status outside the enum that is neither absent nor
    [null]: the answer depends on the id alone, and nothing is written. *)
Lemma Legacy_patch_outside id body w :
  outsideEnum (JS.getProp body "status") →
  JS.getProp body "status" ≠ VUndef → JS.getProp body "status" ≠ VNull →
  ∃ w', sameColls w w' ∧
    run (Legacy.patchOrderStatus id body) w
    = (match ObjectId (VStr id) with
       | None => Response 400 (Message "Invalid order id")
       | Some k =>
           match orderColl w !! k with
           | None => Response 404 (Message "Order not found")
           | Some _ => Response 500 (Uncaught ValidationError)
           end
       end, w').
Proof.
  intros Hout Hu Hn. unfold run. rewrite patch_after_validation.
  destruct (ObjectId (VStr id)) as [k|]; [|by exists w].
  cbn zeta. destruct (orderColl w !! k) as [order|];
    [|by eexists; split; [|reflexivity]].
  assert (JS.nullish (JS.getProp body "status") (Order.status order)
          = JS.getProp body "status") as ->.
  { by destruct (JS.getProp body "status"). }
  pose proof (setStatus_outside order _ Hout Hu Hn) as Hset.
  destruct (Order_setStatus _ _) as [order'|];
    [rewrite Hset|]; by eexists; split; [|reflexivity].
Qed.

(** C6, as the code has it. A status outside pending, processing,
    delivered, cancelled is never stored, and the collections are as
    before. In [index.js] every such status is refused: with the 400 of
    the failed validation, before any store access, when the chain
    reports it (it does for every text, and for an absent or [null]
    status); otherwise at the save, by the schema, with the 500 of the
    [ValidationError] (or 400/404 when the id is no identifier or names no
    order). In [part_000], which has no chain, every such status that is
    neither absent nor [null] is refused at the save in the same way. An
    identifier that names no stored order is answered 404. *)
Theorem status_transition_rejects id body w :
  let v := JS.getProp body "status" in
  let atSave :=
    match ObjectId (VStr id) with
    | None => Response 400 (Message "Invalid order id")
    | Some k =>
        match orderColl w !! k with
        | None => Response 404 (Message "Order not found")
        | Some _ => Response 500 (Uncaught ValidationError)
        end
    end in
  (outsideEnum v →
   ∃ w', sameColls w w' ∧
     run (Server.patchOrderStatus id body) w
     = (match Server.statusChain body with
        | [] => atSave
        | errors => Response 400 (ValidationFailed errors)
        end, w') ∧
     (Server.statusChain body ≠ [] → w' = w) ∧
     ((∃ s, v = VStr s) ∨ v = VUndef ∨ v = VNull →
      Server.statusChain body = [("status", "Invalid status")])) ∧
  (outsideEnum v → v ≠ VUndef → v ≠ VNull →
   ∃ w', sameColls w w' ∧
     run (Legacy.patchOrderStatus id body) w = (atSave, w')) ∧
  (∀ k, ObjectId (VStr id) = Some k → orderColl w !! k = None →
     (∃ w', sameColls w w' ∧
        run (Legacy.patchOrderStatus id body) w
        = (Response 404 (Message "Order not found"), w')) ∧
     (Server.statusChain body = [] →
      ∃ w', sameColls w w' ∧
        run (Server.patchOrderStatus id body) w
        = (Response 404 (Message "Order not found"), w'))).
Proof.
  intros v atSave. refine (conj _ (conj _ _)).
  - intros Hout.
    assert ((∃ s, v = VStr s) ∨ v = VUndef ∨ v = VNull →
            Server.statusChain body = [("status", "Invalid status")])
      as Htext.
    { intros [[s Hs]|Hnull]; [|by apply statusChain_nullish].
      rewrite (statusChain_str _ _ Hs). unfold isIn.
      rewrite bool_decide_eq_false_2; [done|].
      apply Hout. fold v. by rewrite Hs. }
    unfold run. rewrite Server_patch_run.
    destruct (Server.statusChain body) as [|e errors] eqn:Hchain.
    + destruct (Legacy_patch_outside id body w Hout) as (w' & Hsame & Hrun).
      * intros Hu. by discriminate Htext; right; left.
      * intros Hn. by discriminate Htext; right; right.
      * exists w'. unfold run in Hrun. by rewrite Hrun.
    + exists w. by repeat split.
  - intros Hout Hu Hn. exact (Legacy_patch_outside id body w Hout Hu Hn).
  - intros k Hk Hnone.
    assert (∃ w', sameColls w w' ∧
              run (Legacy.patchOrderStatus id body) w
              = (Response 404 (Message "Order not found"), w')) as Hlegacy.
    { unfold run. rewrite patch_after_validation, Hk. cbn zeta.
      rewrite Hnone. by eexists; split; [|reflexivity]. }
    split; [done|]. intros Hchain. unfold run.
    rewrite Server_patch_run, Hchain. exact Hlegacy.
Qed.

End StatusTransition.

(** C6 on a shop holding order [O1]: [index.js] refuses ["shipped"] with
    the failed validation and the world as before, and refuses the empty
    array, which the chain lets through, at the save; [part_000] refuses
    ["shipped"] at the save; ["delivered"] for the unknown [O2] is
    answered 404. *)
Lemma status_transition_rejects_witness :
  run (Server.patchOrderStatus (H := Ref.platform) Example.O1 Example.shipped)
      Example.shop1
  = (Response 400 (ValidationFailed [("status", "Invalid status")]),
     Example.shop1) ∧
  (∃ w', sameColls Example.shop1 w' ∧
     run (Server.patchOrderStatus (H := Ref.platform) Example.O1
            Example.noStatuses) Example.shop1
     = (Response 500 (Uncaught ValidationError), w')) ∧
  (∃ w', sameColls Example.shop1 w' ∧
     run (Legacy.patchOrderStatus (H := Ref.platform) Example.O1
            Example.shipped) Example.shop1
     = (Response 500 (Uncaught ValidationError), w')) ∧
  (∃ w', sameColls Example.shop1 w' ∧
     run (Server.patchOrderStatus (H := Ref.platform) Example.O2
            Example.delivered) Example.shop1
     = (Response 404 (Message "Order not found"), w')).
Proof.
  assert (outsideEnum (H := Ref.platform) (VStr "shipped")) as Hshipped.
  { intros s [= <-]. apply (bool_decide_unpack _). vm_compute. exact I. }
  assert (outsideEnum (H := Ref.platform) (VArr [])) as Hnone.
  { intros s Hs. vm_compute in Hs. discriminate Hs. }
  refine (conj _ (conj _ (conj _ _))).
  - destruct (proj1 (status_transition_rejects (H := Ref.platform) Example.O1
                       Example.shipped Example.shop1) Hshipped)
      as (w' & _ & Hrun & Hw & Hchain).
    rewrite Hrun, Hchain by (left; by exists "shipped").
    rewrite Hw; [done|]. by rewrite Hchain by (left; by exists "shipped").
  - destruct (proj1 (status_transition_rejects (H := Ref.platform) Example.O1
                       Example.noStatuses Example.shop1) Hnone)
      as (w' & Hsame & Hrun & _). by exists w'.
  - apply (proj1 (proj2 (status_transition_rejects (H := Ref.platform)
                           Example.O1 Example.shipped Example.shop1))
             Hshipped); discriminate.
  - apply (proj2 (proj2 (status_transition_rejects (H := Ref.platform)
                           Example.O2 Example.delivered Example.shop1))
             Example.O2); vm_compute; reflexivity.
Defined.

(** ** The empty cart *)

Section EmptyCart.
Context `{Platform}.

(** C7: a body whose [products] is not a non-empty array (absent, [[]],
    or anything else) is answered 400 by both versions of the route, as a
    failed validation naming [products] in [index.js] and with the message
    "Products are required" in [part_000]; the world, access log
    included, is as before: no catalog lookup was made. *)
Theorem empty_cart_rejected_before_lookup body fresh now w :
  (∀ p rest, JS.getProp body "products" ≠ VArr (p :: rest)) →
  (∃ errors,
     run (Server.postOrders body fresh now) w
     = (Response 400
          (ValidationFailed (("products", "Products are required") :: errors)),
        w)) ∧
  run (Legacy.postOrders body fresh now) w
  = (Response 400 (Message "Products are required"), w).
Proof.
  intros Hno. split.
  - assert (∃ errors, Server.ordersChains body
              = ("products", "Products are required") :: errors)
      as [errors Herr].
    { unfold Server.ordersChains, custom, isArray.
      destruct (JS.getProp body "products") as [| | | | |[|p rest]|];
        try (eexists; reflexivity).
      destruct (Hno p rest eq_refl). }
    exists errors. unfold run.
    rewrite Server_postOrders_invalid; rewrite Herr; done.
  - destruct (Legacy_postOrders_cases body fresh now w)
      as [(p & rest & Hl & _)|[_ Heq]]; [destruct (Hno p rest Hl)|].
    unfold run. by rewrite Heq.
Qed.

End EmptyCart.

(** C7 on a body with no [products] and on [products: []]. *)
Lemma empty_cart_rejected_before_lookup_witness :
  ((∃ errors,
      run (Server.postOrders (H := Ref.platform) Example.noCart Example.O1 7)
          Example.shop
      = (Response 400
           (ValidationFailed (("products", "Products are required") :: errors)),
         Example.shop)) ∧
   run (Legacy.postOrders (H := Ref.platform) Example.noCart Example.O1 7)
       Example.shop
   = (Response 400 (Message "Products are required"), Example.shop)) ∧
  ((∃ errors,
      run (Server.postOrders (H := Ref.platform) Example.emptyCart Example.O1 7)
          Example.shop
      = (Response 400
           (ValidationFailed (("products", "Products are required") :: errors)),
         Example.shop)) ∧
   run (Legacy.postOrders (H := Ref.platform) Example.emptyCart Example.O1 7)
       Example.shop
   = (Response 400 (Message "Products are required"), Example.shop)).
Proof.
  split; apply (empty_cart_rejected_before_lookup (H := Ref.platform));
    intros p rest; vm_compute; discriminate.
Defined.

(** ** The snapshot's category *)

(** Read by presence, the rule fails on an empty [category]: the line has
    one, yet the stored snapshot carries the product's first category. *)
Lemma category_by_presence_fails :
  creates (H := Ref.platform) Example.unlabelledBody Example.O1 7 Example.shop
          Example.unlabelledOrder
          (Example.stored Example.shop Example.unlabelledOrder
                          [ProductFindById (VStr Example.P1)]) ∧
  resolve (H := Ref.platform) Example.catalog Example.unlabelledShirt
  = Some Example.shirt ∧
  OrderProduct.category <$> Order.products Example.unlabelledOrder
  = [VStr "beetroth"] ∧
  categoryByPresence Example.unlabelledShirt Example.shirt = VStr "" ∧
  VStr "beetroth" ≠ VStr "".
Proof.
  refine (conj _ (conj _ (conj _ (conj _ _)))).
  - left. vm_compute. reflexivity.
  - vm_compute. reflexivity.
  - reflexivity.
  - vm_compute. reflexivity.
  - discriminate.
Qed.

(** A category that is no text is stored as the text the schema casts it
    to: the shirt ordered with [category: 5] is stored with ["5"]. *)
Lemma numeric_category_is_cast :
  creates (H := Ref.platform) Example.numberedShirtBody Example.O1 7
          Example.shop Example.numberedShirtOrder
          (Example.stored Example.shop Example.numberedShirtOrder
                          [ProductFindById (VStr Example.P1)]).
Proof. left. vm_compute. reflexivity. Qed.

Section Snapshot.
Context `{Platform}.

Lemma detail_category p prod u q item :
  detail p prod u q = Some item →
  OrderProduct.category item = categoryByTruthiness p prod.
Proof.
  unfold detail. destruct (JS.ToString _); [|done]. cbn. intros [= <-]. cbn.
  unfold categoryByTruthiness, JS.orElse, firstCategory.
  destruct (JS.truthy (JS.getProp p "category")); [done|].
  by destruct (Product.categories prod).
Qed.

(** The two readings agree unless the line's [category] is present and
    falsy (an empty text, say) or the product's first category is empty. *)
Lemma categoryByPresence_agrees p prod :
  (JS.getProp p "category" = VUndef ∨ JS.getProp p "category" = VNull ∨
   JS.truthy (JS.getProp p "category") = true) →
  (∀ c rest, Product.categories prod = c :: rest → c ≠ "") →
  categoryByPresence p prod = categoryByTruthiness p prod.
Proof.
  unfold categoryByPresence, categoryByTruthiness. intros Hc Hprod.
  assert (match Product.categories prod with
          | c :: _ => VStr c
          | [] => VNull
          end
          = match Product.categories prod with
            | c :: _ => if JS.truthy (VStr c) then VStr c else VNull
            | [] => VNull
            end) as Hfirst.
  { destruct (Product.categories prod) as [|c rest] eqn:Hcs; [done|].
    cbn. destruct (String.eqb_spec c ""); [|done].
    by destruct (Hprod c rest eq_refl). }
  destruct Hc as [-> | [-> | Ht]]; [done|done|].
  rewrite Ht. by destruct (JS.getProp p "category").
Qed.

(** The category rule gives a text or [null] unless the line's own
    category is truthy and no text. *)
Lemma categoryByTruthiness_kept p prod :
  JS.truthy (JS.getProp p "category") = false ∨
  (∃ s, JS.getProp p "category" = VStr s) →
  castString (categoryByTruthiness p prod) = Some (categoryByTruthiness p prod).
Proof.
  unfold categoryByTruthiness. intros [Hf|[s Hs]].
  - rewrite Hf. destruct (Product.categories prod) as [|c rest]; [done|].
    by destruct (JS.truthy (VStr c)).
  - rewrite Hs. destruct (JS.truthy (VStr s)); [done|].
    destruct (Product.categories prod) as [|c rest]; [done|].
    by destruct (JS.truthy (VStr c)).
Qed.

(** C8, as the code has it: the snapshot's category is the cart line's
    [category] when that is truthy, else the product's first category when
    there is one and it is not empty, else [null], and it is stored as the
    schema's [String] path casts it. A line's category that is a text (or
    that is falsy) is not changed by the cast: a non-empty text is stored
    as it is. *)
Theorem snapshot_category_by_truthiness body fresh now w o w' :
  creates body fresh now w o w' →
  ∃ lines,
    JS.getProp body "products" = VArr lines ∧
    Forall2
      (λ p item, ∃ prod,
         resolve (productColl w) p = Some prod ∧
         castString (categoryByTruthiness p prod)
         = Some (OrderProduct.category item) ∧
         (JS.truthy (JS.getProp p "category") = false ∨
          (∃ s, JS.getProp p "category" = VStr s) →
          OrderProduct.category item = categoryByTruthiness p prod))
      lines (Order.products o).
Proof.
  intros (p & rest & color & charge & w1 & Hl & Hall & _)%creates_inv.
  exists (p :: rest). split; [done|].
  eapply Forall2_impl; [exact Hall|]. clear.
  intros p item (prod & Hres & q & raw & Hq & Hd & Hc). exists prod.
  split; [done|].
  apply OrderProduct_cast_Some in Hc as (_ & _ & _ & _ & _ & _ & _ & Hcat).
  rewrite (detail_category _ _ _ _ _ Hd) in Hcat. split; [done|].
  intros Hkind. rewrite (categoryByTruthiness_kept _ _ Hkind) in Hcat.
  by injection Hcat as <-.
Qed.

(** C9: every created order has status [pending], whatever the body
    holds, and its [deliveryCharge] is [Number(deliveryCharge || 0)]: 0
    when the input is absent (or otherwise falsy), the input read as a
    number when it is not. *)
Theorem created_order_is_pending_with_charge body fresh now w o w' :
  creates body fresh now w o w' →
  Order.status o = VStr "pending" ∧
  (JS.truthy (JS.getProp body "deliveryCharge") = false →
   Order.deliveryCharge o = 0%float) ∧
  (JS.truthy (JS.getProp body "deliveryCharge") = true →
   JS.ToNumber (JS.getProp body "deliveryCharge")
   = Some (Order.deliveryCharge o)).
Proof.
  intros (p & rest & color & charge & w1 & _ & _ & (_ & Hst & Hch & _)
          & (_ & Hc) & _)%creates_inv.
  rewrite Hst, Hch. unfold JS.orElse in Hc. split; [done|].
  destruct (JS.truthy (JS.getProp body "deliveryCharge")).
  - split; [done|]. by intros _.
  - split; [|done]. intros _. cbn in Hc. by injection Hc as <-.
Qed.

Lemma detail_imageUrl p prod u q item :
  detail p prod u q = Some item →
  OrderProduct.imageUrl item
  = JS.orElse (JS.orElse (JS.getProp p "imageUrl")
                         (optionalString (Product.imageUrl prod)))
              (VStr "").
Proof.
  unfold detail. destruct (JS.ToString _); [|done]. cbn. by intros [= <-].
Qed.

(** C10: when the cart line has no [imageUrl] or an empty one, the
    snapshot's [imageUrl] is the product's when the product has a
    non-empty one, and the empty text (not an absent value) when the
    product has none or an empty one. *)
Theorem snapshot_imageUrl_falls_through body fresh now w o w' :
  creates body fresh now w o w' →
  ∃ lines,
    JS.getProp body "products" = VArr lines ∧
    Forall2
      (λ p item, ∃ prod,
         resolve (productColl w) p = Some prod ∧
         (JS.getProp p "imageUrl" = VUndef ∨
          JS.getProp p "imageUrl" = VStr "" →
          (Product.imageUrl prod = None ∨ Product.imageUrl prod = Some "" →
           OrderProduct.imageUrl item = VStr "") ∧
          (∀ u, Product.imageUrl prod = Some u → u ≠ "" →
                OrderProduct.imageUrl item = VStr u)))
      lines (Order.products o).
Proof.
  intros (p & rest & color & charge & w1 & Hl & Hall & _)%creates_inv.
  exists (p :: rest). split; [done|].
  eapply Forall2_impl; [exact Hall|]. clear.
  intros p item (prod & Hres & q & raw & Hq & Hd & Hc). exists prod.
  split; [done|].
  apply OrderProduct_cast_Some in Hc as (_ & _ & _ & _ & _ & _ & Himg & _).
  rewrite (detail_imageUrl _ _ _ _ _ Hd) in Himg. intros Hcart.
  assert (JS.orElse (JS.getProp p "imageUrl")
                    (optionalString (Product.imageUrl prod))
          = optionalString (Product.imageUrl prod)) as Hfall.
  { by destruct Hcart as [-> | ->]. }
  rewrite Hfall in Himg. split.
  - intros [Hnone | Hempty]; [rewrite Hnone in Himg|rewrite Hempty in Himg];
      cbn in Himg; by injection Himg as <-.
  - intros u Hu Hne. rewrite Hu in Himg. unfold JS.orElse in Himg.
    cbn in Himg. destruct (String.eqb_spec u ""); [done|].
    cbn in Himg. by injection Himg as <-.
Qed.

End Snapshot.

(** C8 on the examples: the shirt ordered with [category: ""] is stored
    with the product's first category, and the shirt ordered with
    [category: 5] with the text the schema makes of 5. *)
Lemma snapshot_category_by_truthiness_witness :
  (∃ lines,
     JS.getProp Example.unlabelledBody "products" = VArr lines ∧
     Forall2
       (λ p item, ∃ prod,
          resolve (H := Ref.platform) Example.catalog p = Some prod ∧
          castString (H := Ref.platform) (categoryByTruthiness p prod)
          = Some (OrderProduct.category item) ∧
          (JS.truthy (JS.getProp p "category") = false ∨
           (∃ s, JS.getProp p "category" = VStr s) →
           OrderProduct.category item = categoryByTruthiness p prod))
       lines (Order.products Example.unlabelledOrder)) ∧
  (∃ lines,
     JS.getProp Example.numberedShirtBody "products" = VArr lines ∧
     Forall2
       (λ p item, ∃ prod,
          resolve (H := Ref.platform) Example.catalog p = Some prod ∧
          castString (H := Ref.platform) (categoryByTruthiness p prod)
          = Some (OrderProduct.category item) ∧
          (JS.truthy (JS.getProp p "category") = false ∨
           (∃ s, JS.getProp p "category" = VStr s) →
           OrderProduct.category item = categoryByTruthiness p prod))
       lines (Order.products Example.numberedShirtOrder)).
Proof.
  split.
  - apply (snapshot_category_by_truthiness (H := Ref.platform)
             Example.unlabelledBody Example.O1 7 Example.shop
             Example.unlabelledOrder
             (Example.stored Example.shop Example.unlabelledOrder
                             [ProductFindById (VStr Example.P1)])).
    left. vm_compute. reflexivity.
  - apply (snapshot_category_by_truthiness (H := Ref.platform)
             Example.numberedShirtBody Example.O1 7 Example.shop
             Example.numberedShirtOrder
             (Example.stored Example.shop Example.numberedShirtOrder
                             [ProductFindById (VStr Example.P1)])).
    left. vm_compute. reflexivity.
Defined.

(** C9 on the example: the body asks for [status: "delivered"] and a
    delivery charge of 60; the order is created [pending] with charge
    60. *)
Lemma created_order_is_pending_with_charge_witness :
  Order.status Example.chargedOrder = VStr "pending" ∧
  JS.ToNumber (H := Ref.runtime) (JS.getProp Example.chargedBody "deliveryCharge")
  = Some (Order.deliveryCharge Example.chargedOrder).
Proof.
  destruct (created_order_is_pending_with_charge (H := Ref.platform)
              Example.chargedBody Example.O1 7 Example.shop
              Example.chargedOrder
              (Example.stored Example.shop Example.chargedOrder
                              [ProductFindById (VStr Example.P1)]))
    as (Hstatus & _ & Hcharge).
  - left. vm_compute. reflexivity.
  - split; [exact Hstatus|]. apply Hcharge. vm_compute. reflexivity.
Defined.

(** C10 on the example: the scarf has no image anywhere and is stored
    with the empty text; the shirt ordered with [imageUrl: ""] is stored
    with the product's image. *)
Lemma snapshot_imageUrl_falls_through_witness :
  creates (H := Ref.platform) Example.imagesBody Example.O1 7 Example.shop
          Example.imagesOrder
          (Example.stored Example.shop Example.imagesOrder
                          [ProductFindById (VStr Example.P2);
                           ProductFindById (VStr Example.P1)]) ∧
  ∃ lines,
    JS.getProp Example.imagesBody "products" = VArr lines ∧
    Forall2
      (λ p item, ∃ prod,
         resolve (H := Ref.platform) Example.catalog p = Some prod ∧
         (JS.getProp p "imageUrl" = VUndef ∨
          JS.getProp p "imageUrl" = VStr "" →
          (Product.imageUrl prod = None ∨ Product.imageUrl prod = Some "" →
           OrderProduct.imageUrl item = VStr "") ∧
          (∀ u, Product.imageUrl prod = Some u → u ≠ "" →
                OrderProduct.imageUrl item = VStr u)))
      lines (Order.products Example.imagesOrder).
Proof.
  assert (creates (H := Ref.platform) Example.imagesBody Example.O1 7
            Example.shop Example.imagesOrder
            (Example.stored Example.shop Example.imagesOrder
                            [ProductFindById (VStr Example.P2);
                             ProductFindById (VStr Example.P1)])) as Hc.
  { left. vm_compute. reflexivity. }
  split; [exact Hc|].
  exact (snapshot_imageUrl_falls_through (H := Ref.platform) _ _ _ _ _ _ Hc).
Defined.

(** * Further properties of the routes *)

(** ** What [POST /api/orders] does to the store *)

Section CreationStore.
Context `{Platform}.

(** The loop and the save, on any cart: the catalog is never written, and
    the orders collection is either untouched (answer 400 or 500) or has
    gained the validated order under the fresh id (answer 201). *)
Lemma priceAndSave_outcome body lines fresh now w r w' :
  run (priceAndSave body lines fresh now) w = (r, w') →
  productColl w' = productColl w ∧
  ((orderColl w' = orderColl w ∧
    (statusCode r = 400%Z ∨ statusCode r = 500%Z))
   ∨ ∃ o, r = Response 201 (OrderDoc o) ∧ Order._id o = fresh ∧
          Order.validate o = true ∧
          orderColl w' = <[fresh := o]> (orderColl w)).
Proof.
  unfold run, priceAndSave.
  destruct (priceLines lines 0 [] w) as [[[t d]|r1] w1] eqn:Hloop.
  - rewrite (bind_eq_Next _ _ _ _ _ Hloop). cbn [fst snd].
    apply priceLines_Next in Hloop as (items & _ & _ & _ & [Hp Ho]).
    rewrite saveOrder_run.
    destruct (JS.ToString _) as [color|];
      [|intros [= <- <-]; split; [done|left; split; [done|by right]]].
    destruct (JS.ToNumber _) as [charge|];
      [|intros [= <- <-]; split; [done|left; split; [done|by right]]].
    destruct (Order_cast _) as [order|] eqn:Hcast;
      [|intros [= <- <-]; split; [done|left; split; [done|by right]]].
    apply Order_cast_Some in Hcast as (_ & Hid & _).
    destruct (Order.validate _) eqn:Hval.
    + intros [= <- <-]. cbn [productColl orderColl]. split; [done|].
      right. eexists. rewrite Ho. by repeat split.
    + intros [= <- <-]. split; [done|left; split; [done|by right]].
  - rewrite (bind_eq_Sent _ _ _ _ _ Hloop). intros [= <- <-].
    apply priceLines_Sent in Hloop as [[Hp Ho] Hr]. split; [done|].
    by left.
Qed.

Lemma answers_outcome body fresh now w r w' :
  answers body fresh now w r w' →
  productColl w' = productColl w ∧
  ((orderColl w' = orderColl w ∧
    (statusCode r = 400%Z ∨ statusCode r = 500%Z))
   ∨ ∃ o, r = Response 201 (OrderDoc o) ∧ Order._id o = fresh ∧
          Order.validate o = true ∧
          orderColl w' = <[fresh := o]> (orderColl w)).
Proof.
  intros [Hrun|Hrun].
  - destruct (Server.ordersChains body) as [|e errs] eqn:Hv.
    + destruct (Server_chains_products body Hv) as (p & rest & Hl).
      unfold run in Hrun.
      rewrite (Server_postOrders_valid _ _ _ _ _ Hv Hl) in Hrun.
      exact (priceAndSave_outcome _ _ _ _ _ _ _ Hrun).
    + unfold run in Hrun. rewrite Server_postOrders_invalid in Hrun;
        [|by rewrite Hv].
      injection Hrun as <- <-. split; [done|]. left. split; [done|by left].
  - destruct (Legacy_postOrders_cases body fresh now w)
      as [(p & rest & Hl & Heq)|[_ Heq]]; unfold run in Hrun;
      rewrite Heq in Hrun.
    + exact (priceAndSave_outcome _ _ _ _ _ _ _ Hrun).
    + injection Hrun as <- <-. split; [done|]. left. split; [done|by left].
Qed.

(** X1: whatever the request, [POST /api/orders] (either version) answers
    201, 400 or 500, never writes the catalog, and touches the orders
    collection at the fresh id only: unless it answers 201 the collection
    is exactly as before, and when it does the answered order is the one
    stored under the fresh id. *)
Theorem post_orders_all_or_nothing body fresh now w r w' :
  answers body fresh now w r w' →
  productColl w' = productColl w ∧
  (statusCode r = 201%Z ∨ statusCode r = 400%Z ∨ statusCode r = 500%Z) ∧
  (statusCode r ≠ 201%Z → orderColl w' = orderColl w) ∧
  (∀ k, k ≠ fresh → orderColl w' !! k = orderColl w !! k) ∧
  (statusCode r = 201%Z →
   ∃ o, r = Response 201 (OrderDoc o) ∧ orderColl w' !! fresh = Some o).
Proof.
  intros (Hp & [[Ho Hc]|(o & -> & Hid & Hv & Ho)])%answers_outcome.
  - split; [done|]. split; [destruct Hc; auto|]. split; [done|].
    split; [by rewrite Ho|]. intros H201. destruct Hc; congruence.
  - split; [done|]. split; [by left|]. split; [done|].
    split; [intros k Hk; by rewrite Ho, lookup_insert_ne|].
    intros _. exists o. by rewrite Ho, lookup_insert_eq.
Qed.

(** X2: the orders invariant (every stored order is filed under its own
    [_id] and passes the schema's validators, so its [totalValue] and
    [deliveryCharge] are at least 0, its quantities at least 1 and its
    status one of the four) survives every [POST /api/orders]. *)
Theorem post_orders_keeps_orders_valid body fresh now w r w' :
  answers body fresh now w r w' → ordersOk w → ordersOk w'.
Proof.
  intros (_ & [[Ho _]|(o & _ & Hid & Hv & Ho)])%answers_outcome Hok k o'.
  - rewrite Ho. apply Hok.
  - rewrite Ho. destruct (decide (fresh = k)) as [<-|Hne].
    + rewrite lookup_insert_eq. by intros [= <-].
    + rewrite lookup_insert_ne by done. apply Hok.
Qed.

(** The log of the loop on a cart it prices to the end. *)
Lemma priceAndSave_201_world body lines fresh now w o w' :
  run (priceAndSave body lines fresh now) w
  = (Response 201 (OrderDoc o), w') →
  w' = World (productColl w) (<[fresh := o]> (orderColl w))
             (accesses w ++ lookups lines ++ [OrderSave fresh]).
Proof.
  intros Hrun.
  destruct (priceAndSave_201 _ _ _ _ _ _ _ Hrun)
    as (color & charge & w1 & Hall & _).
  destruct (pricedLines_pushed _ _ _ Hall) as (raws & Hraws & _).
  unfold run, priceAndSave in Hrun.
  rewrite (bind_eq_Next _ _ _ _ _
             (priceLines_complete _ _ 0%float [] _ Hraws)) in Hrun.
  cbn [fst snd app] in Hrun. rewrite saveOrder_run in Hrun.
  destruct (JS.ToString _) as [color'|]; [|done].
  destruct (JS.ToNumber _) as [charge'|]; [|done].
  destruct (Order_cast _) as [order|]; [|done].
  destruct (Order.validate _); [|done].
  injection Hrun as <- <-. cbn [productColl orderColl accesses].
  by rewrite <- app_assoc.
Qed.

(** X3: a successful [POST /api/orders] (either version) reads the
    catalog exactly once per cart line, in cart order, and then writes the
    orders collection exactly once; nothing else is accessed, and the
    world it leaves is the old one with the order added. *)
Theorem creation_reads_each_line_once_then_writes_once
    body fresh now w o w' lines :
  creates body fresh now w o w' →
  JS.getProp body "products" = VArr lines →
  w' = World (productColl w) (<[fresh := o]> (orderColl w))
             (accesses w ++ lookups lines ++ [OrderSave fresh]).
Proof.
  intros [Hrun|Hrun] Hl.
  - destruct (Server.ordersChains body) as [|e errs] eqn:Hv.
    + unfold run in Hrun.
      rewrite (Server_postOrders_valid _ _ _ _ _ Hv Hl) in Hrun.
      exact (priceAndSave_201_world _ _ _ _ _ _ _ Hrun).
    + unfold run in Hrun. rewrite Server_postOrders_invalid in Hrun;
        [|by rewrite Hv]. done.
  - destruct (Legacy_postOrders_cases body fresh now w)
      as [(p & rest & Hl' & Heq)|[_ Heq]]; unfold run in Hrun;
      rewrite Heq in Hrun; [|done].
    rewrite Hl in Hl'. injection Hl' as ->.
    exact (priceAndSave_201_world _ _ _ _ _ _ _ Hrun).
Qed.

End CreationStore.

(** ** Line-items follow the cart *)

Section LineItems.
Context `{Platform}.

Lemma detail_identity p prod u q item :
  detail p prod u q = Some item →
  OrderProduct.productId item = Product._id prod ∧
  OrderProduct.title item = Product.title prod ∧
  OrderProduct.code item = Product.code prod.
Proof.
  unfold detail. destruct (JS.ToString _); [|done]. cbn. by intros [= <-].
Qed.

Lemma pricedLine_in_catalog (w : world) p item :
  catalogOk w → pricedLine (productColl w) p item →
  ObjectId (JS.optChain p "productId") = Some (OrderProduct.productId item) ∧
  ∃ prod,
    productColl w !! OrderProduct.productId item = Some prod ∧
    OrderProduct.title item = Product.title prod ∧
    OrderProduct.code item = Product.code prod.
Proof.
  intros Hcat (prod & Hres & q & raw & Hq & Hd & Hcast).
  apply resolve_Some in Hres as (_ & k & Hk & Hprod).
  apply OrderProduct_cast_Some in Hcast as (-> & -> & -> & _).
  destruct (detail_identity _ _ _ _ _ Hd) as (Hid & Ht & Hc).
  rewrite Hid, (Hcat _ _ Hprod). split; [done|]. by exists prod.
Qed.

(** X4: the line-items of a created order are the cart lines in cart
    order, one for one; over a catalog whose products are filed under
    their own [_id], each line-item stores the identifier its cart line
    referred to and the title and code that product has in the catalog at
    that moment. *)
Theorem line_items_follow_cart body fresh now w o w' lines :
  creates body fresh now w o w' →
  JS.getProp body "products" = VArr lines →
  catalogOk w →
  Forall2
    (λ p item,
       ObjectId (JS.optChain p "productId")
       = Some (OrderProduct.productId item) ∧
       ∃ prod,
         productColl w !! OrderProduct.productId item = Some prod ∧
         OrderProduct.title item = Product.title prod ∧
         OrderProduct.code item = Product.code prod)
    lines (Order.products o).
Proof.
  intros (p & rest & color & charge & w1 & Hl & Hall & _)%creates_inv
         Hb Hcat.
  rewrite Hl in Hb. injection Hb as <-.
  eapply Forall2_impl; [exact Hall|].
  intros line item. by apply pricedLine_in_catalog.
Qed.

End LineItems.

(** ** Status transitions that go through *)

Section StatusApplies.
Context `{Platform}.

Lemma withStatus_same o : Order.withStatus o (Order.status o) = o.
Proof. by destruct o. Qed.

Lemma validate_withStatus_ok o s :
  Order.validate o = true → s ∈ Order.statuses →
  Order.validate (Order.withStatus o (VStr s)) = true.
Proof.
  unfold Order.validate. intros [Hrest _]%andb_prop Hs. cbn.
  cbn in Hrest. rewrite Hrest. cbn. by apply bool_decide_eq_true_2.
Qed.

Lemma Legacy_patch_valid_status id body w k o s :
  ordersOk w →
  ObjectId (VStr id) = Some k →
  orderColl w !! k = Some o →
  JS.getProp body "status" = VStr s →
  s ∈ Order.statuses →
  Legacy.patchOrderStatus id body w
  = (Next (Response 200 (OrderDoc (Order.withStatus o (VStr s)))),
     World (productColl w)
           (<[k := Order.withStatus o (VStr s)]> (orderColl w))
           (accesses w ++ [OrderFindById (VStr id); OrderSave k])).
Proof.
  intros Hok Hk Ho Hs Hin. destruct (Hok _ _ Ho) as [Hid Hval].
  rewrite patch_after_validation, Hk. cbn zeta. rewrite Ho, Hs.
  cbn [JS.nullish Order_setStatus castString mbind option_bind].
  rewrite (validate_withStatus_ok _ _ Hval Hin).
  cbn [accesses]. rewrite <- app_assoc. cbn. by rewrite Hid.
Qed.

Lemma Server_patch_valid_status id body w s :
  JS.getProp body "status" = VStr s → s ∈ Order.statuses →
  Server.patchOrderStatus id body w = Legacy.patchOrderStatus id body w.
Proof.
  intros Hs Hin. rewrite Server_patch_run, (statusChain_str _ _ Hs).
  unfold isIn. by rewrite bool_decide_eq_true_2.
Qed.

(** X5: with a stored order and one of the four statuses, the transition
    goes through whatever the order's current status is (there is no
    transition graph): both versions of the route answer 200 with the
    order as stored except for its status, file it under the same id and
    leave every other order and the catalog alone. *)
Theorem status_transition_applies id body w k o s :
  ordersOk w →
  ObjectId (VStr id) = Some k →
  orderColl w !! k = Some o →
  JS.getProp body "status" = VStr s →
  s ∈ Order.statuses →
  run (Server.patchOrderStatus id body) w
  = (Response 200 (OrderDoc (Order.withStatus o (VStr s))),
     World (productColl w)
           (<[k := Order.withStatus o (VStr s)]> (orderColl w))
           (accesses w ++ [OrderFindById (VStr id); OrderSave k])) ∧
  run (Legacy.patchOrderStatus id body) w
  = run (Server.patchOrderStatus id body) w.
Proof.
  intros Hok Hk Ho Hs Hin. unfold run.
  rewrite (Server_patch_valid_status _ _ _ _ Hs Hin). split; [|done].
  by rewrite (Legacy_patch_valid_status _ _ _ _ _ _ Hok Hk Ho Hs Hin).
Qed.

(** Any request to either version of the status route, and any
    [DELETE /api/orders/:id], keeps the orders invariant and the
    catalog. *)
Lemma patch_outcome id body w :
  ordersOk w →
  ordersOk (Legacy.patchOrderStatus id body w).2 ∧
  productColl (Legacy.patchOrderStatus id body w).2 = productColl w.
Proof.
  intros Hok. rewrite patch_after_validation.
  destruct (ObjectId (VStr id)) as [k|]; [|by split].
  cbn zeta. destruct (orderColl w !! k) as [o|] eqn:Ho; [|by split].
  destruct (Order_setStatus _ _) as [o1|] eqn:Hset; [|by split].
  assert (Order._id o1 = Order._id o) as Hid1.
  { unfold Order_setStatus in Hset. destruct (castString _); [|done].
    cbn in Hset. by injection Hset as <-. }
  destruct (Order.validate _) eqn:Hval; [|by split].
  split; [|done]. intros k' o'. cbn [snd orderColl].
  destruct (Hok _ _ Ho) as [Hid _].
  destruct (decide (k = k')) as [<-|Hne].
  - cbn. rewrite Hid1, Hid, lookup_insert_eq. intros [= <-].
    split; [congruence|done].
  - cbn. rewrite Hid1, Hid, lookup_insert_ne by done. apply Hok.
Qed.

(** X6: the orders invariant survives every request to the status route,
    in either version and whatever the body: a status is written only
    with a document that passes the schema's validators, under the id it
    was found at; the catalog is never written. *)
Theorem status_route_keeps_orders_valid id body w :
  ordersOk w →
  (ordersOk (run (Server.patchOrderStatus id body) w).2 ∧
   productColl (run (Server.patchOrderStatus id body) w).2 = productColl w) ∧
  (ordersOk (run (Legacy.patchOrderStatus id body) w).2 ∧
   productColl (run (Legacy.patchOrderStatus id body) w).2 = productColl w).
Proof.
  intros Hok.
  assert (∀ h : Handler response, (run h w).2 = (h w).2) as Hrun.
  { intros h. unfold run. by destruct (h w) as [[?|?] ?]. }
  rewrite !Hrun. split; [|by apply patch_outcome].
  rewrite Server_patch_run.
  destruct (Server.statusChain body); [by apply patch_outcome|by split].
Qed.

(** X7: setting the same status twice is the same as setting it once:
    the second request gets the same answer and leaves the collections as
    the first left them. *)
Theorem status_transition_idempotent id body w k o s :
  ordersOk w →
  ObjectId (VStr id) = Some k →
  orderColl w !! k = Some o →
  JS.getProp body "status" = VStr s →
  s ∈ Order.statuses →
  let once := run (Server.patchOrderStatus id body) w in
  let twice := run (Server.patchOrderStatus id body) once.2 in
  twice.1 = once.1 ∧ sameColls once.2 twice.2.
Proof.
  intros Hok Hk Ho Hs Hin once twice.
  assert (once = (Response 200 (OrderDoc (Order.withStatus o (VStr s))),
                  World (productColl w)
                        (<[k := Order.withStatus o (VStr s)]> (orderColl w))
                        (accesses w ++ [OrderFindById (VStr id); OrderSave k])))
    as Hfirst.
  { unfold once, run.
    by rewrite (Server_patch_valid_status _ _ _ _ Hs Hin),
               (Legacy_patch_valid_status _ _ _ _ _ _ Hok Hk Ho Hs Hin). }
  assert (ordersOk once.2) as Hok1.
  { pose proof (patch_outcome id body w Hok) as [Hok1 _].
    rewrite (Legacy_patch_valid_status _ _ _ _ _ _ Hok Hk Ho Hs Hin) in Hok1.
    by rewrite Hfirst. }
  assert (orderColl once.2 !! k = Some (Order.withStatus o (VStr s))) as Ho1.
  { rewrite Hfirst. cbn. apply lookup_insert_eq. }
  unfold twice, run.
  rewrite (Server_patch_valid_status _ _ _ _ Hs Hin),
          (Legacy_patch_valid_status _ _ _ _ _ _ Hok1 Hk Ho1 Hs Hin).
  rewrite Hfirst. cbn. split; [done|]. split; [done|]. apply insert_insert_eq.
Qed.

(** X8: in [part_000], where the route has no validation chain, a request
    with no status (or a [null] one) on a stored order is answered 200
    with the order as it is, and the collections are unchanged. *)
Theorem Legacy_absent_status_keeps_order id body w k o :
  ordersOk w →
  ObjectId (VStr id) = Some k →
  orderColl w !! k = Some o →
  JS.getProp body "status" = VUndef ∨ JS.getProp body "status" = VNull →
  run (Legacy.patchOrderStatus id body) w
  = (Response 200 (OrderDoc o),
     World (productColl w) (orderColl w)
           (accesses w ++ [OrderFindById (VStr id); OrderSave k])).
Proof.
  intros Hok Hk Ho Hs. destruct (Hok _ _ Ho) as [Hid Hval].
  unfold run. rewrite patch_after_validation, Hk. cbn zeta. rewrite Ho.
  assert (JS.nullish (JS.getProp body "status") (Order.status o)
          = Order.status o) as -> by by destruct Hs as [-> | ->].
  assert (Order_setStatus o (Order.status o) = Some o) as ->.
  { pose proof Hval as Hst. unfold Order.validate in Hst.
    apply andb_prop in Hst as [_ Hst]. unfold Order_setStatus.
    destruct (Order.status o) eqn:Hstatus; try done. cbn.
    by rewrite <- Hstatus, withStatus_same. }
  rewrite Hval. cbn [accesses].
  rewrite <- app_assoc, Hid, insert_id by done. done.
Qed.

End StatusApplies.

(** ** The two versions agree on validated requests *)

Section Agreement.
Context `{Platform}.

(** X9: on a request that passes the validation chains of [index.js],
    the routes of [index.js] and of [part_000] run the same: same answer,
    same world, for [POST /api/orders] and for
    [PATCH /api/orders/:id/status]. *)
Theorem validated_requests_run_alike body :
  (Server.ordersChains body = [] →
   ∀ fresh now w,
     Server.postOrders body fresh now w = Legacy.postOrders body fresh now w) ∧
  (Server.statusChain body = [] →
   ∀ id w,
     Server.patchOrderStatus id body w = Legacy.patchOrderStatus id body w).
Proof.
  split.
  - intros Hv fresh now w.
    destruct (Server_chains_products body Hv) as (p & rest & Hl).
    rewrite (Server_postOrders_valid _ _ _ _ _ Hv Hl).
    destruct (Legacy_postOrders_cases body fresh now w)
      as [(p' & rest' & Hl' & ->)|[Hno _]]; [|destruct (Hno p rest Hl)].
    rewrite Hl in Hl'. by injection Hl' as <- <-.
  - intros Hv id w. by rewrite Server_patch_run, Hv.
Qed.

End Agreement.

(** ** Reading and deleting orders and products *)

Section CrudFacts.
Context `{Platform}.

Lemma getOrder_run id w :
  Crud.getOrder id w =
  match ObjectId (VStr id) with
  | None => (Sent (Response 400 (Message "Invalid order id")), w)
  | Some k =>
      let w1 := World (productColl w) (orderColl w)
                      (accesses w ++ [OrderFindById (VStr id)]) in
      match orderColl w !! k with
      | None => (Sent (Response 404 (Message "Order not found")), w1)
      | Some o => (Next (Populated o (refsIn (productColl w) o)), w1)
      end
  end.
Proof.
  unfold Crud.getOrder. rewrite isValidObjectId_text.
  destruct (ObjectId (VStr id)) as [k|] eqn:Hk; cbn [negb]; [|done].
  unfold mbind at 1, Handler_bind at 1. rewrite Order_findById_run, Hk.
  cbn zeta. by destruct (orderColl w !! k).
Qed.

Lemma deleteOrder_run id w :
  Crud.deleteOrder id w =
  match ObjectId (VStr id) with
  | None => (Sent (Response 400 (Message "Invalid order id")), w)
  | Some k =>
      let log := accesses w ++ [OrderFindById (VStr id)] in
      match orderColl w !! k with
      | None =>
          (Sent (Response 404 (Message "Order not found")),
           World (productColl w) (orderColl w) log)
      | Some o =>
          (Next (Response 200 (Message "Order removed")),
           World (productColl w) (delete k (orderColl w)) log)
      end
  end.
Proof.
  unfold Crud.deleteOrder. rewrite isValidObjectId_text.
  destruct (ObjectId (VStr id)) as [k|] eqn:Hk; cbn [negb]; [|done].
  unfold mbind at 1, Handler_bind at 1. rewrite Order_findById_run, Hk.
  cbn zeta. destruct (orderColl w !! k); [|done].
  unfold Crud.Order_findByIdAndDelete, castObjectId, mbind, Handler_bind.
  by rewrite Hk.
Qed.

Lemma getProduct_run id w :
  Crud.getProduct id w =
  match ObjectId (VStr id) with
  | None => (Sent (Response 400 (Message "Invalid product id")), w)
  | Some k =>
      let w1 := World (productColl w) (orderColl w)
                      (accesses w ++ [ProductFindById (VStr id)]) in
      match productColl w !! k with
      | None => (Sent (Response 404 (Message "Product not found")), w1)
      | Some p => (Next p, w1)
      end
  end.
Proof.
  unfold Crud.getProduct. rewrite isValidObjectId_text.
  destruct (ObjectId (VStr id)) as [k|] eqn:Hk; cbn [negb]; [|done].
  unfold mbind at 1, Handler_bind at 1. rewrite Product_findById_run, Hk.
  cbn zeta. by destruct (productColl w !! k).
Qed.

Lemma deleteProduct_run id w :
  Crud.deleteProduct id w =
  match ObjectId (VStr id) with
  | None => (Sent (Response 400 (Message "Invalid product id")), w)
  | Some k =>
      let log := accesses w ++ [ProductFindById (VStr id)] in
      match productColl w !! k with
      | None =>
          (Sent (Response 404 (Message "Product not found")),
           World (productColl w) (orderColl w) log)
      | Some p =>
          (Next (Response 200 (Message "Product removed")),
           World (delete k (productColl w)) (orderColl w) log)
      end
  end.
Proof.
  unfold Crud.deleteProduct. rewrite isValidObjectId_text.
  destruct (ObjectId (VStr id)) as [k|] eqn:Hk; cbn [negb]; [|done].
  unfold mbind at 1, Handler_bind at 1. rewrite Product_findById_run, Hk.
  cbn zeta. destruct (productColl w !! k); [|done].
  unfold Crud.Product_findByIdAndDelete, castObjectId, mbind, Handler_bind.
  by rewrite Hk.
Qed.

Lemma refs_of_priced_lines (w : world) lines items :
  catalogOk w →
  Forall2 (pricedLine (productColl w)) lines items →
  (λ item, refOf <$> productColl w !! OrderProduct.productId item) <$> items
  = (λ item, Some (ProductRef (OrderProduct.productId item)
                              (OrderProduct.title item)
                              (OrderProduct.code item))) <$> items.
Proof.
  intros Hcat. induction 1 as [|line item lines items Hline _ IH]; [done|].
  cbn. rewrite IH. f_equal.
  destruct (pricedLine_in_catalog w line item Hcat Hline)
    as (_ & prod & Hprod & -> & ->).
  rewrite Hprod. cbn. unfold refOf. by rewrite (Hcat _ _ Hprod).
Qed.

(** X10: an order just created can be read back: when the fresh id's text
    denotes that id, [GET /api/orders/:id] on the world the creation left
    answers the very document the creation answered, without changing the
    collections; and over a catalog filed under its own ids, the product
    populated into each line-item has the id, title and code the
    line-item itself stores. *)
Theorem created_order_reads_back body fresh now w o w' :
  creates body fresh now w o w' →
  ObjectId (VStr fresh) = Some fresh →
  catalogOk w →
  (Crud.getOrder fresh w').1
  = Next (Populated o
            ((λ item, Some (ProductRef (OrderProduct.productId item)
                                       (OrderProduct.title item)
                                       (OrderProduct.code item)))
               <$> Order.products o)) ∧
  sameColls w' (Crud.getOrder fresh w').2.
Proof.
  intros Hc Hfresh Hcat.
  destruct (creates_inv _ _ _ _ _ _ Hc)
    as (p & rest & color & charge & w1 & Hl & Hall & _ & _ & _ & [Hp Ho] & ->).
  rewrite getOrder_run, Hfresh. cbn zeta. cbn [orderColl productColl].
  rewrite lookup_insert_eq. unfold refsIn. rewrite Hp.
  rewrite (refs_of_priced_lines w _ _ Hcat Hall). by split.
Qed.

(** X11: [DELETE /api/orders/:id] on a stored order answers 200, removes
    that order and no other, leaves the catalog alone, and a later
    [GET /api/orders/:id] of the same id is answered 404. *)
Theorem delete_order_removes_exactly_that_order id w k o :
  ObjectId (VStr id) = Some k →
  orderColl w !! k = Some o →
  let after := run (Crud.deleteOrder id) w in
  after.1 = Response 200 (Message "Order removed") ∧
  productColl after.2 = productColl w ∧
  orderColl after.2 = delete k (orderColl w) ∧
  (∀ k', k' ≠ k → orderColl after.2 !! k' = orderColl w !! k') ∧
  (Crud.getOrder id after.2).1
  = Sent (Response 404 (Message "Order not found")).
Proof.
  intros Hk Ho after. unfold after, run.
  rewrite deleteOrder_run, Hk. cbn zeta. rewrite Ho. cbn.
  repeat split.
  - intros k' Hne. by rewrite lookup_delete_ne.
  - rewrite getOrder_run, Hk. cbn zeta. cbn [orderColl].
    by rewrite lookup_delete_eq.
Qed.

(** X12: a [DELETE /api/orders/:id] that finds nothing to delete changes
    no collection: an id that is not an identifier is answered 400 with
    the world untouched, an identifier that names no stored order is
    answered 404. *)
Theorem delete_order_without_target id w :
  (ObjectId (VStr id) = None ∨
   ∃ k, ObjectId (VStr id) = Some k ∧ orderColl w !! k = None) →
  let after := run (Crud.deleteOrder id) w in
  sameColls w after.2 ∧
  (ObjectId (VStr id) = None →
   after = (Response 400 (Message "Invalid order id"), w)) ∧
  (ObjectId (VStr id) ≠ None →
   after.1 = Response 404 (Message "Order not found")).
Proof.
  intros Hcase after. unfold after, run. rewrite deleteOrder_run.
  destruct Hcase as [Hk|(k & Hk & Ho)]; rewrite Hk.
  - by repeat split.
  - cbn zeta. rewrite Ho. by repeat split.
Qed.

(** X13: creating an order under an id the collection does not hold and
    then deleting it brings the orders collection back to what it was. *)
Theorem create_then_delete_restores_orders body fresh now w o w' :
  creates body fresh now w o w' →
  ObjectId (VStr fresh) = Some fresh →
  orderColl w !! fresh = None →
  let after := run (Crud.deleteOrder fresh) w' in
  after.1 = Response 200 (Message "Order removed") ∧
  orderColl after.2 = orderColl w ∧
  productColl after.2 = productColl w.
Proof.
  intros Hc Hfresh Hnone after.
  destruct (creates_inv _ _ _ _ _ _ Hc)
    as (p & rest & color & charge & w1 & _ & _ & _ & _ & _ & [Hp Ho] & ->).
  unfold after, run. rewrite deleteOrder_run, Hfresh. cbn zeta.
  cbn [orderColl productColl]. rewrite lookup_insert_eq. cbn.
  rewrite delete_insert_eq, Ho, Hp. split; [done|]. split; [|done].
  by apply delete_id.
Qed.

(** X14: the reading routes write nothing, and each deleting route
    writes its own collection only: [GET /api/orders/:id] and
    [GET /api/products/:id] leave both collections as they are,
    [DELETE /api/orders/:id] leaves the catalog and keeps the orders
    invariant, [DELETE /api/products/:id] leaves every stored order and
    keeps the catalog filed under its own ids. *)
Theorem crud_routes_footprint id w :
  sameColls w (Crud.getOrder id w).2 ∧
  sameColls w (Crud.getProduct id w).2 ∧
  (productColl (run (Crud.deleteOrder id) w).2 = productColl w ∧
   (ordersOk w → ordersOk (run (Crud.deleteOrder id) w).2)) ∧
  (orderColl (run (Crud.deleteProduct id) w).2 = orderColl w ∧
   (catalogOk w → catalogOk (run (Crud.deleteProduct id) w).2)).
Proof.
  refine (conj _ (conj _ (conj _ _))).
  - rewrite getOrder_run. destruct (ObjectId (VStr id)) as [k|]; [|by split].
    cbn zeta. by destruct (orderColl w !! k).
  - rewrite getProduct_run. destruct (ObjectId (VStr id)) as [k|]; [|by split].
    cbn zeta. by destruct (productColl w !! k).
  - unfold run. rewrite deleteOrder_run.
    destruct (ObjectId (VStr id)) as [k|]; [|by split].
    cbn zeta. destruct (orderColl w !! k); [|by split].
    split; [done|]. intros Hok k' o'. cbn [snd orderColl].
    intros [_ Ho']%lookup_delete_Some. by apply Hok.
  - unfold run. rewrite deleteProduct_run.
    destruct (ObjectId (VStr id)) as [k|]; [|by split].
    cbn zeta. destruct (productColl w !! k); [|by split].
    split; [done|]. intros Hok k' p'. cbn [snd productColl].
    intros [_ Hp']%lookup_delete_Some. by apply Hok.
Qed.

(** X15: a stored order is a snapshot. After [DELETE /api/products/:id]
    removed a product, [GET /api/orders/:id] still answers the same
    document (titles, codes, prices and total as stored); only the
    populated reference of the line-items of that product has become
    [null], the others are as before. *)
Theorem order_snapshot_survives_product_deletion pid oid w kp prod ko o :
  ObjectId (VStr pid) = Some kp →
  productColl w !! kp = Some prod →
  ObjectId (VStr oid) = Some ko →
  orderColl w !! ko = Some o →
  let after := run (Crud.deleteProduct pid) w in
  after.1 = Response 200 (Message "Product removed") ∧
  (Crud.getOrder oid after.2).1
  = Next (Populated o
            ((λ item,
                if decide (OrderProduct.productId item = kp) then None
                else refOf <$> productColl w !! OrderProduct.productId item)
               <$> Order.products o)).
Proof.
  intros Hkp Hprod Hko Ho after. unfold after, run.
  rewrite deleteProduct_run, Hkp. cbn zeta. rewrite Hprod. cbn [fst snd].
  split; [done|]. rewrite getOrder_run, Hko. cbn zeta.
  cbn [orderColl productColl]. rewrite Ho. cbn [fst]. unfold refsIn.
  f_equal. f_equal. apply list_fmap_ext. intros i item _.
  case_decide as Hd.
  - by rewrite Hd, lookup_delete_eq.
  - by rewrite lookup_delete_ne.
Qed.

(** X16: a deleted product can no longer be ordered: after
    [DELETE /api/products/:id] removed it, any order request (either
    version) whose cart has a line referring to it is refused, and the
    orders collection stays as it was. *)
Theorem deleted_product_cannot_be_ordered
    pid w kp prod body fresh now r w' lines p :
  ObjectId (VStr pid) = Some kp →
  productColl w !! kp = Some prod →
  JS.getProp body "products" = VArr lines →
  p ∈ lines →
  ObjectId (JS.optChain p "productId") = Some kp →
  answers body fresh now (run (Crud.deleteProduct pid) w).2 r w' →
  statusCode r ≠ 201%Z ∧ orderColl w' = orderColl w.
Proof.
  intros Hkp Hprod Hl Hin Hp Hans.
  assert ((run (Crud.deleteProduct pid) w).2
          = World (delete kp (productColl w)) (orderColl w)
                  (accesses w ++ [ProductFindById (VStr pid)])) as Hafter.
  { unfold run. rewrite deleteProduct_run, Hkp. cbn zeta. by rewrite Hprod. }
  rewrite Hafter in Hans.
  destruct (answers_outcome _ _ _ _ _ _ Hans)
    as (_ & [[Ho Hc]|(o & -> & _ & _ & _)]).
  - split; [destruct Hc as [-> | ->]; done|done].
  - exfalso.
    destruct (creates_inv _ _ _ _ _ _ Hans)
      as (p0 & rest & color & charge & w1 & Hl' & Hall & _).
    rewrite Hl in Hl'. injection Hl' as ->.
    apply (pricedLines_all_resolve _ _ _ Hall).
    apply Exists_exists. exists p. split; [done|].
    unfold resolve. destruct (_ && _); [|done].
    rewrite Hp. cbn. apply lookup_delete_eq.
Qed.

End CrudFacts.

(** ** Prices over a valid catalog *)

Section ValidCatalog.
Context `{Platform}.

Lemma unitPrice_of_valid allowed prod :
  ProductSchema.validate allowed prod = true →
  (0 <=? unitPrice prod)%float = true ∧
  (unitPrice prod = Product.price prod ∨
   (unitPrice prod <=? Product.price prod)%float = true) ∧
  (∀ d, Product.priceAfterDiscount prod = Some d → unitPrice prod = d).
Proof.
  unfold ProductSchema.validate, unitPrice.
  intros [[[_ Hprice]%andb_prop Hdisc]%andb_prop _]%andb_prop.
  destruct (Product.priceAfterDiscount prod) as [d|].
  - apply andb_prop in Hdisc as [Hmin Hmax]. rewrite Hmin.
    split; [done|]. split; [by right|]. by intros ? [= <-].
  - split; [done|]. split; [by left|done].
Qed.

(** X17: over a catalog whose products pass the product schema
    ([price >= 0], [0 <= priceAfterDiscount <= price]), every line-item
    of a created order is priced at least 0 and at most the product's
    list price, and a product that has a discount is always charged at
    its discounted price. *)
Theorem stored_prices_within_list_price allowed body fresh now w o w' :
  creates body fresh now w o w' →
  catalogValid allowed w →
  ∃ lines,
    JS.getProp body "products" = VArr lines ∧
    Forall2
      (λ p item, ∃ prod,
         resolve (productColl w) p = Some prod ∧
         (0 <=? OrderProduct.price item)%float = true ∧
         (OrderProduct.price item = Product.price prod ∨
          (OrderProduct.price item <=? Product.price prod)%float = true) ∧
         (∀ d, Product.priceAfterDiscount prod = Some d →
               OrderProduct.price item = d))
      lines (Order.products o).
Proof.
  intros (p & rest & color & charge & w1 & Hl & Hall & _)%creates_inv Hvalid.
  exists (p :: rest). split; [done|].
  eapply Forall2_impl; [exact Hall|].
  intros line item (prod & Hline). exists prod. split; [apply Hline|].
  rewrite (pricedFrom_price _ _ _ _ Hline). destruct Hline as [Hres _].
  apply resolve_Some in Hres as (_ & k & _ & Hprod).
  exact (unitPrice_of_valid allowed prod (Hvalid _ _ Hprod)).
Qed.

End ValidCatalog.

(** ** Image upload *)

Section UploadFacts.
Context `{Runtime}.

Lemma list_ascii_of_string_app (a b : string) :
  String.list_ascii_of_string (a +:+ b)
  = String.list_ascii_of_string a ++ String.list_ascii_of_string b.
Proof.
  induction a as [|c a IH]; [done|].
  cbn [String.list_ascii_of_string app]. rewrite <- IH. reflexivity.
Qed.

(** X18: [fileFilter] looks at the end of the mimetype only and ignores
    letter case: a mimetype that, folded to lower case, ends in one of
    [image/png], [image/jpg], [image/jpeg], [image/gif], [image/webp] is
    accepted whatever comes before. *)
Theorem fileFilter_accepts_any_prefix_and_case m pre e :
  e ∈ Upload.endings →
  Upload.foldCase m = pre +:+ e →
  Upload.fileFilter m = true.
Proof.
  intros He Hm. unfold Upload.fileFilter. apply existsb_exists.
  exists e. split; [by apply list_elem_of_In|].
  apply bool_decide_eq_true_2. rewrite Hm, list_ascii_of_string_app.
  by exists (String.list_ascii_of_string pre).
Qed.

Lemma foldChar_idem c : Upload.foldChar (Upload.foldChar c) = Upload.foldChar c.
Proof. by destruct c as [[] [] [] [] [] [] [] []]. Qed.

Lemma foldCase_idem m : Upload.foldCase (Upload.foldCase m) = Upload.foldCase m.
Proof.
  unfold Upload.foldCase. rewrite String.list_ascii_of_string_of_list_ascii.
  rewrite <- list_fmap_compose. f_equal. apply list_fmap_ext.
  intros i c _. apply foldChar_idem.
Qed.

(** [fileFilter] gives the same on a media type as sent and as
    received. *)
Lemma fileFilter_received f :
  Upload.fileFilter (Upload.mimetype (Upload.received f))
  = Upload.fileFilter (Upload.mimetype f).
Proof.
  unfold Upload.fileFilter. cbn [Upload.mimetype Upload.received].
  by rewrite foldCase_idem.
Qed.

(** The route on an accepted file below the size limit, with no image
    host. *)
Lemma route_local e f d :
  Upload.fileFilter (Upload.mimetype f) = true →
  (N.of_nat (length (Upload.buffer f)) < Upload.fileSize)%N →
  Upload.IMGBB_KEY e = None ∨ Upload.IMGBB_KEY e = Some "" →
  Upload.route e (Some f) d
  = (Upload.Stored
       (VStr ("/uploads/" +:+ Upload.filename e (Upload.received f)))
       (Some "local"),
     <[Upload.uploadPath e (Upload.filename e (Upload.received f))
       := Upload.buffer f]> d).
Proof.
  intros Hfilter Hsize Hkey. unfold Upload.route, Upload.single. cbn zeta.
  rewrite fileFilter_received, Hfilter. cbn [negb].
  apply N.leb_gt in Hsize. cbn [Upload.buffer Upload.received].
  rewrite Hsize. unfold Upload.handler.
  by destruct Hkey as [-> | ->].
Qed.

(** X19: the extension is looked up in the table by the media type as
    received, in lower case, whatever the case it was sent in: an accepted
    file, below the size limit and with no [IMGBB_KEY], is saved under
    [img_<now>_<random>] with the extension the table has for its type
    ([image/PNG] gets [.png]), and with [.bin] when the type is not in the
    table: [fileFilter] tests the end of the type only, and accepts
    [ximage/png]. The route answers the [/uploads/] url of the file and
    writes the buffer there. *)
Theorem accepted_upload_outside_table_is_saved_as_bin e f d :
  Upload.fileFilter (Upload.mimetype f) = true →
  (N.of_nat (length (Upload.buffer f)) < Upload.fileSize)%N →
  Upload.IMGBB_KEY e = None ∨ Upload.IMGBB_KEY e = Some "" →
  let saved x :=
    let name :=
      "img_" +:+ NumberToString (Upload.now e) +:+ "_" +:+ Upload.random e
      +:+ x in
    (Upload.Stored (VStr ("/uploads/" +:+ name)) (Some "local"),
     <[Upload.uploadPath e name := Upload.buffer f]> d) in
  (∀ x, Upload.extensions !! Upload.foldCase (Upload.mimetype f) = Some x →
        Upload.route e (Some f) d = saved x) ∧
  (Upload.extensions !! Upload.foldCase (Upload.mimetype f) = None →
   Upload.route e (Some f) d = saved ".bin").
Proof.
  intros Hfilter Hsize Hkey saved.
  rewrite (route_local e f d Hfilter Hsize Hkey).
  unfold saved, Upload.filename, Upload.ext. cbn [Upload.mimetype Upload.received].
  split; [intros x Hx|intros Hx]; by rewrite Hx.
Qed.

(** X20: the upload route writes at most one file, and only for an
    accepted file saved locally. In [part_000] the disk is never written.
    In [index.js] the disk is as before unless the request has a file
    that [fileFilter] accepts and there is no [IMGBB_KEY]; the route then
    answers the [/uploads/] url of the one file it wrote, holding the
    uploaded buffer. A file [fileFilter] refuses is answered 500 "Only
    image files allowed" by both versions. *)
Theorem upload_writes_only_an_accepted_local_file e f d :
  (Upload.legacyRoute e f d).2 = d ∧
  ((Upload.route e f d).2 = d ∨
   ∃ file,
     f = Some file ∧ Upload.fileFilter (Upload.mimetype file) = true ∧
     (Upload.IMGBB_KEY e = None ∨ Upload.IMGBB_KEY e = Some "") ∧
     Upload.route e f d
     = (Upload.Stored
          (VStr ("/uploads/" +:+ Upload.filename e (Upload.received file)))
          (Some "local"),
        <[Upload.uploadPath e (Upload.filename e (Upload.received file))
          := Upload.buffer file]> d)) ∧
  (∀ file, f = Some file → Upload.fileFilter (Upload.mimetype file) = false →
     Upload.route e f d
     = (Upload.Failed (Response 500 (Message "Only image files allowed")), d) ∧
     Upload.legacyRoute e f d
     = (Upload.Failed (Response 500 (Message "Only image files allowed")), d)).
Proof.
  unfold Upload.legacyRoute, Upload.route, Upload.single.
  refine (conj _ (conj _ _)).
  - destruct f as [file|]; [|done]. cbn zeta.
    destruct (Upload.fileFilter _); cbn [negb]; [|done].
    destruct (_ <=? _)%N; [done|]. cbn.
    by destruct (Upload.IMGBB_KEY e) as [[|c key]|].
  - destruct f as [file|]; [|by left]. cbn zeta.
    rewrite fileFilter_received.
    destruct (Upload.fileFilter _) eqn:Hfilter; cbn [negb]; [|by left].
    destruct (_ <=? _)%N; [by left|]. cbn.
    destruct (Upload.IMGBB_KEY e) as [[|c key]|] eqn:Hkey; [| by left |].
    + right. exists file. repeat split; auto.
    + right. exists file. repeat split; auto.
  - intros file -> Hfilter. cbn zeta. by rewrite fileFilter_received, Hfilter.
Qed.

End UploadFacts.

(** ** The product list filter *)

Section ProductListFacts.
Context `{Runtime}.

Lemma split_length s :
  length (ProductList.split s)
  = S (length (base.filter (λ c, c = ","%char)
                           (String.list_ascii_of_string s))).
Proof.
  induction s as [|c s IH]; [done|]. cbn [ProductList.split].
  cbn [String.list_ascii_of_string]. rewrite filter_cons.
  destruct (Ascii.eqb_spec c ","%char) as [->|Hne].
  - rewrite decide_True by done. cbn. by rewrite IH.
  - rewrite decide_False by done.
    destruct (ProductList.split s) as [|piece pieces] eqn:Hs; [done|].
    cbn. cbn in IH. done.
Qed.

(** X21: in [index.js] the category filter handed to [Product.find],
    when there is one, is never empty and never holds an empty text:
    each of its entries is the trimmed form of a comma-separated piece of
    the [categories] parameter. *)
Theorem category_filter_has_no_empty_entry categories search q l :
  ProductList.filter categories search = Some q →
  ProductList.categoriesIn q = Some l →
  l ≠ [] ∧
  ∀ x, x ∈ l →
       x ≠ "" ∧
       ∃ s piece, JS.ToString categories = Some s ∧
                  piece ∈ ProductList.split s ∧ x = StringTrim piece.
Proof.
  unfold ProductList.filter. intros Hq Hl.
  destruct (JS.truthy categories); [|cbn in Hq].
  - destruct (JS.ToString categories) as [s|]; [|done]. cbn in Hq.
    destruct (ProductList.searchOf search) as [text|]; [|by case_bool_decide].
    cbn in Hq. case_bool_decide as Hlen; injection Hq as <-; [done|].
    cbn in Hl. injection Hl as <-. split.
    + intros Hnil. by rewrite Hnil in Hlen.
    + intros x [Hx Hin]%list_elem_of_filter. split.
      * intros ->. by cbn in Hx.
      * apply list_elem_of_fmap in Hin as (piece & -> & Hpiece).
        by exists s, piece.
  - destruct (ProductList.searchOf search); [|done]. cbn in Hq.
    injection Hq as <-. done.
Qed.

(** X22: where the two versions part. When every comma-separated piece
    of a truthy [categories] parameter trims to the empty text (the
    parameter [","], say), [index.js] sets no category filter, so the
    list is not narrowed, while [part_000] filters on one empty text per
    piece; its filter is never absent for a truthy parameter. *)
Theorem blank_categories_filter_differs categories search s q q' :
  JS.truthy categories = true →
  JS.ToString categories = Some s →
  (∀ piece, piece ∈ ProductList.split s → StringTrim piece = "") →
  ProductList.filter categories search = Some q →
  ProductList.legacyFilter categories search = Some q' →
  ProductList.categoriesIn q = None ∧
  ProductList.categoriesIn q'
  = Some (replicate (length (ProductList.split s)) "") ∧
  ProductList.textSearch q = ProductList.textSearch q' ∧
  (0 < length (ProductList.split s))%nat.
Proof.
  unfold ProductList.filter, ProductList.legacyFilter.
  intros -> -> Hblank. cbn [mbind option_bind].
  assert (StringTrim <$> ProductList.split s
          = replicate (length (ProductList.split s)) "") as Htrim.
  { induction (ProductList.split s) as [|piece pieces IH]; [done|].
    cbn. rewrite (Hblank piece) by left. f_equal. apply IH.
    intros p Hp. apply Hblank. by right. }
  rewrite Htrim.
  assert (base.filter (λ x, JS.truthy (VStr x) = true)
            (replicate (length (ProductList.split s)) "") = []) as ->.
  { clear. induction (length (ProductList.split s)) as [|n IH]; [done|].
    cbn [replicate]. rewrite filter_cons. rewrite decide_False by (by cbn).
    exact IH. }
  rewrite length_replicate, split_length. cbn.
  destruct (ProductList.searchOf search) as [text|]; [|done]. cbn.
  intros [= <-] [= <-]. cbn. repeat split. lia.
Qed.

End ProductListFacts.

(** ** The sales total *)

Section DashboardFacts.
Context `{Platform} `{Dashboard.Aggregation}.

Lemma totalOrders_size w :
  Dashboard.totalOrders (Dashboard.totalSales w) = size (orderColl w).
Proof.
  unfold Dashboard.totalSales, Dashboard.aggregate.
  case_bool_decide as He; [by rewrite He, map_size_empty|done].
Qed.

(** X23: the sales total counts the stored orders: it answers 0 and 0 on
    an empty collection, and after an order was created under an id the
    collection did not hold, [totalOrders] is one more than before. *)
Theorem total_sales_counts_created_order body fresh now w o w' :
  creates body fresh now w o w' →
  orderColl w !! fresh = None →
  Dashboard.totalOrders (Dashboard.totalSales w')
  = S (Dashboard.totalOrders (Dashboard.totalSales w)) ∧
  (orderColl w = ∅ →
   Dashboard.totalSales w = Dashboard.Sales 0 0 ∧
   Dashboard.totalOrders (Dashboard.totalSales w') = 1%nat).
Proof.
  intros Hc Hnone.
  destruct (creates_inv _ _ _ _ _ _ Hc)
    as (p & rest & color & charge & w1 & _ & _ & _ & _ & _ & [_ Ho] & ->).
  rewrite !totalOrders_size. cbn [orderColl]. rewrite Ho.
  rewrite map_size_insert_None by done. split; [done|].
  intros He. rewrite He, map_size_empty. split; [|done].
  unfold Dashboard.totalSales, Dashboard.aggregate.
  by rewrite He, bool_decide_eq_true_2.
Qed.

End DashboardFacts.

(** ** The further properties on the examples *)

(** Closes [ordersOk] and [catalogOk] on a world given by inserts. *)
Ltac filed :=
  let k := fresh "k" in
  let x := fresh "x" in
  let Hk := fresh "Hk" in
  intros k x Hk; cbn in Hk;
  first
    [ apply lookup_singleton_Some in Hk as [<- <-]; by vm_compute
    | repeat (apply lookup_insert_Some in Hk as [[<- <-]|[_ Hk]];
              [by vm_compute|]);
      by rewrite lookup_empty in Hk ].

(** X1 on the cart with a line that is not an id: 400, nothing written. *)
Lemma post_orders_all_or_nothing_witness :
  productColl Scenario.afterRefusal = productColl Example.shop ∧
  (statusCode Scenario.refusal = 201%Z ∨ statusCode Scenario.refusal = 400%Z
   ∨ statusCode Scenario.refusal = 500%Z) ∧
  (statusCode Scenario.refusal ≠ 201%Z →
   orderColl Scenario.afterRefusal = orderColl Example.shop) ∧
  (∀ k, k ≠ Example.O1 →
        orderColl Scenario.afterRefusal !! k = orderColl Example.shop !! k) ∧
  (statusCode Scenario.refusal = 201%Z →
   ∃ o, Scenario.refusal = Response 201 (OrderDoc o) ∧
        orderColl Scenario.afterRefusal !! Example.O1 = Some o).
Proof.
  apply (post_orders_all_or_nothing (H := Ref.platform)
           Example.brokenBody Example.O1 7 Example.shop).
  left. vm_compute. reflexivity.
Defined.

(** X2 on the shop that holds [O1], after [O2] was created. *)
Lemma post_orders_keeps_orders_valid_witness :
  ordersOk (Example.stored Example.shop1 Example.cheapShirtsOrder
                           [ProductFindById (VStr Example.P1)]).
Proof.
  apply (post_orders_keeps_orders_valid (H := Ref.platform)
           Example.cheapShirtsBody Example.O2 7 Example.shop1
           (Response 201 (OrderDoc Example.cheapShirtsOrder))).
  - left. vm_compute. reflexivity.
  - unfold ordersOk, Example.shop1. filed.
Defined.

(** X3 on the two shirts: one lookup, then one save. *)
Lemma creation_reads_each_line_once_then_writes_once_witness :
  Scenario.afterTwoShirts
  = World (productColl Example.shop)
          (<[Example.O1 := Example.twoShirtsOrder]> (orderColl Example.shop))
          (accesses Example.shop ++ lookups [Example.twoShirts]
           ++ [OrderSave Example.O1]).
Proof.
  apply (creation_reads_each_line_once_then_writes_once (H := Ref.platform)
           Example.twoShirtsBody Example.O1 7).
  - left. vm_compute. reflexivity.
  - vm_compute. reflexivity.
Defined.

(** X4 on the two shirts. *)
Lemma line_items_follow_cart_witness :
  Forall2
    (λ p item,
       ObjectId (Platform := Ref.platform) (JS.optChain p "productId")
       = Some (OrderProduct.productId item) ∧
       ∃ prod,
         productColl Example.shop !! OrderProduct.productId item = Some prod ∧
         OrderProduct.title item = Product.title prod ∧
         OrderProduct.code item = Product.code prod)
    [Example.twoShirts] (Order.products Example.twoShirtsOrder).
Proof.
  apply (line_items_follow_cart (H := Ref.platform)
           Example.twoShirtsBody Example.O1 7 Example.shop
           Example.twoShirtsOrder Scenario.afterTwoShirts).
  - left. vm_compute. reflexivity.
  - vm_compute. reflexivity.
  - unfold catalogOk, Example.shop, Example.catalog. filed.
Defined.

(** X5 on the stored order [O1], from [pending] to [delivered]. *)
Lemma status_transition_applies_witness :
  run (Server.patchOrderStatus (H := Ref.platform) Example.O1 Example.delivered)
      Example.shop1
  = (Response 200 (OrderDoc Scenario.deliveredOrder),
     World (productColl Example.shop1)
           (<[Example.O1 := Scenario.deliveredOrder]> (orderColl Example.shop1))
           (accesses Example.shop1
            ++ [OrderFindById (VStr Example.O1); OrderSave Example.O1])) ∧
  run (Legacy.patchOrderStatus (H := Ref.platform) Example.O1 Example.delivered)
      Example.shop1
  = run (Server.patchOrderStatus (H := Ref.platform) Example.O1
           Example.delivered) Example.shop1.
Proof.
  apply (status_transition_applies (H := Ref.platform) Example.O1
           Example.delivered Example.shop1 Example.O1 Example.twoShirtsOrder
           "delivered").
  - unfold ordersOk, Example.shop1. filed.
  - vm_compute. reflexivity.
  - vm_compute. reflexivity.
  - vm_compute. reflexivity.
  - apply (bool_decide_unpack _). vm_compute. exact I.
Defined.

(** X6 on the shop that holds [O1]. *)
Lemma status_route_keeps_orders_valid_witness :
  (ordersOk (run (Server.patchOrderStatus (H := Ref.platform) Example.O1
                    Example.delivered) Example.shop1).2 ∧
   productColl (run (Server.patchOrderStatus (H := Ref.platform) Example.O1
                       Example.delivered) Example.shop1).2
   = productColl Example.shop1) ∧
  (ordersOk (run (Legacy.patchOrderStatus (H := Ref.platform) Example.O1
                    Example.delivered) Example.shop1).2 ∧
   productColl (run (Legacy.patchOrderStatus (H := Ref.platform) Example.O1
                       Example.delivered) Example.shop1).2
   = productColl Example.shop1).
Proof.
  apply (status_route_keeps_orders_valid (H := Ref.platform)).
  unfold ordersOk, Example.shop1. filed.
Defined.

(** X7 on the stored order [O1], delivered twice. *)
Lemma status_transition_idempotent_witness :
  let once :=
    run (Server.patchOrderStatus (H := Ref.platform) Example.O1
           Example.delivered) Example.shop1 in
  let twice :=
    run (Server.patchOrderStatus (H := Ref.platform) Example.O1
           Example.delivered) once.2 in
  twice.1 = once.1 ∧ sameColls once.2 twice.2.
Proof.
  apply (status_transition_idempotent (H := Ref.platform) Example.O1
           Example.delivered Example.shop1 Example.O1 Example.twoShirtsOrder
           "delivered").
  - unfold ordersOk, Example.shop1. filed.
  - vm_compute. reflexivity.
  - vm_compute. reflexivity.
  - vm_compute. reflexivity.
  - apply (bool_decide_unpack _). vm_compute. exact I.
Defined.

(** X8 on the stored order [O1] and a body with no status. *)
Lemma Legacy_absent_status_keeps_order_witness :
  run (Legacy.patchOrderStatus (H := Ref.platform) Example.O1 Example.noCart)
      Example.shop1
  = (Response 200 (OrderDoc Example.twoShirtsOrder),
     World (productColl Example.shop1) (orderColl Example.shop1)
           (accesses Example.shop1
            ++ [OrderFindById (VStr Example.O1); OrderSave Example.O1])).
Proof.
  apply (Legacy_absent_status_keeps_order (H := Ref.platform) Example.O1
           Example.noCart Example.shop1 Example.O1 Example.twoShirtsOrder).
  - unfold ordersOk, Example.shop1. filed.
  - vm_compute. reflexivity.
  - vm_compute. reflexivity.
  - left. vm_compute. reflexivity.
Defined.

(** X9 on the two shirts and on the request to deliver. *)
Lemma validated_requests_run_alike_witness :
  (∀ fresh now w,
     Server.postOrders (H := Ref.platform) Example.twoShirtsBody fresh now w
     = Legacy.postOrders (H := Ref.platform) Example.twoShirtsBody fresh now w) ∧
  (∀ id w,
     Server.patchOrderStatus (H := Ref.platform) id Example.delivered w
     = Legacy.patchOrderStatus (H := Ref.platform) id Example.delivered w).
Proof.
  split.
  - apply (proj1 (validated_requests_run_alike (H := Ref.platform)
                    Example.twoShirtsBody)).
    vm_compute. reflexivity.
  - apply (proj2 (validated_requests_run_alike (H := Ref.platform)
                    Example.delivered)).
    vm_compute. reflexivity.
Defined.

(** X10 on the two shirts, read back. *)
Lemma created_order_reads_back_witness :
  (Crud.getOrder (H := Ref.platform) Example.O1 Scenario.afterTwoShirts).1
  = Next (Populated Example.twoShirtsOrder
            ((λ item, Some (ProductRef (OrderProduct.productId item)
                                       (OrderProduct.title item)
                                       (OrderProduct.code item)))
               <$> Order.products Example.twoShirtsOrder)) ∧
  sameColls Scenario.afterTwoShirts
    (Crud.getOrder (H := Ref.platform) Example.O1 Scenario.afterTwoShirts).2.
Proof.
  apply (created_order_reads_back (H := Ref.platform)
           Example.twoShirtsBody Example.O1 7 Example.shop).
  - left. vm_compute. reflexivity.
  - vm_compute. reflexivity.
  - unfold catalogOk, Example.shop, Example.catalog. filed.
Defined.

(** X11 on the shop that holds [O1]. *)
Lemma delete_order_removes_exactly_that_order_witness :
  let after :=
    run (Crud.deleteOrder (H := Ref.platform) Example.O1) Example.shop1 in
  after.1 = Response 200 (Message "Order removed") ∧
  productColl after.2 = productColl Example.shop1 ∧
  orderColl after.2 = delete Example.O1 (orderColl Example.shop1) ∧
  (∀ k', k' ≠ Example.O1 →
         orderColl after.2 !! k' = orderColl Example.shop1 !! k') ∧
  (Crud.getOrder (H := Ref.platform) Example.O1 after.2).1
  = Sent (Response 404 (Message "Order not found")).
Proof.
  apply (delete_order_removes_exactly_that_order (H := Ref.platform)
           Example.O1 Example.shop1 Example.O1 Example.twoShirtsOrder).
  - vm_compute. reflexivity.
  - vm_compute. reflexivity.
Defined.

(** X12 on the unknown [O2] and on a text that is no identifier. *)
Lemma delete_order_without_target_witness :
  (let after :=
     run (Crud.deleteOrder (H := Ref.platform) Example.O2) Example.shop1 in
   sameColls Example.shop1 after.2 ∧
   (ObjectId (Platform := Ref.platform) (VStr Example.O2) = None →
    after = (Response 400 (Message "Invalid order id"), Example.shop1)) ∧
   (ObjectId (Platform := Ref.platform) (VStr Example.O2) ≠ None →
    after.1 = Response 404 (Message "Order not found"))) ∧
  (let after :=
     run (Crud.deleteOrder (H := Ref.platform) "42") Example.shop1 in
   sameColls Example.shop1 after.2 ∧
   (ObjectId (Platform := Ref.platform) (VStr "42") = None →
    after = (Response 400 (Message "Invalid order id"), Example.shop1)) ∧
   (ObjectId (Platform := Ref.platform) (VStr "42") ≠ None →
    after.1 = Response 404 (Message "Order not found"))).
Proof.
  split.
  - apply (delete_order_without_target (H := Ref.platform)).
    right. exists Example.O2. split; vm_compute; reflexivity.
  - apply (delete_order_without_target (H := Ref.platform)).
    left. vm_compute. reflexivity.
Defined.

(** X13 on the two shirts, created and deleted again. *)
Lemma create_then_delete_restores_orders_witness :
  let after :=
    run (Crud.deleteOrder (H := Ref.platform) Example.O1)
        Scenario.afterTwoShirts in
  after.1 = Response 200 (Message "Order removed") ∧
  orderColl after.2 = orderColl Example.shop ∧
  productColl after.2 = productColl Example.shop.
Proof.
  apply (create_then_delete_restores_orders (H := Ref.platform)
           Example.twoShirtsBody Example.O1 7 Example.shop
           Example.twoShirtsOrder).
  - left. vm_compute. reflexivity.
  - vm_compute. reflexivity.
  - vm_compute. reflexivity.
Defined.

(** X14 on the shop that holds [O1]. *)
Lemma crud_routes_footprint_witness :
  sameColls Example.shop1
    (Crud.getOrder (H := Ref.platform) Example.O1 Example.shop1).2 ∧
  sameColls Example.shop1
    (Crud.getProduct (H := Ref.platform) Example.P1 Example.shop1).2 ∧
  ordersOk (run (Crud.deleteOrder (H := Ref.platform) Example.O1)
                Example.shop1).2 ∧
  catalogOk (run (Crud.deleteProduct (H := Ref.platform) Example.P1)
                 Example.shop1).2.
Proof.
  destruct (crud_routes_footprint (H := Ref.platform) Example.O1 Example.shop1)
    as (Hget & _ & [_ Hdel] & _).
  destruct (crud_routes_footprint (H := Ref.platform) Example.P1 Example.shop1)
    as (_ & Hprod & _ & [_ Hcat]).
  refine (conj Hget (conj Hprod (conj (Hdel _) (Hcat _)))).
  - unfold ordersOk, Example.shop1. filed.
  - unfold catalogOk, Example.shop1, Example.catalog. filed.
Defined.

(** X15 on the stored order [O1], after the shirt left the catalog: the
    document is the same, its one populated product is [null]. *)
Lemma order_snapshot_survives_product_deletion_witness :
  let after :=
    run (Crud.deleteProduct (H := Ref.platform) Example.P1) Example.shop1 in
  after.1 = Response 200 (Message "Product removed") ∧
  (Crud.getOrder (H := Ref.platform) Example.O1 after.2).1
  = Next (Populated Example.twoShirtsOrder
            ((λ item,
                if decide (OrderProduct.productId item = Example.P1) then None
                else refOf <$> productColl Example.shop1
                                 !! OrderProduct.productId item)
               <$> Order.products Example.twoShirtsOrder)).
Proof.
  apply (order_snapshot_survives_product_deletion (H := Ref.platform)
           Example.P1 Example.O1 Example.shop1 Example.P1 Example.shirt
           Example.O1 Example.twoShirtsOrder).
  - vm_compute. reflexivity.
  - vm_compute. reflexivity.
  - vm_compute. reflexivity.
  - vm_compute. reflexivity.
Defined.

(** X16 on the two shirts, ordered after the shirt left the catalog. *)
Lemma deleted_product_cannot_be_ordered_witness :
  statusCode (Response 400
                (Message "Product 64b7f0a1c2d3e4f5a6b7c8d9 not found"))
  ≠ 201%Z ∧
  orderColl
    (World (delete Example.P1 Example.catalog)
           {[Example.O1 := Example.twoShirtsOrder]}
           [ProductFindById (VStr Example.P1);
            ProductFindById (VStr Example.P1)])
  = orderColl Example.shop1.
Proof.
  apply (deleted_product_cannot_be_ordered (H := Ref.platform)
           Example.P1 Example.shop1 Example.P1 Example.shirt
           Example.twoShirtsBody Example.O2 7
           (Response 400
              (Message "Product 64b7f0a1c2d3e4f5a6b7c8d9 not found"))
           _ [Example.twoShirts] Example.twoShirts).
  - vm_compute. reflexivity.
  - vm_compute. reflexivity.
  - vm_compute. reflexivity.
  - apply list_elem_of_singleton. reflexivity.
  - vm_compute. reflexivity.
  - left. vm_compute. reflexivity.
Defined.

(** X17 on the two shirts over the example catalog, which passes the
    product schema with [beetroth] as the one allowed category. *)
Lemma stored_prices_within_list_price_witness :
  ∃ lines,
    JS.getProp Example.twoShirtsBody "products" = VArr lines ∧
    Forall2
      (λ p item, ∃ prod,
         resolve (H := Ref.platform) (productColl Example.shop) p = Some prod ∧
         (0 <=? OrderProduct.price item)%float = true ∧
         (OrderProduct.price item = Product.price prod ∨
          (OrderProduct.price item <=? Product.price prod)%float = true) ∧
         (∀ d, Product.priceAfterDiscount prod = Some d →
               OrderProduct.price item = d))
      lines (Order.products Example.twoShirtsOrder).
Proof.
  apply (stored_prices_within_list_price (H := Ref.platform) ["beetroth"]
           Example.twoShirtsBody Example.O1 7 Example.shop
           Example.twoShirtsOrder Scenario.afterTwoShirts).
  - left. vm_compute. reflexivity.
  - unfold catalogValid, Example.shop, Example.catalog. filed.
Defined.

(** X18 on [application/x-IMAGE/PNG]. *)
Lemma fileFilter_accepts_any_prefix_and_case_witness :
  Upload.fileFilter "application/x-IMAGE/PNG" = true.
Proof.
  apply (fileFilter_accepts_any_prefix_and_case
           "application/x-IMAGE/PNG" "application/x-" "image/png").
  - apply (bool_decide_unpack _). vm_compute. exact I.
  - vm_compute. reflexivity.
Defined.

(** X19 on a picture sent as [image/PNG], saved as [.png], and on one
    sent as [ximage/png], saved as [.bin]. *)
Lemma accepted_upload_outside_table_is_saved_as_bin_witness :
  Upload.route (H := Ref.runtime) Scenario.local (Some Scenario.picture) ∅
  = (Upload.Stored (VStr "/uploads/img_1700000000000_k3j9x2.png")
                   (Some "local"),
     {["uploads/img_1700000000000_k3j9x2.png" := ["a"; "b"; "c"]%char]}) ∧
  Upload.route (H := Ref.runtime) Scenario.local (Some Scenario.oddPicture) ∅
  = (Upload.Stored (VStr "/uploads/img_1700000000000_k3j9x2.bin")
                   (Some "local"),
     {["uploads/img_1700000000000_k3j9x2.bin" := ["a"; "b"; "c"]%char]}).
Proof.
  split.
  - pose proof (proj1 (accepted_upload_outside_table_is_saved_as_bin
                         (H := Ref.runtime) Scenario.local Scenario.picture ∅
                         eq_refl eq_refl (or_introl eq_refl)) ".png" eq_refl)
      as Hsaved.
    etransitivity; [exact Hsaved|]. vm_compute. reflexivity.
  - pose proof (proj2 (accepted_upload_outside_table_is_saved_as_bin
                         (H := Ref.runtime) Scenario.local Scenario.oddPicture
                         ∅ eq_refl eq_refl (or_introl eq_refl)) eq_refl)
      as Hsaved.
    etransitivity; [exact Hsaved|]. vm_compute. reflexivity.
Defined.

(** X20 on a text file. *)
Lemma upload_writes_only_an_accepted_local_file_witness :
  Upload.route (H := Ref.runtime) Scenario.local (Some Scenario.textFile) ∅
  = (Upload.Failed (Response 500 (Message "Only image files allowed")), ∅) ∧
  Upload.legacyRoute Scenario.local (Some Scenario.textFile) ∅
  = (Upload.Failed (Response 500 (Message "Only image files allowed")), ∅).
Proof.
  apply (proj2 (proj2 (upload_writes_only_an_accepted_local_file
                         (H := Ref.runtime) Scenario.local
                         (Some Scenario.textFile) ∅)) Scenario.textFile).
  - reflexivity.
  - vm_compute. reflexivity.
Defined.

(** X21 on the parameter ["a, ,b"]. *)
Lemma category_filter_has_no_empty_entry_witness :
  ["a"; "b"] ≠ [] ∧
  ∀ x, x ∈ ["a"; "b"] →
       x ≠ "" ∧
       ∃ s piece, JS.ToString (H := Ref.runtime) (VStr "a, ,b") = Some s ∧
                  piece ∈ ProductList.split s ∧
                  x = StringTrim (Runtime := Ref.runtime) piece.
Proof.
  apply (category_filter_has_no_empty_entry (H := Ref.runtime)
           (VStr "a, ,b") VUndef
           (ProductList.Query (Some ["a"; "b"]) None)).
  - vm_compute. reflexivity.
  - reflexivity.
Defined.

(** X22 on the parameter [","]. *)
Lemma blank_categories_filter_differs_witness :
  ProductList.categoriesIn (ProductList.Query None None) = None ∧
  ProductList.categoriesIn (ProductList.Query (Some [""; ""]) None)
  = Some (replicate (length (ProductList.split ",")) "") ∧
  ProductList.textSearch (ProductList.Query None None)
  = ProductList.textSearch (ProductList.Query (Some [""; ""]) None) ∧
  (0 < length (ProductList.split ","))%nat.
Proof.
  apply (blank_categories_filter_differs (H := Ref.runtime)
           (VStr ",") VUndef ",").
  - vm_compute. reflexivity.
  - vm_compute. reflexivity.
  - intros piece Hpiece. cbn in Hpiece.
    repeat (apply elem_of_cons in Hpiece as [->|Hpiece];
            [by vm_compute|]).
    by apply elem_of_nil in Hpiece.
  - vm_compute. reflexivity.
  - vm_compute. reflexivity.
Defined.

(** X23 on the empty shop and the two shirts. *)
Lemma total_sales_counts_created_order_witness :
  Dashboard.totalSales (H := Scenario.foldSum) Example.shop
  = Dashboard.Sales 0 0 ∧
  Dashboard.totalOrders
    (Dashboard.totalSales (H := Scenario.foldSum) Scenario.afterTwoShirts)
  = 1%nat.
Proof.
  apply (total_sales_counts_created_order (H := Ref.platform)
           (H0 := Scenario.foldSum)
           Example.twoShirtsBody Example.O1 7 Example.shop
           Example.twoShirtsOrder Scenario.afterTwoShirts).
  - left. vm_compute. reflexivity.
  - vm_compute. reflexivity.
  - vm_compute. reflexivity.
Defined.
